(** * Logo manager: download_and_upload_logos.py and download_logos.py

    A shallow embedding of the two logo-processing scripts, of the test
    upload r2_test_upload.py and of the library calls they depend on (str
    methods, float, urllib.parse.urlparse, pathlib, argparse, time.sleep,
    the MongoDB filter operators the scripts use), followed by the
    properties of the storage key, the content type, the record selection,
    the per-record pipeline and the loop over the batch.

    Strings are byte strings. The models of [str.lower], of [urlparse] and
    of [float] are those of CPython 3.11 on ASCII strings; the statements
    that depend on them carry that condition. *)

From Stdlib Require Import ZArith Lia List Bool Ascii String.
From Stdlib Require Import Floats.SpecFloat.
From stdpp Require Import base gmap strings list fin_maps pretty.

Local Open Scope string_scope.
Local Open Scope list_scope.
Set Warnings "-register-all".

(** ** Python str methods used by the scripts and by urllib / pathlib *)
Module PyStr.

Definition is_upper (c : ascii) : bool :=
  (65 <=? nat_of_ascii c)%nat && (nat_of_ascii c <=? 90)%nat.

Definition is_lower (c : ascii) : bool :=
  (97 <=? nat_of_ascii c)%nat && (nat_of_ascii c <=? 122)%nat.

Definition is_digit (c : ascii) : bool :=
  (48 <=? nat_of_ascii c)%nat && (nat_of_ascii c <=? 57)%nat.

Definition is_alpha (c : ascii) : bool := is_upper c || is_lower c.

Definition lower_char (c : ascii) : ascii :=
  if is_upper c then ascii_of_nat (nat_of_ascii c + 32) else c.

(** [s.lower()] for an ASCII string: the letters A to Z are lowered,
    every other byte is kept. *)
Fixpoint lower (s : string) : string :=
  match s with
  | EmptyString => EmptyString
  | String c r => String (lower_char c) (lower r)
  end.

(** [s.find(c)]: index of the first occurrence, [None] for -1. *)
Fixpoint find (c : ascii) (s : string) : option nat :=
  match s with
  | EmptyString => None
  | String a r => if Ascii.eqb a c then Some 0%nat else S <$> find c r
  end.

(** [s.rfind(c)]: index of the last occurrence. *)
Fixpoint rfind (c : ascii) (s : string) : option nat :=
  match s with
  | EmptyString => None
  | String a r =>
      match rfind c r with
      | Some i => Some (S i)
      | None => if Ascii.eqb a c then Some 0%nat else None
      end
  end.

(** [c in s] *)
Definition contains (c : ascii) (s : string) : bool :=
  match find c s with Some _ => true | None => false end.

(** [s[:n]] and [s[n:]] *)
Fixpoint take (n : nat) (s : string) : string :=
  match n, s with
  | S n', String a r => String a (take n' r)
  | _, _ => EmptyString
  end.

Fixpoint drop (n : nat) (s : string) : string :=
  match n, s with
  | S n', String _ r => drop n' r
  | _, _ => s
  end.

(** [all(p(c) for c in s)] *)
Fixpoint all (p : ascii -> bool) (s : string) : bool :=
  match s with
  | EmptyString => true
  | String a r => p a && all p r
  end.

(** [s.lstrip(chars)], with [chars] given as a predicate. *)
Fixpoint lstrip (p : ascii -> bool) (s : string) : string :=
  match s with
  | EmptyString => EmptyString
  | String a r => if p a then lstrip p r else s
  end.

(** [s.rstrip(chars)] *)
Fixpoint rstrip (p : ascii -> bool) (s : string) : string :=
  match s with
  | EmptyString => EmptyString
  | String a r =>
      match rstrip p r with
      | EmptyString => if p a then EmptyString else String a EmptyString
      | r' => String a r'
      end
  end.

(** Removal of every character satisfying [p]
    (a chain of [s.replace(b, "")] for single characters [b]). *)
Fixpoint remove (p : ascii -> bool) (s : string) : string :=
  match s with
  | EmptyString => EmptyString
  | String a r => if p a then remove p r else String a (remove p r)
  end.

(** [s.split(c)] *)
Fixpoint split (c : ascii) (s : string) : list string :=
  match s with
  | EmptyString => [EmptyString]
  | String a r =>
      if Ascii.eqb a c then EmptyString :: split c r
      else match split c r with
           | [] => [String a EmptyString]
           | w :: ws => String a w :: ws
           end
  end.

(** [s.partition(c)[0]]: what precedes the first [c], the whole of [s]
    when there is none. *)
Definition before (c : ascii) (s : string) : string :=
  match find c s with
  | Some i => take i s
  | None => s
  end.

(** [s.partition(c)[2]]: what follows the first [c], nothing when there is
    none. *)
Definition after (c : ascii) (s : string) : string :=
  match find c s with
  | Some i => drop (S i) s
  | None => EmptyString
  end.

(** [s.rpartition(c)[2]]: what follows the last [c], the whole of [s] when
    there is none. *)
Definition after_last (c : ascii) (s : string) : string :=
  match rfind c s with
  | Some i => drop (S i) s
  | None => s
  end.

(** [sep.join(l)] *)
Fixpoint join (sep : string) (l : list string) : string :=
  match l with
  | [] => EmptyString
  | [x] => x
  | x :: r => x +:+ sep +:+ join sep r
  end.

(** [s.isascii()] *)
Definition is_ascii (s : string) : bool :=
  all (λ c, (nat_of_ascii c <? 128)%nat) s.

Definition is_hex (c : ascii) : bool :=
  is_digit c
  || (65 <=? nat_of_ascii c)%nat && (nat_of_ascii c <=? 70)%nat
  || (97 <=? nat_of_ascii c)%nat && (nat_of_ascii c <=? 102)%nat.

(** [int(s)] for a string of decimal digits. *)
Definition decimal (s : string) : N :=
  let fix go (acc : N) (s : string) : N :=
    match s with
    | EmptyString => acc
    | String c r => go (10 * acc + (N_of_ascii c - 48))%N r
    end in
  go 0%N s.

End PyStr.

(** ** Python values, truthiness, dict displays and exceptions *)
Module Py.

(** The scalar values a document field or a variable of the scripts
    holds: [None], an integer, a string. *)
Inductive value := VNone | VInt (n : Z) | VStr (s : string).

Definition value_eqb (a b : value) : bool :=
  match a, b with
  | VNone, VNone => true
  | VInt n, VInt m => (n =? m)%Z
  | VStr s, VStr t => String.eqb s t
  | _, _ => false
  end.

(** [bool(v)] *)
Definition truthy (v : value) : bool :=
  match v with
  | VNone => false
  | VInt n => negb (n =? 0)%Z
  | VStr s => negb (String.eqb s "")
  end.

(** [a or b] *)
Definition or_ (a b : value) : value := if truthy a then a else b.

(** [f"{v}"] *)
Definition format (v : value) : string :=
  match v with
  | VNone => "None"
  | VInt n => pretty n
  | VStr s => s
  end.

(** [str(b)] for a bool. *)
Definition str_bool (b : bool) : string := if b then "True" else "False".

(** [d.get(k)]: [None] when the key is absent. *)
Definition get (d : gmap string value) (k : string) : value :=
  default VNone (d !! k).

(** A dict display [{k1: v1, ..., kn: vn}]: the entries are stored from
    left to right, so a key written twice keeps its last value. *)
Definition dict {V} (l : list (string * V)) : gmap string V :=
  foldl (λ m kv, <[kv.1 := kv.2]> m) ∅ l.

Inductive exn :=
| ValueError | AttributeError | TypeError | OverflowError
| FileNotFoundError | FileExistsError | OSError
| PyMongoError
| SystemExit (code : Z).

(** [isinstance(x, Exception)]: SystemExit derives from BaseException
    only. *)
Definition is_Exception (x : exn) : bool :=
  match x with SystemExit _ => false | _ => true end.

End Py.

(** ** float(s) and the conversion of time.sleep

    A float is an IEEE 754 binary64 number, [spec_float] with 53 bits of
    precision. *)
Module PyFloat.

Definition float : Type := spec_float.

Definition prec : Z := 53.
Definition emax : Z := 1024.

(** The ASCII white space [float] strips from both ends. *)
Definition is_space (c : ascii) : bool :=
  Ascii.eqb c " " || (9 <=? nat_of_ascii c)%nat && (nat_of_ascii c <=? 13)%nat.

(** [digitpart]: decimal digits, single underscores allowed between two
    digits. The result is the digits without the underscores. *)
Fixpoint digitpart (after_digit : bool) (s : string) : option string :=
  match s with
  | EmptyString => if after_digit then Some EmptyString else None
  | String c r =>
      if PyStr.is_digit c then String c <$> digitpart true r
      else if Ascii.eqb c "_" && after_digit then digitpart false r
      else None
  end.

(** [number]: [digitpart], [digitpart.], [.digitpart] or
    [digitpart.digitpart]; the result is the digits before and after the
    point. *)
Definition number (s : string) : option (string * string) :=
  if PyStr.contains "." s
  then
    match PyStr.before "." s, PyStr.after "." s with
    | EmptyString, EmptyString => None
    | i, EmptyString => (λ i, (i, EmptyString)) <$> digitpart false i
    | EmptyString, f => (λ f, (EmptyString, f)) <$> digitpart false f
    | i, f =>
        i ← digitpart false i; f ← digitpart false f; Some (i, f)
    end
  else (λ i, (i, EmptyString)) <$> digitpart false s.

(** [exponent] without its letter: an optional sign and a [digitpart]. *)
Definition exponent (s : string) : option Z :=
  match s with
  | String "-" r => (λ d, - Z.of_N (PyStr.decimal d))%Z <$> digitpart false r
  | String "+" r => (λ d, Z.of_N (PyStr.decimal d)) <$> digitpart false r
  | _ => (λ d, Z.of_N (PyStr.decimal d)) <$> digitpart false s
  end.

(** The binary64 number nearest to (-1)^neg * m * 10^k, ties to even. *)
Definition of_decimal (neg : bool) (m : N) (k : Z) : float :=
  match m, k with
  | N0, _ => S754_zero neg
  | Npos p, Zneg j =>
      SFdiv prec emax (S754_finite neg p 0)
        (S754_finite false (10 ^ j)%positive 0)
  | Npos p, _ => binary_round prec emax neg (p * Z.to_pos (10 ^ k))%positive 0
  end.

(** [floatnumber]: a [number] and an optional exponent after [e] or
    [E]. *)
Definition floatnumber (neg : bool) (s : string) : option float :=
  let l := PyStr.lower s in
  '(i, f) ← number (PyStr.before "e" l);
  k ← (if PyStr.contains "e" l then exponent (PyStr.after "e" l)
       else Some 0%Z);
  Some (of_decimal neg (PyStr.decimal (i +:+ f))
          (k - Z.of_nat (String.length f))).

(** The value without its sign: [inf], [infinity], [nan] in any case, or a
    [floatnumber]. *)
Definition absfloatvalue (neg : bool) (s : string) : option float :=
  if bool_decide (PyStr.lower s ∈ ["inf"; "infinity"])
  then Some (S754_infinity neg)
  else if String.eqb (PyStr.lower s) "nan" then Some S754_nan
  else floatnumber neg s.

(** [float(s)] for a string: ValueError when [s] is not a number. *)
Definition float_of_string (s : string) : Py.exn + float :=
  let s := PyStr.lstrip is_space (PyStr.rstrip is_space s) in
  let v := match s with
           | String "-" r => absfloatvalue true r
           | String "+" r => absfloatvalue false r
           | _ => absfloatvalue false s
           end in
  match v with
  | Some x => inr x
  | None => inl Py.ValueError
  end.

(** The integer nearest to [d] away from zero ([_PyTime_ROUND_UP]); none
    for an infinity or a NaN. *)
Definition round_up (d : float) : option Z :=
  match d with
  | S754_zero _ => Some 0%Z
  | S754_finite s m e =>
      let a := (- Z.shiftl (Zneg m) e)%Z in
      Some (if s then (- a)%Z else a)
  | _ => None
  end.

(** The C cast of an integer to a signed 64-bit one. *)
Definition to_int64 (n : Z) : Z := ((n + 2 ^ 63) mod 2 ^ 64 - 2 ^ 63)%Z.

(** [_PyTime_FromSecondsObject(secs, _PyTime_ROUND_TIMEOUT)]: the number
    of nanoseconds of [secs], the product with 1e9 rounded away from zero.
    A NaN raises ValueError; a product that is not between -2^63 and 2^63
    raises OverflowError; 2^63 itself passes and the cast makes it
    -2^63. *)
Definition nanoseconds (secs : float) : Py.exn + Z :=
  match secs with
  | S754_nan => inl Py.ValueError
  | _ =>
      match round_up (SFmul prec emax secs
                        (binary_round prec emax false 1000000000 0)) with
      | Some d =>
          if ((- 2 ^ 63 <=? d) && (d <=? 2 ^ 63))%Z then inr (to_int64 d)
          else inl Py.OverflowError
      | None => inl Py.OverflowError
      end
  end.

End PyFloat.

(** ** ipaddress: which strings are IPv4 and IPv6 addresses

    [IPv4Address(s)] and [IPv6Address(s)] raise AddressValueError on a
    string that is not an address; the functions below tell whether they
    return. *)
Module IpAddress.

(** [IPv4Address._parse_octet]: one to three decimal digits, no leading
    zero, at most 255. *)
Definition parse_octet (s : string) : bool :=
  negb (String.eqb s "")
  && PyStr.all PyStr.is_digit s
  && (String.length s <=? 3)%nat
  && (String.eqb s "0" || negb (String.prefix "0" s))
  && (PyStr.decimal s <=? 255)%N.

Definition is_ipv4 (s : string) : bool :=
  negb (PyStr.contains "/" s)
  && match PyStr.split "." s with
     | [a; b; c; d] => forallb parse_octet [a; b; c; d]
     | _ => false
     end.

(** [IPv6Address._parse_hextet]: one to four hexadecimal digits. *)
Definition parse_hextet (s : string) : bool :=
  negb (String.eqb s "")
  && PyStr.all PyStr.is_hex s
  && (String.length s <=? 4)%nat.

(** The indices from [i] on at which [parts] holds an empty string. *)
Fixpoint empty_at (i : nat) (parts : list string) : list nat :=
  match parts with
  | [] => []
  | p :: r => (if String.eqb p "" then [i] else []) ++ empty_at (S i) r
  end.

(** [IPv6Address._ip_int_from_string] returns: at least three parts
    between colons, an IPv4 address allowed as the last one (it stands for
    two parts), at most one [::], which skips at least one part, and
    otherwise exactly eight parts. *)
Definition ip_int_from_string (ip_str : string) : bool :=
  let parts := PyStr.split ":" ip_str in
  let last := List.last parts "" in
  negb (String.eqb ip_str "")
  && (3 <=? length parts)%nat
  && (negb (PyStr.contains "." last) || is_ipv4 last)
  && let parts :=
       (* the two parts an IPv4 suffix stands for are written in
          hexadecimal; their digits play no part in what follows *)
       if PyStr.contains "." last then removelast parts ++ ["0"; "0"]
       else parts in
     let n := length parts in
     let first_empty := String.eqb (hd "" parts) "" in
     let last_empty := String.eqb (List.last parts "") "" in
     (n <=? 9)%nat
     && match empty_at 1 (firstn (n - 2) (tl parts)) with
        | [] =>
            (n =? 8)%nat && negb first_empty && negb last_empty
            && forallb parse_hextet parts
        | [skip_index] =>
            let parts_hi := (skip_index - if first_empty then 1 else 0)%nat in
            let parts_lo :=
              (n - skip_index - 1 - if last_empty then 1 else 0)%nat in
            (negb first_empty || (parts_hi =? 0)%nat)
            && (negb last_empty || (parts_lo =? 0)%nat)
            && (parts_hi + parts_lo <? 8)%nat
            && forallb parse_hextet (firstn parts_hi parts)
            && forallb parse_hextet (skipn (n - parts_lo) parts)
        | _ :: _ :: _ => false
        end.

(** [IPv6Address._split_scope_id]: the address before a [%]; a scope, when
    there is one, is not empty and holds no further [%]. *)
Definition split_scope_id (ip_str : string) : option string :=
  if PyStr.contains "%" ip_str
  then if String.eqb (PyStr.after "%" ip_str) ""
          || PyStr.contains "%" (PyStr.after "%" ip_str)
       then None
       else Some (PyStr.before "%" ip_str)
  else Some ip_str.

Definition is_ipv6 (s : string) : bool :=
  negb (PyStr.contains "/" s)
  && match split_scope_id s with
     | Some addr => ip_int_from_string addr
     | None => false
     end.

End IpAddress.

(** ** urllib.parse.urlparse(url).path

    The path component as [urlsplit] and [urlparse] of CPython 3.11 compute
    it: leading control characters and spaces are stripped, tab, CR and LF
    are removed, an RFC 3986 scheme and a [//netloc] are split off, then the
    fragment, the query and the parameters of the last segment. A netloc
    with a bracket on one side only, or with brackets around something
    that is neither an IPv6 nor an IPvFuture address, raises ValueError.
    On an ASCII netloc the NFKC check of [_checknetloc] does nothing. *)
Module UrlLib.

Definition c0_control_or_space (c : ascii) : bool :=
  (nat_of_ascii c <=? 32)%nat.

Definition unsafe_url_byte (c : ascii) : bool :=
  Ascii.eqb c "009" || Ascii.eqb c "010" || Ascii.eqb c "013".

Definition scheme_char (c : ascii) : bool :=
  PyStr.is_alpha c || PyStr.is_digit c
  || Ascii.eqb c "+" || Ascii.eqb c "-" || Ascii.eqb c ".".

Definition uses_params : list string :=
  [""; "ftp"; "hdl"; "prospero"; "http"; "imap"; "https"; "shttp"; "rtsp";
   "rtspu"; "sip"; "sips"; "mms"; "sftp"; "tel"].

(** The scheme and the rest of the URL. *)
Definition split_scheme (url : string) : string * string :=
  match PyStr.find ":" url, url with
  | Some (S i), String c0 _ =>
      if PyStr.is_alpha c0 && PyStr.all scheme_char (PyStr.take (S i) url)
      then (PyStr.lower (PyStr.take (S i) url), PyStr.drop (S (S i)) url)
      else ("", url)
  | _, _ => ("", url)
  end.

(** [_splitnetloc(url, 2)]: the netloc ends at the first of [/?#]. *)
Fixpoint splitnetloc (s : string) : string * string :=
  match s with
  | EmptyString => (EmptyString, EmptyString)
  | String a r =>
      if Ascii.eqb a "/" || Ascii.eqb a "?" || Ascii.eqb a "#"
      then (EmptyString, s)
      else let '(n, rest) := splitnetloc r in (String a n, rest)
  end.

(** [_splitparams(url)] keeps what precedes the first [;] of the last
    segment. *)
Definition splitparams (url : string) : string :=
  match PyStr.rfind "/" url with
  | Some j => PyStr.take j url +:+ PyStr.before ";" (PyStr.drop j url)
  | None => PyStr.before ";" url
  end.

(** The regular expression [\Av[a-fA-F0-9]+\..+\Z] of an IPvFuture
    address: [v], hexadecimal digits, a dot, and at least one more
    character, none of them a line feed. *)
Definition ipvfuture (hostname : string) : bool :=
  match hostname with
  | String "v" r =>
      let rest := PyStr.lstrip PyStr.is_hex r in
      (String.length rest <? String.length r)%nat
      && match rest with
         | String "." t =>
             negb (String.eqb t "") && negb (PyStr.contains "010" t)
         | _ => false
         end
  | _ => false
  end.

(** [_check_bracketed_host] returns: no ValueError. *)
Definition check_bracketed_host (hostname : string) : bool :=
  if String.prefix "v" hostname then ipvfuture hostname
  else if IpAddress.is_ipv4 hostname then false
       else IpAddress.is_ipv6 hostname.

(** [_check_bracketed_netloc] returns: the bracket opens the host (after
    the last [@]), only a port follows the closing one, and the host is
    valid. *)
Definition check_bracketed_netloc (netloc : string) : bool :=
  let hostname_and_port := PyStr.after_last "@" netloc in
  if PyStr.contains "[" hostname_and_port
  then
    let before_bracket := PyStr.before "[" hostname_and_port in
    let bracketed := PyStr.after "[" hostname_and_port in
    let hostname := PyStr.before "]" bracketed in
    let port := PyStr.after "]" bracketed in
    String.eqb before_bracket ""
    && (String.eqb port "" || String.prefix ":" port)
    && check_bracketed_host hostname
  else check_bracketed_host (PyStr.before ":" hostname_and_port).

Definition urlparse_path (url : string) : Py.exn + string :=
  let url := PyStr.lstrip c0_control_or_space url in
  let url := PyStr.remove unsafe_url_byte url in
  let '(scheme, url) := split_scheme url in
  let '(netloc, url) :=
    if String.eqb (PyStr.take 2 url) "//"
    then splitnetloc (PyStr.drop 2 url)
    else ("", url) in
  if xorb (PyStr.contains "[" netloc) (PyStr.contains "]" netloc)
  then inl Py.ValueError
  else if PyStr.contains "[" netloc && negb (check_bracketed_netloc netloc)
  then inl Py.ValueError
  else
    let url := PyStr.before "#" url in
    let url := PyStr.before "?" url in
    inr (if bool_decide (scheme ∈ uses_params) && PyStr.contains ";" url
         then splitparams url else url).

End UrlLib.

(** ** pathlib: PurePosixPath(p).name, .suffix and p / k

    A path is kept as its root and its components. The suffix starts at
    the last dot of the final component, unless that dot is the first or
    the last character of the component. *)
Module PathLib.

(** The components of a path: empty and [.] components are dropped. *)
Definition parts (p : string) : list string :=
  filter (λ c, c ≠ "" ∧ c ≠ ".") (PyStr.split "/" p).

(** [splitroot]: one leading slash, or exactly two, is the root. *)
Definition root (p : string) : string :=
  match p with
  | String "/" (String "/" (String "/" _)) => "/"
  | String "/" (String "/" _) => "//"
  | String "/" _ => "/"
  | _ => ""
  end.

Definition name (p : string) : string := List.last (parts p) "".

Definition suffix (p : string) : string :=
  let n := name p in
  match PyStr.rfind "." n with
  | Some (S i) =>
      if (S i <? String.length n - 1)%nat then PyStr.drop (S i) n else ""
  | _ => ""
  end.

(** [str(path)] for a root and components. *)
Definition render (root : string) (parts : list string) : string :=
  match root +:+ PyStr.join "/" parts with
  | EmptyString => "."
  | s => s
  end.

(** [str(Path(p))] *)
Definition str (p : string) : string := render (root p) (parts p).

(** [str(Path(d) / k)]: an absolute [k] replaces [d]; the components of
    [k] follow those of [d] otherwise. Components [..] are kept. *)
Definition join (d k : string) : string :=
  match root k with
  | EmptyString => render (root d) (parts d ++ parts k)
  | r => render r (parts k)
  end.

End PathLib.


(** The expression [Path(urlparse(url).path).suffix.lower()] of
    [get_content_type], [generate_r2_key] and [get_extension_from_url];
    [urlparse] of a value that is not a string fails on its [decode]. *)
Definition url_suffix (url : Py.value) : Py.exn + string :=
  match url with
  | Py.VStr u =>
      match UrlLib.urlparse_path u with
      | inr p => inr (PyStr.lower (PathLib.suffix p))
      | inl x => inl x
      end
  | Py.VInt n => inl (if (n =? 0)%Z then Py.TypeError else Py.AttributeError)
  | Py.VNone => inl Py.TypeError
  end.

(** ** The MongoDB collection: filters, find, sort, update_one

    Documents hold scalar fields. A filter is written as the scripts write
    it: a field with a value or with a dict of operators, [$and], [$or].
    Equality with [None] also matches a document without the field, and
    [$ne] is its negation, as the server defines them. *)
Module Mongo.
Import Py.

Abbreviation document := (gmap string value).

Inductive operand :=
| OBool (b : bool)
| OValue (v : value)
| OList (vs : list value).

Inductive cond :=
| Eq (v : value)
| Ops (ops : gmap string operand).

Inductive filter :=
| Field (k : string) (c : cond)
| And (fs : list filter)
| Or (fs : list filter).

(** [{field: v}] on the field's lookup. *)
Definition eq_match (v : value) (fv : option value) : bool :=
  match fv with
  | Some x => value_eqb x v
  | None => value_eqb VNone v
  end.

Definition is_some {A} (o : option A) : bool :=
  match o with Some _ => true | None => false end.

(** One entry of an operator dict. *)
Definition op_holds (name : string) (arg : operand) (fv : option value)
  : bool :=
  match arg with
  | OBool b => String.eqb name "$exists" && Bool.eqb b (is_some fv)
  | OValue v => String.eqb name "$ne" && negb (eq_match v fv)
  | OList vs => String.eqb name "$in" && existsb (λ v, eq_match v fv) vs
  end.

Definition cond_holds (c : cond) (fv : option value) : bool :=
  match c with
  | Eq v => eq_match v fv
  | Ops ops =>
      forallb (λ kv, op_holds kv.1 kv.2 fv) (map_to_list ops)
  end.

Fixpoint matches (q : filter) (d : document) : bool :=
  match q with
  | Field k c => cond_holds c (d !! k)
  | And fs => forallb (λ f, matches f d) fs
  | Or fs => existsb (λ f, matches f d) fs
  end.

(** [list(coll.find(q))] *)
Definition find (q : filter) (coll : list document) : list document :=
  List.filter (matches q) coll.

(** The sort order of the values: null, then numbers, then strings. *)
Definition value_ltb (a b : value) : bool :=
  match a, b with
  | VNone, VNone => false
  | VNone, _ => true
  | VInt n, VInt m => (n <? m)%Z
  | VInt _, VStr _ => true
  | VStr s, VStr t => String.ltb s t
  | _, _ => false
  end.

(** [cursor.sort(k, -1).limit(1)]: the first document with the greatest
    [k], an absent field counting as null. *)
Fixpoint sort_desc_limit1 (k : string) (ds : list document)
  : list document :=
  match ds with
  | [] => []
  | d :: r =>
      match sort_desc_limit1 k r with
      | m :: _ => if value_ltb (get d k) (get m k) then [m] else [d]
      | [] => [d]
      end
  end.

(** [coll.update_one(q, {"$set": s})]: the first matching document
    receives the fields of [s]; none matching changes nothing. *)
Fixpoint update_one (q : filter) (s : list (string * value))
  (coll : list document) : list document :=
  match coll with
  | [] => []
  | d :: r =>
      if matches q d
      then foldl (λ m kv, <[kv.1 := kv.2]> m) d s :: r
      else d :: update_one q s r
  end.

End Mongo.

(** ** The outside world and the effects of the scripts *)
Module Sys.
Import Py.

(** The calls that reach the network, the object store, the database or
    the clock, in the order they are made. [Banner] is the
    ["[idx/total]"] line the loop prints before each record. *)
Inductive event :=
| Get (url : string)
| PutObject (key ct : string)
| UpdateOne (cid : value)
| Sleep
| Banner (idx total : nat).

(** What the try block of [download_logo] meets: the request or its
    status check fails before the file is opened, the stream or the write
    breaks after [part] was written, or the whole body arrives. *)
Inductive fetched :=
| Refused
| Broken (part : string)
| Complete (body : string).

(** The environment of a run: the variables (after [load_dotenv]), what
    the source of a URL, the object store and the database answer, whether
    the operating system carries out a pause of so many nanoseconds (it
    refuses one that ends beyond the range of its clock), the time. *)
Record env := {
  environ : gmap string string;
  fetch : string -> fetched;
  s3_accepts : string -> bool;
  mongo_accepts : value -> bool;
  nanosleep : Z -> bool;
  utcnow : Z }.

Record world := {
  organizations : list Mongo.document;
  files : gmap string string;
  bucket : gmap string (string * string);
  trace : list event }.

Inductive result (A : Type) :=
| Ret (a : A)
| Raise (x : exn).
Arguments Ret {A} a.
Arguments Raise {A} x.

Definition M (A : Type) : Type := world -> result A * world.

Definition ret {A} (a : A) : M A := λ w, (Ret a, w).

Definition raise {A} (x : exn) : M A := λ w, (Raise x, w).

Definition bind {A B} (m : M A) (k : A -> M B) : M B :=
  λ w, match m w with
       | (Ret a, w') => k a w'
       | (Raise x, w') => (Raise x, w')
       end.

#[global] Instance M_ret : MRet M := @ret.
#[global] Instance M_bind : MBind M := λ A B k m, bind m k.

Definition lift {A} (r : exn + A) : M A :=
  match r with inl x => raise x | inr a => ret a end.

(** [try: m  except Exception as x: h x] *)
Definition try_except {A} (m : M A) (h : exn -> M A) : M A :=
  λ w, match m w with
       | (Raise x, w') =>
           if is_Exception x then h x w' else (Raise x, w')
       | r => r
       end.

Definition emit (ev : event) : M unit :=
  λ w, (Ret tt, {| organizations := organizations w; files := files w;
                   bucket := bucket w; trace := trace w ++ [ev] |}).

Definition write_file (path body : string) : M unit :=
  λ w, (Ret tt, {| organizations := organizations w;
                   files := <[path := body]> (files w);
                   bucket := bucket w; trace := trace w |}).

Definition store_object (key body ct : string) : M unit :=
  λ w, (Ret tt, {| organizations := organizations w; files := files w;
                   bucket := <[key := (body, ct)]> (bucket w);
                   trace := trace w |}).

Definition set_organizations (ds : list Mongo.document) : M unit :=
  λ w, (Ret tt, {| organizations := ds; files := files w;
                   bucket := bucket w; trace := trace w |}).

Definition read_file (path : string) : M (option string) :=
  λ w, (Ret (files w !! path), w).

Definition get_organizations : M (list Mongo.document) :=
  λ w, (Ret (organizations w), w).

(** [os.getenv(k)] and [os.getenv(k, d)] *)
Definition getenv (e : env) (k : string) : value :=
  match environ e !! k with Some s => VStr s | None => VNone end.

Definition getenv_default (e : env) (k d : string) : string :=
  default d (environ e !! k).

(** [path.stat().st_size] *)
Definition stat_size (path : string) : M nat :=
  f ← read_file path;
  match f with
  | Some body => ret (String.length body)
  | None => raise FileNotFoundError
  end.

(** [time.sleep(secs)]: ValueError for a NaN and for a negative number of
    nanoseconds, OverflowError beyond 64 bits, OSError when the operating
    system refuses; nothing has been slept then. *)
Definition time_sleep (e : env) (secs : PyFloat.float) : M unit :=
  ns ← lift (PyFloat.nanoseconds secs);
  if (ns <? 0)%Z then raise ValueError
  else if nanosleep e ns then emit Sleep
  else raise OSError.

(** [Path(path).mkdir(exist_ok=True)]. The world holds regular files only:
    a directory can be made unless a file of that name is in the way. *)
Definition mkdir_exist_ok (path : string) : M unit :=
  f ← read_file path;
  match f with
  | Some _ => raise FileExistsError
  | None => ret tt
  end.

End Sys.


(** ** download_and_upload_logos.py *)
Module UploadLogos.
Import Py Mongo Sys.

Definition R2_ACCESS_KEY (e : env) : value := getenv e "R2_ACCESS_KEY_ID".
Definition R2_SECRET_KEY (e : env) : value := getenv e "R2_SECRET_ACCESS_KEY".
Definition R2_ACCOUNT_ID (e : env) : value := getenv e "R2_ACCOUNT_ID".
Definition R2_BUCKET (e : env) : value := getenv e "R2_BUCKET_NAME".
Definition R2_PUBLIC_URL (e : env) : string :=
  PyStr.rstrip (Ascii.eqb "/") (getenv_default e "R2_PUBLIC_URL" "").
Definition MONGO_URI (e : env) : value := getenv e "MONGO_URI".

Definition DRY_RUN (e : env) : bool :=
  bool_decide
    (PyStr.lower (getenv_default e "DRY_RUN" "false") ∈ ["1"; "true"; "yes"]).

(** [float(os.getenv("SLEEP_SECONDS", "0.6"))] *)
Definition SLEEP_SECONDS (e : env) : exn + PyFloat.float :=
  PyFloat.float_of_string (getenv_default e "SLEEP_SECONDS" "0.6").

(** [str(Path("./logos"))] *)
Definition LOGOS_DIR : string := Eval cbv in PathLib.str "./logos".

(** The statements the module runs when it is imported or started, as
    far as they can fail (lines 38-55): the conversion of SLEEP_SECONDS and
    the creation of the logos directory. *)
Definition on_import (e : env) : M unit :=
  _ ← lift (SLEEP_SECONDS e);
  mkdir_exist_ok LOGOS_DIR.

Definition validate_config (e : env) : M unit :=
  let missing : list string :=
    ((if truthy (R2_ACCESS_KEY e) then [] else ["R2_ACCESS_KEY_ID"])
     ++ (if truthy (R2_SECRET_KEY e) then [] else ["R2_SECRET_ACCESS_KEY"])
     ++ (if truthy (R2_ACCOUNT_ID e) then [] else ["R2_ACCOUNT_ID"])
     ++ (if truthy (R2_BUCKET e) then [] else ["R2_BUCKET_NAME"])
     ++ (if truthy (MONGO_URI e) then [] else ["MONGO_URI"]))%list in
  match missing with
  | [] => ret tt
  | _ :: _ => raise (SystemExit 1)
  end.

(** Every exception of the body is caught: the result is a bool. A URL
    that is not a string makes the request raise. *)
Definition download_logo (e : env) (url : value) (output_path : string)
  : M bool :=
  match url with
  | VStr u =>
      emit (Get u);;
      match fetch e u with
      | Refused => ret false
      | Broken part => write_file output_path part;; ret false
      | Complete body => write_file output_path body;; ret true
      end
  | _ => ret false
  end.

(** Opening a missing file raises inside the try block, before
    [put_object] is called. *)
Definition upload_to_r2 (e : env) (local_path r2_key content_type : string)
  : M bool :=
  f ← read_file local_path;
  match f with
  | None => ret false
  | Some body =>
      emit (PutObject r2_key content_type);;
      if s3_accepts e r2_key
      then store_object r2_key body content_type;; ret true
      else ret false
  end.

Definition mapping : gmap string string :=
  dict [(".png", "image/png");
        (".jpg", "image/jpeg");
        (".jpeg", "image/jpeg");
        (".gif", "image/gif");
        (".svg", "image/svg+xml");
        (".webp", "image/webp")].

Definition get_content_type (url : value) : exn + string :=
  match url_suffix url with
  | inr ext => inr (default "image/png" (mapping !! ext))
  | inl x => inl x
  end.

Definition generate_r2_key (image_slug logo_url : value) : exn + string :=
  match url_suffix logo_url with
  | inr ext =>
      let ext := if String.eqb ext "" then ".png" else ext in
      inr (format image_slug +:+ ext)
  | inl x => inl x
  end.

Definition public_url_of (e : env) (r2_key : string) : string :=
  if negb (String.eqb (R2_PUBLIC_URL e) "")
  then R2_PUBLIC_URL e +:+ "/" +:+ r2_key
  else "https://" +:+ format (R2_ACCOUNT_ID e)
       +:+ ".r2.cloudflarestorage.com/" +:+ format (R2_BUCKET e)
       +:+ "/" +:+ r2_key.

(** [db.organizations.update_one({"canonical_id": cid}, {"$set": s})];
    the driver raises when the server cannot be reached or refuses, and the
    write is then not made. *)
Definition organizations_update_one (e : env) (cid : value)
  (s : list (string * value)) : M unit :=
  emit (UpdateOne cid);;
  if mongo_accepts e cid
  then ds ← get_organizations;
       set_organizations (update_one (Field "canonical_id" (Eq cid)) s ds)
  else raise PyMongoError.

Definition process_organization (e : env) (org_doc : document)
  (dry_run : bool) : M bool :=
  let canonical_id := get org_doc "canonical_id" in
  let image_slug := get org_doc "image_slug" in
  let image_url := get org_doc "image_url" in
  let logo_url := or_ image_url (get org_doc "logoUrl") in
  if negb (truthy logo_url) then ret false
  else if negb (truthy image_slug) then ret false
  else
    r2_key ← lift (generate_r2_key image_slug logo_url);
    let local_path := PathLib.join LOGOS_DIR r2_key in
    downloaded ← download_logo e logo_url local_path;
    if negb downloaded then ret false
    else
      _ ← stat_size local_path;
      if dry_run then ret true
      else
        content_type ← lift (get_content_type logo_url);
        uploaded ← upload_to_r2 e local_path r2_key content_type;
        if negb uploaded then ret false
        else
          let public_url := public_url_of e r2_key in
          try_except
            (organizations_update_one e canonical_id
               [("logo_local_filename", VStr r2_key);
                ("logo_r2_url", VStr public_url);
                ("logo_uploaded_at", VInt (utcnow e))];;
             ret true)
            (λ _, ret false).

(** The filter of the default mode, as written in [run]. *)
Definition default_query : filter :=
  And [
    Or [
      Field "logo_r2_url" (Ops (dict [("$exists", OBool false)]));
      Field "logo_r2_url" (Eq VNone);
      Field "logo_r2_url" (Eq (VStr ""))
    ];
    Or [
      Field "image_url"
        (Ops (dict [("$exists", OBool true);
                    ("$ne", OValue VNone);
                    ("$ne", OValue (VStr ""))]));
      Field "logoUrl"
        (Ops (dict [("$exists", OBool true);
                    ("$ne", OValue VNone);
                    ("$ne", OValue (VStr ""))]))
    ];
    Field "image_slug"
      (Ops (dict [("$exists", OBool true);
                  ("$ne", OValue VNone);
                  ("$ne", OValue (VStr ""))]))
  ].

(** The records [run] selects. *)
Definition select (test_org : option string)
  (org_slugs : option (list string)) (coll : list document)
  : list document :=
  match test_org, org_slugs with
  | Some (String _ _ as t), _ =>
      sort_desc_limit1 "canonical_id"
        (find (Field "slug" (Eq (VStr t))) coll)
  | _, Some ((_ :: _) as slugs) =>
      find (Field "slug" (Ops (dict [("$in", OList (VStr <$> slugs))])))
        coll
  | _, _ => find default_query coll
  end.

Record counters := { success_count : nat; fail_count : nat }.

(** The [for idx, org in enumerate(orgs, 1)] loop of [run]. The pause
    stands outside the try block: what [time.sleep] raises ends the loop.
    [SLEEP_SECONDS] was converted when the module was loaded; a function
    of a module whose conversion failed does not exist, and the model
    raises the error of the conversion where the value is used. *)
Fixpoint run_loop (e : env) (dry_run : bool) (total idx : nat)
  (orgs : list document) (c : counters) : M counters :=
  match orgs with
  | [] => ret c
  | org :: rest =>
      emit (Banner idx total);;
      c' ← try_except
             (ok ← process_organization e org dry_run;
              if ok : bool
              then ret {| success_count := S (success_count c);
                          fail_count := fail_count c |}
              else ret {| success_count := success_count c;
                          fail_count := S (fail_count c) |})
             (λ _, ret {| success_count := success_count c;
                          fail_count := S (fail_count c) |});
      (if (idx <? total)%nat
       then secs ← lift (SLEEP_SECONDS e); time_sleep e secs
       else ret tt);;
      run_loop e dry_run total (S idx) rest c'
  end.

(** [run]: the counters of the final summary, [None] when no record was
    selected. *)
Definition run (e : env) (test_org : option string)
  (org_slugs : option (list string)) (dry_run : option bool)
  : M (option counters) :=
  let dry_run := match dry_run with None => DRY_RUN e | Some b => b end in
  validate_config e;;
  coll ← get_organizations;
  let orgs := select test_org org_slugs coll in
  match orgs with
  | [] => ret None
  | _ :: _ =>
      c ← run_loop e dry_run (length orgs) 1 orgs
            {| success_count := 0; fail_count := 0 |};
      ret (Some c)
  end.

(** The namespace [parse_args] returns. *)
Record args := {
  test_org : option string;
  orgs : option (list string);
  dry_run : bool }.

(** *** argparse on the parser of [parse_args]

    The parser has the options [--test-org] (one value), [--orgs] (one
    value or more), [--dry-run] (no value) and the [-h], [--help] that
    ArgumentParser adds; it has no positional argument. Errors end the
    program with status 2, the help with status 0. *)
Inductive action := Help | TestOrg | Orgs | DryRun.

(** The option strings, in the order of their registration. *)
Definition option_strings : list (string * action) :=
  [("-h", Help); ("--help", Help); ("--test-org", TestOrg);
   ("--orgs", Orgs); ("--dry-run", DryRun)].

Definition lookup_option (s : string) : option action :=
  snd <$> List.find (λ oa, String.eqb oa.1 s) option_strings.

(** How an argument is classified before any is consumed: a value
    (pattern letter A), the first [--] (pattern letter -), or an option
    (pattern letter O) with its action, none when the option is unknown,
    and the value attached to it, if any. *)
Inductive token :=
| Positional
| Separator
| Optional (a : option action) (option_string : string)
    (explicit_arg : option string).

(** [_get_option_tuples]: the options an abbreviation stands for. A
    single dash followed by a letter is a short option with the rest as
    its value. *)
Definition get_option_tuples (arg : string)
  : list (action * string * option string) :=
  match arg with
  | String _ (String "-" _) =>
      let option_prefix := PyStr.before "=" arg in
      let explicit_arg :=
        if PyStr.contains "=" arg then Some (PyStr.after "=" arg) else None in
      omap (λ oa, if String.prefix option_prefix oa.1
                  then Some (oa.2, oa.1, explicit_arg) else None)
        option_strings
  | _ =>
      omap (λ oa, if String.eqb oa.1 (PyStr.take 2 arg)
                  then Some (oa.2, oa.1, Some (PyStr.drop 2 arg))
                  else if String.prefix arg oa.1
                       then Some (oa.2, oa.1, None) else None)
        option_strings
  end.

(** The regular expression [^-\d+$|^-\d*\.\d+$] of a negative number, for
    ASCII digits; [$] also matches before a final line feed. *)
Definition negative_number (arg : string) : bool :=
  let arg :=
    match PyStr.rfind "010" arg with
    | Some i =>
        if (S i =? String.length arg)%nat then PyStr.take i arg else arg
    | None => arg
    end in
  match arg with
  | String "-" r =>
      negb (String.eqb r "") && PyStr.all PyStr.is_digit r
      || PyStr.contains "." r
         && PyStr.all PyStr.is_digit (PyStr.before "." r)
         && negb (String.eqb (PyStr.after "." r) "")
         && PyStr.all PyStr.is_digit (PyStr.after "." r)
  | _ => false
  end.

(** [_parse_optional]; an abbreviation of more than one option is an
    error. *)
Definition parse_optional (arg : string) : exn + token :=
  match arg with
  | String "-" _ =>
      match lookup_option arg with
      | Some a => inr (Optional (Some a) arg None)
      | None =>
          if (String.length arg =? 1)%nat then inr Positional
          else
            match (if PyStr.contains "=" arg
                   then lookup_option (PyStr.before "=" arg) else None) with
            | Some a =>
                inr (Optional (Some a) (PyStr.before "=" arg)
                       (Some (PyStr.after "=" arg)))
            | None =>
                match get_option_tuples arg with
                | _ :: _ :: _ => inl (SystemExit 2)
                | [(a, o, x)] => inr (Optional (Some a) o x)
                | [] =>
                    if negative_number arg || PyStr.contains " " arg
                    then inr Positional
                    else inr (Optional None arg None)
                end
            end
      end
  | _ => inr Positional
  end.

(** The classification of the whole command line: every argument after
    the first [--] is a value. *)
Fixpoint classify (argv : list string) : exn + list token :=
  match argv with
  | [] => inr []
  | arg :: rest =>
      if String.eqb arg "--"
      then inr (Separator :: ((λ _, Positional) <$> rest))
      else
        match parse_optional arg, classify rest with
        | inl x, _ => inl x
        | inr _, inl x => inl x
        | inr t, inr ts => inr (t :: ts)
        end
  end.

(** What the option read last still waits for. *)
Inductive expecting := Nothing | TestOrgValue | OrgValues.

(** [_get_values]: the values of an option, without a first [--]. *)
Definition get_values (arg_strings : list string) : list string :=
  match arg_strings with
  | ["--"] => []
  | _ => arg_strings
  end.

(** The arguments are consumed from left to right. An option takes the
    values that follow it directly; a value no option takes and an unknown
    option are set aside ([extras]) and are an error once everything was
    read. [-h] followed by letters stands for as many short options. A
    value [--] attached to [--test-org] leaves an empty list there, which
    [run] treats as it treats [None]. *)
Fixpoint consume (st : expecting) (a : args) (extras : bool)
  (argv : list (string * token)) : exn + args :=
  match st, argv with
  | TestOrgValue, (arg, Positional) :: rest =>
      consume Nothing {| test_org := Some arg; orgs := orgs a;
                         dry_run := dry_run a |} extras rest
  | TestOrgValue, _ => inl (SystemExit 2)
  | OrgValues, (arg, Positional) :: rest =>
      consume OrgValues
        {| test_org := test_org a;
           orgs := Some (default [] (orgs a) ++ [arg]);
           dry_run := dry_run a |} extras rest
  | _, [] =>
      match st, orgs a with
      | OrgValues, Some [] => inl (SystemExit 2)
      | _, _ => if extras then inl (SystemExit 2) else inr a
      end
  | _, (arg, tok) :: rest =>
      match st, orgs a with
      | OrgValues, Some [] => inl (SystemExit 2)
      | _, _ =>
          match tok with
          | Positional | Separator | Optional None _ _ =>
              consume Nothing a true rest
          | Optional (Some Help) o None => inl (SystemExit 0)
          | Optional (Some Help) o (Some x) =>
              if String.eqb o "-h" && negb (String.eqb x "")
                 && PyStr.all (Ascii.eqb "h") x
              then inl (SystemExit 0) else inl (SystemExit 2)
          | Optional (Some DryRun) _ None =>
              consume Nothing {| test_org := test_org a; orgs := orgs a;
                                 dry_run := true |} extras rest
          | Optional (Some DryRun) _ (Some _) => inl (SystemExit 2)
          | Optional (Some TestOrg) _ None => consume TestOrgValue a extras rest
          | Optional (Some TestOrg) _ (Some x) =>
              consume Nothing {| test_org := List.head (get_values [x]);
                                 orgs := orgs a;
                                 dry_run := dry_run a |} extras rest
          | Optional (Some Orgs) _ None =>
              consume OrgValues {| test_org := test_org a; orgs := Some [];
                                   dry_run := dry_run a |} extras rest
          | Optional (Some Orgs) _ (Some x) =>
              consume Nothing {| test_org := test_org a;
                                 orgs := Some (get_values [x]);
                                 dry_run := dry_run a |} extras rest
          end
      end
  end.

Definition parse_args (argv : list string) : exn + args :=
  match classify argv with
  | inl x => inl x
  | inr tokens =>
      consume Nothing {| test_org := None; orgs := None; dry_run := false |}
        false (zip argv tokens)
  end.

(** The script run from the command line: the module-level statements,
    then the [if __name__ == "__main__"] block. *)
Definition main (e : env) (argv : list string) : M (option counters) :=
  on_import e;;
  a ← lift (parse_args argv);
  run e (test_org a) (orgs a) (Some (dry_run a)).

End UploadLogos.

(** ** download_logos.py *)
Module DownloadLogos.
Import Py Mongo Sys.

Definition MONGO_URI (e : env) : value := getenv e "MONGO_URI".

(** [float(os.getenv("SLEEP_SECONDS", "0.6"))] *)
Definition SLEEP_SECONDS (e : env) : exn + PyFloat.float :=
  PyFloat.float_of_string (getenv_default e "SLEEP_SECONDS" "0.6").

(** [str(Path("./logos"))] *)
Definition LOGOS_DIR : string := Eval cbv in PathLib.str "./logos".

Definition validate_config (e : env) : M unit :=
  if truthy (MONGO_URI e) then ret tt else raise (SystemExit 1).

Definition download_logo (e : env) (url : value) (output_path : string)
  : M bool :=
  match url with
  | VStr u =>
      emit (Get u);;
      match fetch e u with
      | Refused => ret false
      | Broken part => write_file output_path part;; ret false
      | Complete body => write_file output_path body;; ret true
      end
  | _ => ret false
  end.

Definition get_extension_from_url (url : value) : exn + string :=
  match url_suffix url with
  | inr ext => inr (if String.eqb ext "" then ".png" else ext)
  | inl x => inl x
  end.

Definition process_organization (e : env) (org_doc : document)
  (force : bool) : M bool :=
  let image_slug := get org_doc "image_slug" in
  let image_url := get org_doc "image_url" in
  let logo_url := or_ image_url (get org_doc "logoUrl") in
  if negb (truthy logo_url) then ret false
  else if negb (truthy image_slug) then ret false
  else
    ext ← lift (get_extension_from_url logo_url);
    let filename := format image_slug +:+ ext in
    let local_path := PathLib.join LOGOS_DIR filename in
    existing ← read_file local_path;
    if is_some existing && negb force
    then _ ← stat_size local_path; ret true
    else
      downloaded ← download_logo e logo_url local_path;
      if negb downloaded then ret false
      else _ ← stat_size local_path; ret true.

(** The filter of the default mode, as written in [run]. *)
Definition default_query : filter :=
  And [
    Or [
      Field "image_url"
        (Ops (dict [("$exists", OBool true);
                    ("$ne", OValue VNone);
                    ("$ne", OValue (VStr ""))]));
      Field "logoUrl"
        (Ops (dict [("$exists", OBool true);
                    ("$ne", OValue VNone);
                    ("$ne", OValue (VStr ""))]))
    ];
    Field "image_slug"
      (Ops (dict [("$exists", OBool true);
                  ("$ne", OValue VNone);
                  ("$ne", OValue (VStr ""))]))
  ].

Definition select (test_org : option string)
  (org_slugs : option (list string)) (coll : list document)
  : list document :=
  match test_org, org_slugs with
  | Some (String _ _ as t), _ =>
      sort_desc_limit1 "canonical_id"
        (find (Field "slug" (Eq (VStr t))) coll)
  | _, Some ((_ :: _) as slugs) =>
      find (Field "slug" (Ops (dict [("$in", OList (VStr <$> slugs))])))
        coll
  | _, _ => find default_query coll
  end.

Record counters := {
  success_count : nat;
  skip_count : nat;
  fail_count : nat }.

(** [sub in s] *)
Definition has_substring (sub s : string) : bool :=
  is_some (String.index 0 sub s).

Fixpoint run_loop (e : env) (force : bool) (total idx : nat)
  (orgs : list document) (c : counters) : M counters :=
  match orgs with
  | [] => ret c
  | org :: rest =>
      emit (Banner idx total);;
      c' ← try_except
             (result ← process_organization e org force;
              if result : bool
              then
                let image_url :=
                  or_ (get org "image_url") (get org "logoUrl") in
                _ ← lift (get_extension_from_url image_url);
                if has_substring "[skip]" (str_bool result)
                then ret {| success_count := success_count c;
                            skip_count := S (skip_count c);
                            fail_count := fail_count c |}
                else ret {| success_count := S (success_count c);
                            skip_count := skip_count c;
                            fail_count := fail_count c |}
              else ret {| success_count := success_count c;
                          skip_count := skip_count c;
                          fail_count := S (fail_count c) |})
             (λ _, ret {| success_count := success_count c;
                          skip_count := skip_count c;
                          fail_count := S (fail_count c) |});
      (if (idx <? total)%nat
       then secs ← lift (SLEEP_SECONDS e); time_sleep e secs
       else ret tt);;
      run_loop e force total (S idx) rest c'
  end.

Definition run (e : env) (test_org : option string)
  (org_slugs : option (list string)) (force : bool)
  : M (option counters) :=
  validate_config e;;
  coll ← get_organizations;
  let orgs := select test_org org_slugs coll in
  match orgs with
  | [] => ret None
  | _ :: _ =>
      c ← run_loop e force (length orgs) 1 orgs
            {| success_count := 0; skip_count := 0; fail_count := 0 |};
      ret (Some c)
  end.

End DownloadLogos.

(** ** r2_test_upload.py

    The script uploads one test image to check the credentials. An error of
    [put_object] is caught and turned into exit status 1. *)
Module R2TestUpload.
Import Py Mongo Sys.

Definition R2_ACCESS_KEY (e : env) : value := getenv e "R2_ACCESS_KEY_ID".
Definition R2_SECRET_KEY (e : env) : value := getenv e "R2_SECRET_ACCESS_KEY".
Definition R2_ACCOUNT_ID (e : env) : value := getenv e "R2_ACCOUNT_ID".
Definition R2_BUCKET (e : env) : value := getenv e "R2_BUCKET_NAME".

Definition DRY_RUN (e : env) : bool :=
  bool_decide
    (PyStr.lower (getenv_default e "DRY_RUN" "true") ∈ ["1"; "true"; "yes"]).

Definition test_images : list string :=
  ["../test-image.jpg"; "test-image.jpg"; "../api-data-scrapper/test-image.jpg"].

(** The [for img_path in test_images] loop with its [break]. *)
Fixpoint first_existing (paths : list string) : M (option string) :=
  match paths with
  | [] => ret None
  | img_path :: rest =>
      f ← read_file img_path;
      if is_some f then ret (Some img_path) else first_existing rest
  end.

Definition key : string := "test-sample-gsoc-logo.png".

Definition script (e : env) : M unit :=
  if negb (truthy (R2_ACCESS_KEY e) && truthy (R2_SECRET_KEY e)
           && truthy (R2_ACCOUNT_ID e) && truthy (R2_BUCKET e))
  then raise (SystemExit 1)
  else
    local_path ← first_existing test_images;
    match local_path with
    | None => raise (SystemExit 1)
    | Some path =>
        f ← read_file path;
        match f with
        | None => raise FileNotFoundError
        | Some data =>
            if DRY_RUN e then ret tt
            else
              emit (PutObject key "image/png");;
              if s3_accepts e key
              then store_object key data "image/png"
              else raise (SystemExit 1)
        end
    end.

End R2TestUpload.

(** ** Vocabulary of the statements *)

Import Py Mongo Sys.

(** The extensions [get_content_type] has an entry for. *)
Definition known_extensions : list string :=
  [".png"; ".jpg"; ".jpeg"; ".gif"; ".svg"; ".webp"].

(** [m] takes every world to one that [R] relates to it. *)
Definition steps {A} (R : relation world) (m : M A) : Prop :=
  ∀ w, R w (m w).2.

(** Every exception [m] raises satisfies [Q]. *)
Definition raises_only {A} (Q : exn → Prop) (m : M A) : Prop :=
  ∀ w x, (m w).1 = Raise x → Q x.

(** The trace grew by events that satisfy [P]. *)
Definition grows (P : event → Prop) : relation world :=
  λ w w', ∃ evs, trace w' = trace w ++ evs ∧ Forall P evs.

Definition is_publish (ev : event) : Prop :=
  match ev with PutObject _ _ | UpdateOne _ => True | _ => False end.


Definition is_call (ev : event) : Prop :=
  match ev with Get _ | PutObject _ _ | UpdateOne _ => True | _ => False end.

(** The store and the database are as before and neither [put_object] nor
    [update_one] was called. *)
Definition local_only : relation world :=
  λ w w', organizations w' = organizations w
          ∧ bucket w' = bucket w
          ∧ grows (λ ev, ¬ is_publish ev) w w'.


Ltac not_in_list :=
  let H := fresh in
  intros H; repeat (apply elem_of_cons in H as [H|H]; [discriminate H|]);
  by apply elem_of_nil in H.

(** The world after one more call or printed line. *)
Definition with_event (ev : event) (w : world) : world :=
  {| organizations := organizations w; files := files w;
     bucket := bucket w; trace := trace w ++ [ev] |}.

(** The world after the pause between two records, when it was slept. *)
Definition after_sleep (idx total : nat) (w : world) : world :=
  if (idx <? total)%nat then with_event Sleep w else w.

(** The pause of the loop after record [idx] of [total]
    ([if idx < len(orgs): time.sleep(SLEEP_SECONDS)]), for the value [s]
    of [SLEEP_SECONDS]. *)
Definition pause (e : env) (s : exn + PyFloat.float) (idx total : nat)
  : M unit :=
  if (idx <? total)%nat then secs ← lift s; time_sleep e secs else ret tt.

(** [time.sleep(s)] goes through: [s] is a number that is not a NaN, its
    nanoseconds fit 64 bits and are not negative, and the operating system
    accepts the pause. *)
Definition can_sleep (e : env) (s : exn + PyFloat.float) : bool :=
  match s with
  | inr secs =>
      match PyFloat.nanoseconds secs with
      | inr ns => (0 <=? ns)%Z && nanosleep e ns
      | inl _ => false
      end
  | inl _ => false
  end.

(** The counters after one more success, one more failure. *)
Definition succeeded (c : UploadLogos.counters) : UploadLogos.counters :=
  {| UploadLogos.success_count := S (UploadLogos.success_count c);
     UploadLogos.fail_count := UploadLogos.fail_count c |}.

Definition failed (c : UploadLogos.counters) : UploadLogos.counters :=
  {| UploadLogos.success_count := UploadLogos.success_count c;
     UploadLogos.fail_count := S (UploadLogos.fail_count c) |}.

(** The counter update of the loop body for the outcome of
    [process_organization]: a raised Exception is caught and counted as a
    failure. *)
Definition tally (c : UploadLogos.counters) (r : result bool)
  : UploadLogos.counters :=
  match r with
  | Ret true => succeeded c
  | _ => failed c
  end.

(** Unfolding of the effect primitives on a given world. *)
Ltac run_effects :=
  repeat progress
    (unfold UploadLogos.download_logo, UploadLogos.upload_to_r2,
       UploadLogos.organizations_update_one, DownloadLogos.download_logo,
       mbind, M_bind, bind, ret, raise, lift, try_except, emit,
       write_file, read_file, stat_size, store_object, set_organizations,
       get_organizations;
     cbn -[PathLib.join]).

(** Closed statements: each conjunct holds by evaluation. *)
Ltac by_evaluation :=
  repeat match goal with
         | |- _ ∧ _ => split; [vm_compute; reflexivity|]
         end;
  vm_compute; reflexivity.

(** ** Scenarios *)

Definition environment : gmap string string :=
  dict [("R2_ACCESS_KEY_ID", "key");
        ("R2_SECRET_ACCESS_KEY", "secret");
        ("R2_ACCOUNT_ID", "account");
        ("R2_BUCKET_NAME", "logos");
        ("R2_PUBLIC_URL", "https://cdn.example.org/");
        ("MONGO_URI", "mongodb://localhost/")].

(** Every download, upload and update goes through. *)
Definition online (vars : gmap string string) : env :=
  {| environ := vars;
     fetch := λ _, Complete "PNG";
     s3_accepts := λ _, true;
     mongo_accepts := λ _, true;
     nanosleep := λ _, true;
     utcnow := 1730000000 |}.

(** The database refuses every update. *)
Definition database_down : env :=
  {| environ := environment;
     fetch := λ _, Complete "PNG";
     s3_accepts := λ _, true;
     mongo_accepts := λ _, false;
     nanosleep := λ _, true;
     utcnow := 1730000000 |}.

Definition world_of (docs : list document) : world :=
  {| organizations := docs; files := ∅; bucket := ∅; trace := [] |}.

Definition unikraft : document :=
  dict [("canonical_id", VStr "gsoc-unikraft-2024");
        ("slug", VStr "unikraft");
        ("image_slug", VStr "unikraft");
        ("image_url", VStr "https://host/logo.png")].

(** The logo of unikraft is in the logos directory already. *)
Definition downloaded_before : world :=
  {| organizations := [unikraft];
     files := {[ "logos/unikraft.png" := "OLD" ]};
     bucket := ∅; trace := [] |}.

Definition jitsi : document :=
  dict [("canonical_id", VStr "gsoc-jitsi-2024");
        ("slug", VStr "jitsi");
        ("image_slug", VStr "jitsi");
        ("logoUrl", VStr "https://host/jitsi/logo.SVG")].

(** A record whose URL makes [urlparse] raise ValueError. *)
Definition bad_url : document :=
  dict [("canonical_id", VStr "gsoc-bad-2024");
        ("slug", VStr "bad");
        ("image_slug", VStr "bad");
        ("image_url", VStr "http://[::1/logo.png")].

(** Records with a null [image_url], with a null [image_slug], without a
    source URL. *)
Definition null_url : document :=
  dict [("canonical_id", VStr "gsoc-oppia-2024");
        ("slug", VStr "oppia");
        ("image_slug", VStr "oppia");
        ("image_url", VNone)].

Definition null_slug : document :=
  dict [("canonical_id", VStr "gsoc-vlc-2024");
        ("slug", VStr "vlc");
        ("image_slug", VNone);
        ("image_url", VStr "https://host/vlc.png")].

Definition no_url : document :=
  dict [("canonical_id", VStr "gsoc-kde-2024");
        ("slug", VStr "kde");
        ("image_slug", VStr "kde")].


(** ** Vocabulary of the further statements *)

(** The variables [validate_config] of the download-and-upload tool asks
    for. *)
Definition required_variables : list string :=
  ["R2_ACCESS_KEY_ID"; "R2_SECRET_ACCESS_KEY"; "R2_ACCOUNT_ID";
   "R2_BUCKET_NAME"; "MONGO_URI"].

(** The variable is set to a string that is not empty. *)
Definition is_set (e : env) (k : string) : Prop :=
  ∃ s, environ e !! k = Some s ∧ s ≠ "".

(** A document after [{"$set": s}]. *)
Definition after_set (s : list (string * value)) (d : document) : document :=
  foldl (λ m kv, <[kv.1 := kv.2]> m) d s.

(** The fields [process_organization] writes back. *)
Definition output_fields (e : env) (key : string) : list (string * value) :=
  [("logo_local_filename", VStr key);
   ("logo_r2_url", VStr (UploadLogos.public_url_of e key));
   ("logo_uploaded_at", VInt (utcnow e))].

(** The environment without the database URI. *)
Definition no_mongo_uri : env := online (delete "MONGO_URI" environment).

(** unikraft after a first successful run. *)
Definition unikraft_published : document :=
  after_set (output_fields (online environment) "unikraft.png") unikraft.

(** The source breaks off after three bytes; the store refuses the
    upload. *)
Definition flaky_source : env :=
  {| environ := environment;
     fetch := λ _, Broken "PN";
     s3_accepts := λ _, true;
     mongo_accepts := λ _, true;
     nanosleep := λ _, true;
     utcnow := 1730000000 |}.

Definition store_down : env :=
  {| environ := environment;
     fetch := λ _, Complete "PNG";
     s3_accepts := λ _, false;
     mongo_accepts := λ _, true;
     nanosleep := λ _, true;
     utcnow := 1730000000 |}.

(** A record with both URL fields, and one whose image_url is empty. *)
Definition both_urls : document :=
  dict [("canonical_id", VStr "gsoc-gnome-2024");
        ("slug", VStr "gnome");
        ("image_slug", VStr "gnome");
        ("image_url", VStr "https://host/new.png");
        ("logoUrl", VStr "https://host/old.gif")].

Definition empty_image_url : document :=
  dict [("canonical_id", VStr "gsoc-gnome-2024");
        ("slug", VStr "gnome");
        ("image_slug", VStr "gnome");
        ("image_url", VStr "");
        ("logoUrl", VStr "https://host/old.gif")].

(** The number of pauses in a trace. *)
Definition sleeps (t : list event) : nat :=
  length (List.filter (λ ev, match ev with Sleep => true | _ => false end) t).

(** The counter update of the loop of the download-only tool for the
    outcome of its [process_organization]. *)
Definition download_tally (c : DownloadLogos.counters) (r : result bool)
  : DownloadLogos.counters :=
  match r with
  | Ret true =>
      {| DownloadLogos.success_count := S (DownloadLogos.success_count c);
         DownloadLogos.skip_count := DownloadLogos.skip_count c;
         DownloadLogos.fail_count := DownloadLogos.fail_count c |}
  | _ =>
      {| DownloadLogos.success_count := DownloadLogos.success_count c;
         DownloadLogos.skip_count := DownloadLogos.skip_count c;
         DownloadLogos.fail_count := S (DownloadLogos.fail_count c) |}
  end.

(** The public base is set with trailing slashes, to slashes only. *)
Definition slashes_only : env :=
  online (<["R2_PUBLIC_URL" := "//"]> environment).

(** The variables [r2_test_upload.py] asks for. *)
Definition store_variables : list string :=
  ["R2_ACCESS_KEY_ID"; "R2_SECRET_ACCESS_KEY"; "R2_ACCOUNT_ID";
   "R2_BUCKET_NAME"].

(** DRY_RUN is switched off; a test image lies in the working directory. *)
Definition really_upload : env :=
  online (<["DRY_RUN" := "false"]> environment).

Definition with_test_image : world :=
  {| organizations := [unikraft];
     files := {[ "test-image.jpg" := "JPEG" ]};
     bucket := ∅; trace := [] |}.

(** Only the database URI is set. *)
Definition mongo_only : env :=
  online {[ "MONGO_URI" := "mongodb://localhost/" ]}.

(** SLEEP_SECONDS is set to a negative number, to something that is not
    a number. *)
Definition negative_pause : env :=
  online (<["SLEEP_SECONDS" := "-1"]> environment).

Definition bad_pause : env :=
  online (<["SLEEP_SECONDS" := "fast"]> environment).
(** * Properties *)

(** ** Library models on examples *)

Example parse_args_ex1 :
  UploadLogos.parse_args ["--orgs"; "unikraft"; "jitsi"; "--dry-run"]
  = inr {| UploadLogos.test_org := None;
           UploadLogos.orgs := Some ["unikraft"; "jitsi"];
           UploadLogos.dry_run := true |}.
Proof. reflexivity. Qed.

Example parse_args_ex2 :
  UploadLogos.parse_args ["--test-org"] = inl (SystemExit 2)
  ∧ UploadLogos.parse_args ["--orgs"; "--dry-run"] = inl (SystemExit 2)
  ∧ UploadLogos.parse_args ["unikraft"] = inl (SystemExit 2)
  ∧ UploadLogos.parse_args ["--test-org"; "-x"] = inl (SystemExit 2)
  ∧ UploadLogos.parse_args ["--=x"] = inl (SystemExit 2)
  ∧ UploadLogos.parse_args ["--dry-run=1"] = inl (SystemExit 2).
Proof. by_evaluation. Qed.

(** Abbreviated options, values attached with [=], a value that looks
    like a negative number. *)
Example parse_args_ex3 :
  UploadLogos.parse_args ["--dry"; "--o=unikraft"]
  = inr {| UploadLogos.test_org := None;
           UploadLogos.orgs := Some ["unikraft"];
           UploadLogos.dry_run := true |}
  ∧ UploadLogos.parse_args ["--test-org=x"; "--orgs"; "a"; "b"]
    = inr {| UploadLogos.test_org := Some "x";
             UploadLogos.orgs := Some ["a"; "b"];
             UploadLogos.dry_run := false |}
  ∧ UploadLogos.parse_args ["--test-org"; "-5"]
    = inr {| UploadLogos.test_org := Some "-5";
             UploadLogos.orgs := None;
             UploadLogos.dry_run := false |}.
Proof. by_evaluation. Qed.

(** The help ends the program with status 0, also after an unknown
    option; an unknown option alone is an error. *)
Example parse_args_ex4 :
  UploadLogos.parse_args ["-h"] = inl (SystemExit 0)
  ∧ UploadLogos.parse_args ["--bogus"; "--help"] = inl (SystemExit 0)
  ∧ UploadLogos.parse_args ["--bogus"] = inl (SystemExit 2)
  ∧ UploadLogos.parse_args ["--orgs"; "a"; "--"; "b"] = inl (SystemExit 2).
Proof. by_evaluation. Qed.

Example find_in_ex :
  find (Field "slug" (Ops (dict [("$in", OList [VStr "jitsi"; VStr "kde"])])))
    [unikraft; jitsi; no_url]
  = [jitsi; no_url].
Proof. by_evaluation. Qed.

Example sort_desc_limit1_ex :
  sort_desc_limit1 "canonical_id" [jitsi; unikraft; no_url] = [unikraft].
Proof. by_evaluation. Qed.

Example urlparse_path_ex1 :
  UrlLib.urlparse_path "https://x.org/logo.SVG" = inr "/logo.SVG".
Proof. reflexivity. Qed.

Example urlparse_path_ex2 :
  UrlLib.urlparse_path "HTTPS://x.org:80/a/b.c/logo.Png;v=1?x=a.gif#frag.jpg" = inr "/a/b.c/logo.Png".
Proof. reflexivity. Qed.

Example urlparse_path_ex3 :
  UrlLib.urlparse_path "http://[::1/logo.png" = inl Py.ValueError.
Proof. reflexivity. Qed.

(** Brackets in the host hold an IPv6 or an IPvFuture address. *)
Example urlparse_path_ex4 :
  UrlLib.urlparse_path "http://[abc]/x.png" = inl Py.ValueError
  ∧ UrlLib.urlparse_path "http://[1.2.3.4]/x.png" = inl Py.ValueError
  ∧ UrlLib.urlparse_path "http://[::1]x/x.png" = inl Py.ValueError
  ∧ UrlLib.urlparse_path "http://user@[fe80::1%eth0]:8080/x.png"
    = inr "/x.png"
  ∧ UrlLib.urlparse_path "http://[::ffff:1.2.3.4]/x.png" = inr "/x.png"
  ∧ UrlLib.urlparse_path "http://[v1.x]/x.png" = inr "/x.png".
Proof. by_evaluation. Qed.

Example suffix_ex1 : PathLib.suffix "/a/b.c/logo.tar.GZ/" = ".GZ".
Proof. reflexivity. Qed.

Example suffix_ex2 : PathLib.suffix "/a/.bashrc" = "" ∧ PathLib.suffix "/a/logo." = "" ∧ PathLib.suffix "" = "".
Proof. repeat split; reflexivity. Qed.

(** Empty and [.] components are dropped, [..] is kept, an absolute name
    replaces the directory. *)
Example join_ex :
  UploadLogos.LOGOS_DIR = "logos"
  ∧ PathLib.join "logos" "unikraft.png" = "logos/unikraft.png"
  ∧ PathLib.join "logos" "./unikraft.png" = "logos/unikraft.png"
  ∧ PathLib.join "logos" "a//b/./c.png" = "logos/a/b/c.png"
  ∧ PathLib.join "logos" "../c.png" = "logos/../c.png"
  ∧ PathLib.join "logos" "/tmp/c.png" = "/tmp/c.png".
Proof. by_evaluation. Qed.

Example float_of_string_ex :
  PyFloat.float_of_string "0.6"
  = inr (S754_finite false 5404319552844595 (-53))
  ∧ PyFloat.float_of_string " 1_0.5e1 "
    = inr (S754_finite false 7388718138654720 (-46))
  ∧ PyFloat.float_of_string "-Infinity" = inr (S754_infinity true)
  ∧ PyFloat.float_of_string "1e400" = inr (S754_infinity false)
  ∧ PyFloat.float_of_string "nan" = inr S754_nan
  ∧ PyFloat.float_of_string "fast" = inl ValueError
  ∧ PyFloat.float_of_string "" = inl ValueError.
Proof. by_evaluation. Qed.

(** The nanoseconds [time.sleep] makes of 0.6, of -1, of a NaN and of an
    infinity. *)
Example nanoseconds_ex :
  PyFloat.nanoseconds (S754_finite false 5404319552844595 (-53))
  = inr 600000000%Z
  ∧ PyFloat.nanoseconds (S754_finite true 4503599627370496 (-52))
    = inr (-1000000000)%Z
  ∧ PyFloat.nanoseconds S754_nan = inl ValueError
  ∧ PyFloat.nanoseconds (S754_infinity false) = inl OverflowError.
Proof. by_evaluation. Qed.

(** ** The extension, the storage key and the content type *)

Lemma mapping_lookup_known :
  UploadLogos.mapping !! ".png" = Some "image/png"
  ∧ UploadLogos.mapping !! ".jpg" = Some "image/jpeg"
  ∧ UploadLogos.mapping !! ".jpeg" = Some "image/jpeg"
  ∧ UploadLogos.mapping !! ".gif" = Some "image/gif"
  ∧ UploadLogos.mapping !! ".svg" = Some "image/svg+xml"
  ∧ UploadLogos.mapping !! ".webp" = Some "image/webp".
Proof. repeat split; reflexivity. Qed.

Lemma mapping_lookup_unknown (ext : string) :
  ext ∉ known_extensions → UploadLogos.mapping !! ext = None.
Proof.
  intros Hn. unfold UploadLogos.mapping, dict. cbn [foldl fst snd].
  unfold known_extensions in Hn.
  rewrite !lookup_insert_ne; [apply lookup_empty | ..];
    intros <-; apply Hn; repeat constructor.
Qed.

Lemma bmp_unknown : ".bmp" ∉ known_extensions.
Proof. not_in_list. Qed.

Lemma no_extension_unknown : "" ∉ known_extensions.
Proof. not_in_list. Qed.

Lemma mapping_lookup_Some (ext ct : string) :
  UploadLogos.mapping !! ext = Some ct → ext ∈ known_extensions.
Proof.
  intros H. destruct (decide (ext ∈ known_extensions)) as [|Hn]; [done|].
  rewrite (mapping_lookup_unknown _ Hn) in H. discriminate.
Qed.

Lemma url_suffix_str (u p : string) :
  UrlLib.urlparse_path u = inr p →
  url_suffix (VStr u) = inr (PyStr.lower (PathLib.suffix p)).
Proof. intros H. unfold url_suffix. by rewrite H. Qed.

(** C9: for an ASCII URL that [urlparse] accepts, the content type
    depends on the lowercased extension of the URL's path only, through
    the fixed table .png -> image/png, .jpg and .jpeg -> image/jpeg,
    .gif -> image/gif, .svg -> image/svg+xml, .webp -> image/webp; every
    other extension, or none, gives image/png (so does .bmp). *)
Theorem get_content_type_table (u p : string) :
  PyStr.is_ascii u = true →
  UrlLib.urlparse_path u = inr p →
  ∃ ct, UploadLogos.get_content_type (VStr u) = inr ct
    ∧ (PyStr.lower (PathLib.suffix p) = ".png" → ct = "image/png")
    ∧ (PyStr.lower (PathLib.suffix p) = ".jpg" → ct = "image/jpeg")
    ∧ (PyStr.lower (PathLib.suffix p) = ".jpeg" → ct = "image/jpeg")
    ∧ (PyStr.lower (PathLib.suffix p) = ".gif" → ct = "image/gif")
    ∧ (PyStr.lower (PathLib.suffix p) = ".svg" → ct = "image/svg+xml")
    ∧ (PyStr.lower (PathLib.suffix p) = ".webp" → ct = "image/webp")
    ∧ (PyStr.lower (PathLib.suffix p) ∉ known_extensions →
       ct = "image/png")
    ∧ (∀ u' p', PyStr.is_ascii u' = true →
       UrlLib.urlparse_path u' = inr p' →
       PyStr.lower (PathLib.suffix p') = PyStr.lower (PathLib.suffix p) →
       UploadLogos.get_content_type (VStr u') = inr ct).
Proof.
  intros _ Hp. unfold UploadLogos.get_content_type.
  rewrite (url_suffix_str _ _ Hp). eexists. split; [reflexivity|].
  repeat split; try (intros ->; reflexivity).
  - intros Hn. by rewrite (mapping_lookup_unknown _ Hn).
  - intros u' p' _ Hp' He. by rewrite (url_suffix_str _ _ Hp'), He.
Qed.

Lemma get_content_type_table_witness :
  UploadLogos.get_content_type (VStr "https://x.org/img/Logo.JPEG?v=2")
  = inr "image/jpeg"
  ∧ UploadLogos.get_content_type (VStr "https://x.org/logo.webp")
    = inr "image/webp"
  ∧ UploadLogos.get_content_type (VStr "https://x.org/logo.bmp")
    = inr "image/png"
  ∧ UploadLogos.get_content_type (VStr "https://x.org/logo")
    = inr "image/png".
Proof.
  split; [|split; [|split]].
  - destruct (get_content_type_table "https://x.org/img/Logo.JPEG?v=2"
                "/img/Logo.JPEG" eq_refl eq_refl) as (ct & -> & H).
    f_equal. by apply H.
  - destruct (get_content_type_table "https://x.org/logo.webp"
                "/logo.webp" eq_refl eq_refl) as (ct & -> & H).
    f_equal. by apply H.
  - destruct (get_content_type_table "https://x.org/logo.bmp"
                "/logo.bmp" eq_refl eq_refl) as (ct & -> & H).
    f_equal. apply H. exact bmp_unknown.
  - destruct (get_content_type_table "https://x.org/logo"
                "/logo" eq_refl eq_refl) as (ct & -> & H).
    f_equal. apply H. exact no_extension_unknown.
Defined.

Lemma generate_r2_key_str (image_slug : value) (u p : string) :
  UrlLib.urlparse_path u = inr p →
  UploadLogos.generate_r2_key image_slug (VStr u)
  = inr (format image_slug
         +:+ (if String.eqb (PyStr.lower (PathLib.suffix p)) ""
             then ".png" else PyStr.lower (PathLib.suffix p))).
Proof.
  intros Hp. unfold UploadLogos.generate_r2_key.
  by rewrite (url_suffix_str _ _ Hp).
Qed.

(** C10: for an ASCII URL that [urlparse] accepts: when the extension of
    the URL's path is one the table knows, or is absent, the extension put
    into the storage key has an entry in the table and the content type is
    that entry (an absent extension gives the key suffix .png and
    image/png). For any other extension (such as .bmp) the key keeps the
    extension, which has no entry in the table and is not .png, while the
    content type is image/png. *)
Theorem key_extension_and_content_type (image_slug : value) (u p : string) :
  PyStr.is_ascii u = true →
  UrlLib.urlparse_path u = inr p →
  (PyStr.lower (PathLib.suffix p) ∈ known_extensions
   ∨ PyStr.lower (PathLib.suffix p) = "" →
   ∃ ext ct,
     UploadLogos.generate_r2_key image_slug (VStr u)
     = inr (format image_slug +:+ ext)
     ∧ UploadLogos.get_content_type (VStr u) = inr ct
     ∧ UploadLogos.mapping !! ext = Some ct
     ∧ (PyStr.lower (PathLib.suffix p) = "" →
        ext = ".png" ∧ ct = "image/png"))
  ∧ ((PyStr.lower (PathLib.suffix p) ∉ known_extensions)
     ∧ PyStr.lower (PathLib.suffix p) ≠ "" →
     UploadLogos.generate_r2_key image_slug (VStr u)
     = inr (format image_slug +:+ PyStr.lower (PathLib.suffix p))
     ∧ UploadLogos.get_content_type (VStr u) = inr "image/png"
     ∧ UploadLogos.mapping !! (PyStr.lower (PathLib.suffix p)) = None
     ∧ PyStr.lower (PathLib.suffix p) ≠ ".png").
Proof.
  intros _ Hp. rewrite (generate_r2_key_str _ _ _ Hp).
  unfold UploadLogos.get_content_type. rewrite (url_suffix_str _ _ Hp).
  set (ext := PyStr.lower (PathLib.suffix p)). split.
  - intros [Hin | He].
    + assert (ext ≠ "") as Hne
        by (intros E; rewrite E in Hin; exact (no_extension_unknown Hin)).
      apply String.eqb_neq in Hne. rewrite Hne.
      destruct (UploadLogos.mapping !! ext) as [ct|] eqn:Hm.
      * exists ext, ct. split; [done|]. split; [done|]. split; [done|].
        intros E. apply String.eqb_neq in Hne. done.
      * destruct (decide (ext ∈ known_extensions)) as [_|Hn]; [|done].
        unfold known_extensions in Hin.
        repeat (apply elem_of_cons in Hin as [Hin|Hin];
                [rewrite Hin in Hm; discriminate Hm|]).
        by apply elem_of_nil in Hin.
    + rewrite He. exists ".png", "image/png". by repeat split.
  - intros [Hn Hne]. pose proof (mapping_lookup_unknown _ Hn) as Hm.
    apply String.eqb_neq in Hne. rewrite Hne, Hm.
    split; [done|]. split; [done|]. split; [done|].
    intros E. apply Hn. rewrite E. repeat constructor.
Qed.

Lemma key_extension_and_content_type_witness :
  (∃ ext ct,
     UploadLogos.generate_r2_key (VStr "unikraft")
       (VStr "https://x.org/logo.SVG") = inr ("unikraft" +:+ ext)
     ∧ UploadLogos.get_content_type (VStr "https://x.org/logo.SVG") = inr ct
     ∧ UploadLogos.mapping !! ext = Some ct)
  ∧ UploadLogos.generate_r2_key (VStr "vlc") (VStr "https://x.org/logo.bmp")
    = inr "vlc.bmp"
  ∧ UploadLogos.get_content_type (VStr "https://x.org/logo.bmp")
    = inr "image/png".
Proof.
  split.
  - destruct (key_extension_and_content_type (VStr "unikraft")
                "https://x.org/logo.SVG" "/logo.SVG" eq_refl eq_refl)
      as [H _].
    destruct H as (ext & ct & Hk & Hc & Hm & _).
    + left. unfold known_extensions. repeat constructor.
    + by exists ext, ct.
  - destruct (key_extension_and_content_type (VStr "vlc")
                "https://x.org/logo.bmp" "/logo.bmp" eq_refl eq_refl)
      as [_ H].
    destruct H as (Hk & Hc & _).
    + split; [exact bmp_unknown | discriminate].
    + by split.
Defined.

(** ** Effects: what a computation may do to the world *)

#[local] Instance grows_preorder (P : event → Prop) : PreOrder (grows P).
Proof.
  split.
  - intros w. exists []. by rewrite app_nil_r.
  - intros w1 w2 w3 (e1 & H1 & F1) (e2 & H2 & F2). exists (e1 ++ e2).
    split; [by rewrite H2, H1, app_assoc | by apply Forall_app].
Qed.

#[local] Instance local_only_preorder : PreOrder local_only.
Proof.
  split.
  - intros w. repeat split. reflexivity.
  - intros w1 w2 w3 (A1 & B1 & G1) (A2 & B2 & G2).
    split; [congruence|]. split; [congruence|]. by etrans.
Qed.

Section Steps.
Context (R : relation world) `{!PreOrder R}.

Lemma steps_ret {A} (a : A) : steps R (ret a).
Proof. intros w. reflexivity. Qed.

Lemma steps_raise {A} (x : exn) : steps R (@raise A x).
Proof. intros w. reflexivity. Qed.

Lemma steps_lift {A} (r : exn + A) : steps R (lift r).
Proof. destruct r; [apply steps_raise | apply steps_ret]. Qed.

Lemma steps_bind {A B} (m : M A) (k : A → M B) :
  steps R m → (∀ a, steps R (k a)) → steps R (m ≫= k).
Proof.
  intros Hm Hk w. unfold mbind, M_bind, bind.
  specialize (Hm w). destruct (m w) as [[a|x] w']; simpl in *; [|done].
  etrans; [exact Hm | apply Hk].
Qed.

Lemma steps_try_except {A} (m : M A) (h : exn → M A) :
  steps R m → (∀ x, steps R (h x)) → steps R (try_except m h).
Proof.
  intros Hm Hh w. unfold try_except.
  specialize (Hm w). destruct (m w) as [[a|x] w']; simpl in *; [done|].
  destruct (is_Exception x); [|done].
  etrans; [exact Hm | apply Hh].
Qed.

Lemma steps_read_file (path : string) : steps R (read_file path).
Proof. intros w. reflexivity. Qed.

Lemma steps_get_organizations : steps R get_organizations.
Proof. intros w. reflexivity. Qed.

Lemma steps_stat_size (path : string) : steps R (stat_size path).
Proof.
  apply steps_bind; [apply steps_read_file|].
  intros [b|]; [apply steps_ret | apply steps_raise].
Qed.
End Steps.

Lemma raises_only_ret {A} Q (a : A) : raises_only Q (ret a).
Proof. intros w x H. discriminate H. Qed.

Lemma raises_only_raise {A} (Q : exn → Prop) (x : exn) :
  Q x → raises_only Q (@raise A x).
Proof. intros H w y [= <-]. exact H. Qed.

Lemma raises_only_bind {A B} Q (m : M A) (k : A → M B) :
  raises_only Q m → (∀ a, raises_only Q (k a)) → raises_only Q (m ≫= k).
Proof.
  intros Hm Hk w x. unfold mbind, M_bind, bind.
  specialize (Hm w). destruct (m w) as [[a|y] w']; simpl in *.
  - apply Hk.
  - intros [= <-]. by apply Hm.
Qed.

Lemma raises_only_caught {A} Q (m : M A) (h : exn → M A) :
  raises_only (λ x, is_Exception x = true) m →
  (∀ x, raises_only Q (h x)) → raises_only Q (try_except m h).
Proof.
  intros Hm Hh w x. unfold try_except.
  specialize (Hm w). destruct (m w) as [[a|y] w']; simpl in *; [done|].
  rewrite (Hm y eq_refl). apply Hh.
Qed.

Lemma steps_emit (R : relation world) (ev : event) :
  (∀ w, R w {| organizations := organizations w; files := files w;
               bucket := bucket w; trace := trace w ++ [ev] |}) →
  steps R (emit ev).
Proof. intros H w. apply H. Qed.

Lemma steps_write_file (R : relation world) (path body : string) :
  (∀ w, R w {| organizations := organizations w;
               files := <[path := body]> (files w);
               bucket := bucket w; trace := trace w |}) →
  steps R (write_file path body).
Proof. intros H w. apply H. Qed.

Lemma grows_one (P : event → Prop) (ev : event) (w : world) :
  P ev →
  grows P w {| organizations := organizations w; files := files w;
               bucket := bucket w; trace := trace w ++ [ev] |}.
Proof. intros H. exists [ev]. split; [done | by constructor]. Qed.

Lemma grows_same_trace (P : event → Prop) (w w' : world) :
  trace w' = trace w → grows P w w'.
Proof. intros H. exists []. by rewrite app_nil_r. Qed.

(** Structural rules for [steps]; what is left are the primitive effects
    and the case distinctions of the body. *)
Ltac steps_structure :=
  repeat first
    [ apply steps_ret | apply steps_raise | apply steps_lift
    | apply steps_read_file | apply steps_stat_size
    | apply steps_get_organizations
    | apply steps_bind | apply steps_try_except
    | progress intros
    | match goal with
      | |- PreOrder _ => apply _
      | |- steps _ (if ?b then _ else _) => destruct b
      | |- steps _ (match ?x with _ => _ end) => destruct x
      end ].

Lemma download_logo_local (e : env) (url : value) (path : string) :
  steps local_only (UploadLogos.download_logo e url path).
Proof.
  unfold UploadLogos.download_logo. steps_structure.
  all: first [ apply steps_emit | apply steps_write_file ]; intros w'.
  all: split; [done|]; split; [done|].
  all: first [ apply grows_one; cbn; tauto | by apply grows_same_trace ].
Qed.

Lemma process_organization_dry_run_local (e : env) (org : document) :
  steps local_only (UploadLogos.process_organization e org true).
Proof.
  unfold UploadLogos.process_organization. cbv zeta. steps_structure.
  all: apply download_logo_local.
Qed.

(** ** The pipeline of one record on an eligible record *)

Lemma url_suffix_of_key (image_slug url : value) (key : string) :
  UploadLogos.generate_r2_key image_slug url = inr key →
  ∃ ext, url_suffix url = inr ext.
Proof.
  unfold UploadLogos.generate_r2_key.
  destruct (url_suffix url) as [x|ext]; [discriminate | by exists ext].
Qed.

Lemma content_type_of_key (image_slug url : value) (key : string) :
  UploadLogos.generate_r2_key image_slug url = inr key →
  ∃ ct, UploadLogos.get_content_type url = inr ct.
Proof.
  intros [ext He]%url_suffix_of_key. unfold UploadLogos.get_content_type.
  rewrite He. by eexists.
Qed.

Section Eligible.
Context (e : env) (org : document) (u key body : string).
Hypothesis Hurl : or_ (get org "image_url") (get org "logoUrl") = VStr u.
Hypothesis Hu : truthy (VStr u) = true.
Hypothesis Hslug : truthy (get org "image_slug") = true.
Hypothesis Hkey :
  UploadLogos.generate_r2_key (get org "image_slug") (VStr u) = inr key.

Lemma dry_run_complete (w : world) :
  fetch e u = Complete body →
  UploadLogos.process_organization e org true w
  = (Ret true,
     {| organizations := organizations w;
        files := <[PathLib.join UploadLogos.LOGOS_DIR key := body]> (files w);
        bucket := bucket w;
        trace := trace w ++ [Get u] |}).
Proof.
  intros Hf. unfold UploadLogos.process_organization.
  rewrite Hurl, Hu, Hslug, Hkey. cbn -[PathLib.join]. rewrite Hf.
  run_effects. rewrite lookup_insert_eq. reflexivity.
Qed.

Lemma download_attempted (dry_run : bool) (w : world) :
  ∃ evs, trace (UploadLogos.process_organization e org dry_run w).2
         = trace w ++ Get u :: evs.
Proof.
  unfold UploadLogos.process_organization.
  rewrite Hurl, Hu, Hslug, Hkey. cbn -[PathLib.join].
  destruct (content_type_of_key _ _ _ Hkey) as [ct Hct]. rewrite Hct.
  destruct (fetch e u) as [|part|b] eqn:Hf; run_effects.
  1, 2: by exists [].
  rewrite lookup_insert_eq. destruct dry_run; cbn -[PathLib.join].
  { by exists []. }
  run_effects. rewrite lookup_insert_eq.
  destruct (s3_accepts e key); cbn -[PathLib.join];
    [|rewrite <- app_assoc; by eexists].
  destruct (mongo_accepts e (get org "canonical_id")); cbn -[PathLib.join];
    rewrite <- !app_assoc; by eexists.
Qed.

Lemma publish_complete (ct : string) (w : world) :
  UploadLogos.get_content_type (VStr u) = inr ct →
  fetch e u = Complete body →
  s3_accepts e key = true →
  mongo_accepts e (get org "canonical_id") = true →
  UploadLogos.process_organization e org false w
  = (Ret true,
     {| organizations :=
          update_one (Field "canonical_id" (Eq (get org "canonical_id")))
            [("logo_local_filename", VStr key);
             ("logo_r2_url", VStr (UploadLogos.public_url_of e key));
             ("logo_uploaded_at", VInt (utcnow e))]
            (organizations w);
        files := <[PathLib.join UploadLogos.LOGOS_DIR key := body]> (files w);
        bucket := <[key := (body, ct)]> (bucket w);
        trace := trace w ++ [Get u; PutObject key ct;
                             UpdateOne (get org "canonical_id")] |}).
Proof.
  intros Hct Hf Hs Hm. unfold UploadLogos.process_organization.
  rewrite Hurl, Hu, Hslug, Hkey, Hct. cbn -[PathLib.join]. rewrite Hf.
  run_effects. rewrite lookup_insert_eq. run_effects.
  rewrite lookup_insert_eq, Hs. run_effects. rewrite Hm.
  run_effects. by rewrite <- !app_assoc.
Qed.

Lemma publish_update_raises (ct : string) (w : world) :
  UploadLogos.get_content_type (VStr u) = inr ct →
  fetch e u = Complete body →
  s3_accepts e key = true →
  mongo_accepts e (get org "canonical_id") = false →
  UploadLogos.process_organization e org false w
  = (Ret false,
     {| organizations := organizations w;
        files := <[PathLib.join UploadLogos.LOGOS_DIR key := body]> (files w);
        bucket := <[key := (body, ct)]> (bucket w);
        trace := trace w ++ [Get u; PutObject key ct;
                             UpdateOne (get org "canonical_id")] |}).
Proof.
  intros Hct Hf Hs Hm. unfold UploadLogos.process_organization.
  rewrite Hurl, Hu, Hslug, Hkey, Hct. cbn -[PathLib.join]. rewrite Hf.
  run_effects. rewrite lookup_insert_eq. run_effects.
  rewrite lookup_insert_eq, Hs. run_effects. rewrite Hm.
  run_effects. by rewrite <- !app_assoc.
Qed.
End Eligible.

(** ** Which exceptions the pipeline of one record raises, and which calls
    it makes *)

Lemma urlparse_path_raises (u : string) (x : exn) :
  UrlLib.urlparse_path u = inl x → x = ValueError.
Proof.
  unfold UrlLib.urlparse_path.
  destruct (UrlLib.split_scheme _) as [scheme r].
  destruct (if String.eqb (PyStr.take 2 r) "//" then _ else _) as [netloc r'].
  destruct (xorb _ _); [congruence|].
  destruct (_ && negb _); congruence.
Qed.

Lemma url_suffix_raises (url : value) (x : exn) :
  url_suffix url = inl x → is_Exception x = true.
Proof.
  destruct url as [|n|u]; cbn.
  - by intros [= <-].
  - intros [= <-]. by destruct (n =? 0)%Z.
  - destruct (UrlLib.urlparse_path u) as [y|p] eqn:E; [|discriminate].
    intros [= <-]. by rewrite (urlparse_path_raises _ _ E).
Qed.

Lemma raises_only_lift {A} (Q : exn → Prop) (r : exn + A) :
  (∀ x, r = inl x → Q x) → raises_only Q (lift r).
Proof.
  intros H. destruct r as [x|a]; cbn.
  - apply raises_only_raise. by apply H.
  - apply raises_only_ret.
Qed.

Lemma raises_only_total {A} (Q : exn → Prop) (m : M A) :
  (∀ w, ∃ a, (m w).1 = Ret a) → raises_only Q m.
Proof. intros H w x Hx. destruct (H w) as [a Ha]. congruence. Qed.

Lemma download_logo_total (e : env) (url : value) (path : string) (w : world) :
  ∃ a, (UploadLogos.download_logo e url path w).1 = Ret a.
Proof.
  destruct url as [|n|u]; run_effects; try by eexists.
  destruct (fetch e u); by eexists.
Qed.

Lemma upload_to_r2_total (e : env) (path key ct : string) (w : world) :
  ∃ a, (UploadLogos.upload_to_r2 e path key ct w).1 = Ret a.
Proof.
  run_effects. destruct (files w !! path); cbn; [|by eexists].
  destruct (s3_accepts e key); by eexists.
Qed.

Lemma organizations_update_one_raises (e : env) (cid : value)
  (s : list (string * value)) :
  raises_only (λ x, is_Exception x = true)
    (UploadLogos.organizations_update_one e cid s).
Proof.
  intros w x. run_effects. destruct (mongo_accepts e cid); cbn; [done|].
  by intros [= <-].
Qed.

Lemma stat_size_raises (path : string) :
  raises_only (λ x, is_Exception x = true) (stat_size path).
Proof.
  intros w x. run_effects. destruct (files w !! path); cbn; [done|].
  by intros [= <-].
Qed.

Ltac raises_structure :=
  repeat first
    [ apply raises_only_ret
    | apply stat_size_raises | apply organizations_update_one_raises
    | apply raises_only_total; (apply download_logo_total
                                || apply upload_to_r2_total)
    | apply raises_only_bind | apply raises_only_caught
    | progress intros
    | match goal with
      | |- raises_only _ (if ?b then _ else _) => destruct b
      end ].

Lemma process_organization_raises (e : env) (org : document) (dry_run : bool) :
  raises_only (λ x, is_Exception x = true)
    (UploadLogos.process_organization e org dry_run).
Proof.
  unfold UploadLogos.process_organization. cbv zeta. raises_structure.
  all: apply raises_only_lift; intros x.
  all: unfold UploadLogos.generate_r2_key, UploadLogos.get_content_type.
  all: destruct (url_suffix _) as [y|ext] eqn:E; [|discriminate].
  all: intros [= <-]; by apply (url_suffix_raises _ _ E).
Qed.

Lemma process_organization_calls (e : env) (org : document) (dry_run : bool) :
  steps (grows is_call) (UploadLogos.process_organization e org dry_run).
Proof.
  unfold UploadLogos.process_organization, UploadLogos.download_logo,
    UploadLogos.upload_to_r2, UploadLogos.organizations_update_one.
  cbv zeta. steps_structure.
  all: first [ apply steps_emit; intros w; by apply grows_one
             | intros w; by apply grows_same_trace ].
Qed.

(** ** The loop of [run] *)

Lemma pause_completes (e : env) (s : exn + PyFloat.float) (idx total : nat)
  (w : world) :
  can_sleep e s = true ∨ (total ≤ idx)%nat →
  pause e s idx total w = (Ret tt, after_sleep idx total w).
Proof.
  unfold pause, after_sleep, can_sleep. intros [H|H].
  - destruct (idx <? total)%nat; [|done]. destruct s as [x|secs]; [done|].
    unfold time_sleep, mbind, M_bind, bind, lift, ret.
    destruct (PyFloat.nanoseconds secs) as [x|ns]; [done|].
    apply andb_true_iff in H as [H1%Z.leb_le H2].
    assert ((ns <? 0)%Z = false) as -> by (apply Z.ltb_ge; lia).
    by rewrite H2.
  - by assert ((idx <? total)%nat = false) as -> by (apply Nat.ltb_ge; lia).
Qed.

Lemma time_sleep_fails (e : env) (secs : PyFloat.float) :
  can_sleep e (inr secs) = false →
  ∃ x, ∀ w, time_sleep e secs w = (Raise x, w).
Proof.
  unfold can_sleep, time_sleep, mbind, M_bind, bind, lift, ret, raise.
  intros H. destruct (PyFloat.nanoseconds secs) as [x|ns]; [by exists x|].
  destruct (ns <? 0)%Z eqn:Hns; [by eexists|].
  apply Z.ltb_ge, Z.leb_le in Hns. rewrite Hns in H. cbn in H.
  rewrite H. by eexists.
Qed.

(** One turn of the loop: whatever [process_organization] does, its
    outcome is counted and the loop is at the pause. *)
Lemma run_loop_step (e : env) (dry_run : bool) (total idx : nat)
  (org : document) (rest : list document) (c : UploadLogos.counters)
  (w : world) :
  UploadLogos.run_loop e dry_run total idx (org :: rest) c w
  = (pause e (UploadLogos.SLEEP_SECONDS e) idx total ≫= λ _,
     UploadLogos.run_loop e dry_run total (S idx) rest
       (tally c (UploadLogos.process_organization e org dry_run
                   (with_event (Banner idx total) w)).1))
      (UploadLogos.process_organization e org dry_run
         (with_event (Banner idx total) w)).2.
Proof.
  pose proof (process_organization_raises e org dry_run
                (with_event (Banner idx total) w)) as Hx.
  cbn [UploadLogos.run_loop].
  unfold pause, mbind, M_bind, bind, try_except, emit, ret.
  fold (with_event (Banner idx total) w).
  destruct (UploadLogos.process_organization e org dry_run _)
    as [[[]|x] w1]; cbn [fst snd] in *; try reflexivity.
  by rewrite (Hx x eq_refl).
Qed.

(** When the pause goes through, or is not due, the loop is at the next
    record. *)
Lemma run_loop_next (e : env) (dry_run : bool) (total idx : nat)
  (org : document) (rest : list document) (c : UploadLogos.counters)
  (w : world) :
  can_sleep e (UploadLogos.SLEEP_SECONDS e) = true ∨ (total ≤ idx)%nat →
  UploadLogos.run_loop e dry_run total idx (org :: rest) c w
  = UploadLogos.run_loop e dry_run total (S idx) rest
      (tally c (UploadLogos.process_organization e org dry_run
                  (with_event (Banner idx total) w)).1)
      (after_sleep idx total
         (UploadLogos.process_organization e org dry_run
            (with_event (Banner idx total) w)).2).
Proof.
  intros H. rewrite run_loop_step. unfold mbind at 1, M_bind, bind.
  by rewrite (pause_completes _ _ _ _ _ H).
Qed.







Lemma local_only_event (ev : event) (w : world) :
  ¬ is_publish ev → local_only w (with_event ev w).
Proof. intros H. split; [done|]. split; [done|]. by apply grows_one. Qed.

Lemma validate_config_steps (R : relation world) `{!PreOrder R} (e : env) :
  steps R (UploadLogos.validate_config e).
Proof.
  unfold UploadLogos.validate_config. cbv zeta.
  destruct (_ ++ _); steps_structure.
Qed.

Lemma run_loop_dry_run_local (e : env) (total idx : nat)
  (orgs : list document) (c : UploadLogos.counters) :
  steps local_only (UploadLogos.run_loop e true total idx orgs c).
Proof.
  revert idx c. induction orgs as [|org rest IH]; intros idx c.
  - steps_structure.
  - cbn [UploadLogos.run_loop]. steps_structure.
    all: first [ apply IH | apply process_organization_dry_run_local
               | apply steps_emit; intros w; apply local_only_event;
                 cbn; tauto ].
Qed.

Lemma run_dry_run_local (e : env) (test_org : option string)
  (org_slugs : option (list string)) :
  steps local_only (UploadLogos.run e test_org org_slugs (Some true)).
Proof.
  unfold UploadLogos.run. cbv zeta.
  apply steps_bind; [apply _ | apply validate_config_steps, _ | intros _].
  apply steps_bind; [apply _ | apply steps_get_organizations, _ | intros coll].
  destruct (UploadLogos.select _ _ _) as [|org orgs]; [apply steps_ret, _|].
  apply steps_bind;
    [apply _ | apply run_loop_dry_run_local | intros c; apply steps_ret, _].
Qed.

Lemma dry_run_trace (e : env) (org : document) (u key : string) (w : world) :
  or_ (get org "image_url") (get org "logoUrl") = VStr u →
  truthy (VStr u) = true →
  truthy (get org "image_slug") = true →
  UploadLogos.generate_r2_key (get org "image_slug") (VStr u) = inr key →
  trace (UploadLogos.process_organization e org true w).2
  = trace w ++ [Get u].
Proof.
  intros Hurl Hu Hslug Hkey. unfold UploadLogos.process_organization.
  rewrite Hurl, Hu, Hslug, Hkey. cbn -[PathLib.join].
  destruct (fetch e u); run_effects; try reflexivity.
  by rewrite lookup_insert_eq.
Qed.

(** C4: in dry-run mode neither the store upload nor the database update
    is called, for one record and for the whole run: the bucket and the
    collection stay as they were. A record that has its source URL and its
    image_slug is still downloaded, and when the download succeeds the
    file is left in the logos directory and the record is reported as a
    success. *)
Theorem dry_run_skips_publish (e : env) (org : document) (w : world) :
  local_only w (UploadLogos.process_organization e org true w).2
  ∧ (∀ test_org org_slugs,
       local_only w (UploadLogos.run e test_org org_slugs (Some true) w).2)
  ∧ (∀ u key : string,
       or_ (get org "image_url") (get org "logoUrl") = VStr u →
       truthy (VStr u) = true →
       truthy (get org "image_slug") = true →
       UploadLogos.generate_r2_key (get org "image_slug") (VStr u)
       = inr key →
       trace (UploadLogos.process_organization e org true w).2
       = trace w ++ [Get u]
       ∧ ∀ body : string,
           fetch e u = Complete body →
           UploadLogos.process_organization e org true w
           = (Ret true,
              {| organizations := organizations w;
                 files := <[PathLib.join UploadLogos.LOGOS_DIR key := body]>
                            (files w);
                 bucket := bucket w;
                 trace := trace w ++ [Get u] |})).
Proof.
  split; [apply process_organization_dry_run_local|].
  split; [intros t o; apply run_dry_run_local|].
  intros u key Hurl Hu Hslug Hkey. split.
  - by apply dry_run_trace with key.
  - intros body Hf. by apply dry_run_complete.
Qed.

Lemma dry_run_skips_publish_witness :
  UploadLogos.process_organization (online environment) unikraft true
    (world_of [unikraft])
  = (Ret true,
     {| organizations := [unikraft];
        files := {[ "logos/unikraft.png" := "PNG" ]};
        bucket := ∅;
        trace := [Get "https://host/logo.png"] |}).
Proof.
  destruct (dry_run_skips_publish (online environment) unikraft
              (world_of [unikraft])) as (_ & _ & H).
  destruct (H "https://host/logo.png" "unikraft.png"
              eq_refl eq_refl eq_refl eq_refl) as [_ H'].
  exact (H' "PNG" eq_refl).
Defined.

(** A record whose URL makes [urlparse] raise sits between two good
    records: it is counted as a failure and the record after it is
    downloaded, uploaded and written back. *)
Example batch_with_exception :
  (UploadLogos.process_organization (online environment) bad_url false
     (world_of [unikraft; bad_url; jitsi])).1 = Raise ValueError
  ∧ (UploadLogos.run (online environment) None None None
       (world_of [unikraft; bad_url; jitsi])).1
    = Ret (Some {| UploadLogos.success_count := 2;
                   UploadLogos.fail_count := 1 |})
  ∧ trace (UploadLogos.run (online environment) None None None
             (world_of [unikraft; bad_url; jitsi])).2
    = [Banner 1 3; Get "https://host/logo.png";
       PutObject "unikraft.png" "image/png";
       UpdateOne (VStr "gsoc-unikraft-2024"); Sleep;
       Banner 2 3; Sleep;
       Banner 3 3; Get "https://host/jitsi/logo.SVG";
       PutObject "jitsi.svg" "image/svg+xml";
       UpdateOne (VStr "gsoc-jitsi-2024")].
Proof. by_evaluation. Qed.

(** SLEEP_SECONDS that is not a number: the script started from the
    command line ends with ValueError before the arguments are read, and
    nothing is requested. *)
Example bad_pause_ends_the_import :
  UploadLogos.main bad_pause ["--help"] (world_of [unikraft])
  = (Raise ValueError, world_of [unikraft])
  ∧ UploadLogos.main (online environment) ["--help"] (world_of [unikraft])
    = (Raise (SystemExit 0), world_of [unikraft]).
Proof. by_evaluation. Qed.

(** ** Failures of the database update *)

(** C3, on an update whose identifier matches no record: [update_one]
    raises nothing, so the record is reported as a success and the failure
    counter stays at 0, while the collection is unchanged. *)
Lemma unmatched_update_counted_as_success :
  (UploadLogos.process_organization (online environment) unikraft false
     (world_of [jitsi])).1 = Ret true
  ∧ organizations
      (UploadLogos.process_organization (online environment) unikraft false
         (world_of [jitsi])).2 = [jitsi]
  ∧ (UploadLogos.run_loop (online environment) false 1 1 [unikraft]
       {| UploadLogos.success_count := 0; UploadLogos.fail_count := 0 |}
       (world_of [jitsi])).1
    = Ret {| UploadLogos.success_count := 1; UploadLogos.fail_count := 0 |}.
Proof. by_evaluation. Qed.

(** C3: when the upload of a record succeeds and [update_one] then
    raises (the write is refused: the driver raises and the collection is
    not written), the record is reported as a failure: the collection is
    unchanged, the downloaded file stays in the logos directory, the
    object is in the store, and the loop is at the pause before the next
    record with one more failure counted. When that pause goes through, or
    no pause is due, the loop goes on with the next record. *)
Theorem update_error_counted_as_failure (e : env) (org : document)
  (rest : list document) (c : UploadLogos.counters) (w : world)
  (total idx : nat) (u key body : string) :
  or_ (get org "image_url") (get org "logoUrl") = VStr u →
  truthy (VStr u) = true →
  truthy (get org "image_slug") = true →
  UploadLogos.generate_r2_key (get org "image_slug") (VStr u) = inr key →
  fetch e u = Complete body →
  s3_accepts e key = true →
  mongo_accepts e (get org "canonical_id") = false →
  ∃ ct w1,
    UploadLogos.process_organization e org false
      (with_event (Banner idx total) w) = (Ret false, w1)
    ∧ organizations w1 = organizations w
    ∧ files w1 !! PathLib.join UploadLogos.LOGOS_DIR key = Some body
    ∧ bucket w1 !! key = Some (body, ct)
    ∧ UploadLogos.run_loop e false total idx (org :: rest) c w
      = (pause e (UploadLogos.SLEEP_SECONDS e) idx total ≫= λ _,
         UploadLogos.run_loop e false total (S idx) rest (failed c)) w1
    ∧ (can_sleep e (UploadLogos.SLEEP_SECONDS e) = true ∨ (total ≤ idx)%nat →
       UploadLogos.run_loop e false total idx (org :: rest) c w
       = UploadLogos.run_loop e false total (S idx) rest (failed c)
           (after_sleep idx total w1)).
Proof.
  intros Hurl Hu Hslug Hkey Hf Hs Hm.
  destruct (content_type_of_key _ _ _ Hkey) as [ct Hct].
  pose proof (publish_update_raises e org u key body Hurl Hu Hslug Hkey ct
                (with_event (Banner idx total) w) Hct Hf Hs Hm) as Hp.
  eexists ct, _. split; [exact Hp|].
  split; [done|]. split; [apply lookup_insert_eq|].
  split; [apply lookup_insert_eq|]. split.
  - by rewrite run_loop_step, Hp.
  - intros H. by rewrite (run_loop_next _ _ _ _ _ _ _ _ H), Hp.
Qed.

Lemma update_error_counted_as_failure_witness :
  ∃ ct w1,
    UploadLogos.process_organization database_down unikraft false
      (with_event (Banner 1 2) (world_of [unikraft; jitsi])) = (Ret false, w1)
    ∧ organizations w1 = [unikraft; jitsi]
    ∧ files w1 !! "logos/unikraft.png" = Some "PNG"
    ∧ bucket w1 !! "unikraft.png" = Some ("PNG", ct)
    ∧ UploadLogos.run_loop database_down false 2 1 [unikraft; jitsi]
        {| UploadLogos.success_count := 0; UploadLogos.fail_count := 0 |}
        (world_of [unikraft; jitsi])
      = UploadLogos.run_loop database_down false 2 2 [jitsi]
          {| UploadLogos.success_count := 0; UploadLogos.fail_count := 1 |}
          (after_sleep 1 2 w1).
Proof.
  destruct (update_error_counted_as_failure database_down unikraft [jitsi]
              {| UploadLogos.success_count := 0; UploadLogos.fail_count := 0 |}
              (world_of [unikraft; jitsi]) 2 1
              "https://host/logo.png" "unikraft.png" "PNG"
              eq_refl eq_refl eq_refl eq_refl eq_refl eq_refl eq_refl)
    as (ct & w1 & Hp & Ho & Hf & Hb & _ & Hn).
  exists ct, w1. split; [exact Hp|]. split; [exact Ho|].
  split; [exact Hf|]. split; [exact Hb|].
  apply Hn. left. vm_compute. reflexivity.
Defined.

(** ** Records without a source URL or without an image_slug *)

(** C6, on a record without a source URL: the loop of the
    download-and-upload tool adds one to its failure counter. *)
Lemma missing_url_counted_as_failure :
  (UploadLogos.run_loop (online environment) false 1 1 [no_url]
     {| UploadLogos.success_count := 0; UploadLogos.fail_count := 0 |}
     (world_of [no_url])).1
  = Ret {| UploadLogos.success_count := 0; UploadLogos.fail_count := 1 |}.
Proof. by_evaluation. Qed.

(** C6: in the download-and-upload tool a record without a source URL
    (image_url and logoUrl both empty or absent) or without an image_slug
    makes [process_organization] return False without any download,
    upload or update, and the loop counts it as a failure: at the pause
    before the next record the failure counter is one higher and the
    success counter is unchanged (the tool has no skip counter). When
    that pause goes through, or no pause is due, the loop goes on with the
    next record. *)
Theorem missing_fields_counted_as_failure (e : env) (dry_run : bool)
  (total idx : nat) (org : document) (rest : list document)
  (c : UploadLogos.counters) (w : world) :
  truthy (or_ (get org "image_url") (get org "logoUrl")) = false
  ∨ truthy (get org "image_slug") = false →
  UploadLogos.process_organization e org dry_run
    (with_event (Banner idx total) w)
  = (Ret false, with_event (Banner idx total) w)
  ∧ UploadLogos.run_loop e dry_run total idx (org :: rest) c w
    = (pause e (UploadLogos.SLEEP_SECONDS e) idx total ≫= λ _,
       UploadLogos.run_loop e dry_run total (S idx) rest
         {| UploadLogos.success_count := UploadLogos.success_count c;
            UploadLogos.fail_count := S (UploadLogos.fail_count c) |})
        (with_event (Banner idx total) w)
  ∧ (can_sleep e (UploadLogos.SLEEP_SECONDS e) = true ∨ (total ≤ idx)%nat →
     UploadLogos.run_loop e dry_run total idx (org :: rest) c w
     = UploadLogos.run_loop e dry_run total (S idx) rest
         {| UploadLogos.success_count := UploadLogos.success_count c;
            UploadLogos.fail_count := S (UploadLogos.fail_count c) |}
         (after_sleep idx total (with_event (Banner idx total) w))).
Proof.
  intros H.
  assert (UploadLogos.process_organization e org dry_run
            (with_event (Banner idx total) w)
          = (Ret false, with_event (Banner idx total) w)) as Hp.
  { unfold UploadLogos.process_organization. cbv zeta.
    destruct (truthy (or_ _ _)); [|reflexivity].
    destruct H as [H|H]; [discriminate|]. by rewrite H. }
  split; [exact Hp|]. split.
  - by rewrite run_loop_step, Hp.
  - intros Hs. by rewrite (run_loop_next _ _ _ _ _ _ _ _ Hs), Hp.
Qed.

Lemma missing_fields_counted_as_failure_witness :
  UploadLogos.process_organization (online environment) null_slug false
    (with_event (Banner 1 1) (world_of [null_slug]))
  = (Ret false, with_event (Banner 1 1) (world_of [null_slug]))
  ∧ UploadLogos.run_loop (online environment) false 1 1 [null_slug]
      {| UploadLogos.success_count := 0; UploadLogos.fail_count := 0 |}
      (world_of [null_slug])
    = UploadLogos.run_loop (online environment) false 1 2 []
        {| UploadLogos.success_count := 0; UploadLogos.fail_count := 1 |}
        (after_sleep 1 1 (with_event (Banner 1 1) (world_of [null_slug]))).
Proof.
  destruct (missing_fields_counted_as_failure (online environment) false 1 1
              null_slug []
              {| UploadLogos.success_count := 0; UploadLogos.fail_count := 0 |}
              (world_of [null_slug])) as (Hp & _ & Hn).
  - right. reflexivity.
  - split; [exact Hp|]. apply Hn. right. lia.
Defined.

(** ** The dry-run option of the environment and the command line *)

(** C7: evaluation at the failing input. With DRY_RUN=true in the
    environment and no flag on the command line, [parse_args] yields
    [dry_run = False], which [run] takes instead of the option of the
    environment: the record is uploaded and the database is updated.
    Called with [dry_run=None], [run] does follow the environment. *)
Theorem env_dry_run_ignored_by_main :
  UploadLogos.DRY_RUN (online (<["DRY_RUN" := "true"]> environment)) = true
  ∧ UploadLogos.parse_args []
    = inr {| UploadLogos.test_org := None; UploadLogos.orgs := None;
             UploadLogos.dry_run := false |}
  ∧ (UploadLogos.main (online (<["DRY_RUN" := "true"]> environment)) []
       (world_of [unikraft])).1
    = Ret (Some {| UploadLogos.success_count := 1;
                   UploadLogos.fail_count := 0 |})
  ∧ trace (UploadLogos.main (online (<["DRY_RUN" := "true"]> environment)) []
             (world_of [unikraft])).2
    = [Banner 1 1; Get "https://host/logo.png";
       PutObject "unikraft.png" "image/png";
       UpdateOne (VStr "gsoc-unikraft-2024")]
  ∧ bucket (UploadLogos.main (online (<["DRY_RUN" := "true"]> environment)) []
              (world_of [unikraft])).2 !! "unikraft.png"
    = Some ("PNG", "image/png")
  ∧ (λ d, get d "logo_r2_url")
      <$> organizations
            (UploadLogos.main (online (<["DRY_RUN" := "true"]> environment))
               [] (world_of [unikraft])).2
    = [VStr "https://cdn.example.org/unikraft.png"]
  ∧ trace (UploadLogos.run (online (<["DRY_RUN" := "true"]> environment))
             None None None (world_of [unikraft])).2
    = [Banner 1 1; Get "https://host/logo.png"].
Proof. by_evaluation. Qed.

(** ** The default selection *)

Lemma present_ops_holds (fv : option value) :
  cond_holds (Ops (dict [("$exists", OBool true); ("$ne", OValue VNone);
                         ("$ne", OValue (VStr ""))])) fv = true
  ↔ ∃ v, fv = Some v ∧ v ≠ VStr "".
Proof.
  destruct fv as [[|n|[|a s]]|]; vm_compute; split;
    try discriminate; try (intros _; by eexists);
    try (intros (v & [= <-] & H); done); intros (v & H & _); discriminate.
Qed.

Lemma absent_ops_holds (fv : option value) :
  cond_holds (Ops (dict [("$exists", OBool false)])) fv = true ↔ fv = None.
Proof. destruct fv; vm_compute; split; done. Qed.

Lemma eq_none_holds (fv : option value) :
  cond_holds (Eq VNone) fv = true ↔ fv = None ∨ fv = Some VNone.
Proof.
  destruct fv as [[|n|s]|]; cbn; split; try discriminate; try tauto.
  all: intros [H|H]; discriminate.
Qed.

Lemma eq_empty_holds (fv : option value) :
  cond_holds (Eq (VStr "")) fv = true ↔ fv = Some (VStr "").
Proof.
  destruct fv as [[|n|[|a s]]|]; cbn; split; try discriminate; tauto.
Qed.

(** What the default filter of the download-and-upload tool selects: the
    published URL is absent, null or empty; image_url or logoUrl is present
    and not the empty string; image_slug is present and not the empty
    string. Null passes the two presence tests. *)
Lemma default_query_matches (d : document) :
  matches UploadLogos.default_query d = true
  ↔ (d !! "logo_r2_url" = None ∨ d !! "logo_r2_url" = Some VNone
     ∨ d !! "logo_r2_url" = Some (VStr ""))
    ∧ ((∃ v, d !! "image_url" = Some v ∧ v ≠ VStr "")
       ∨ (∃ v, d !! "logoUrl" = Some v ∧ v ≠ VStr ""))
    ∧ (∃ v, d !! "image_slug" = Some v ∧ v ≠ VStr "").
Proof.
  unfold UploadLogos.default_query. cbn [matches forallb existsb].
  rewrite andb_true_r, !orb_false_r, !andb_true_iff, !orb_true_iff.
  rewrite !present_ops_holds, absent_ops_holds, eq_none_holds, eq_empty_holds.
  tauto.
Qed.

(** C1: evaluation at the failing inputs. The operator dict
    [{"$exists": True, "$ne": None, "$ne": ""}] keeps only its last [$ne],
    so a record whose image_url is null (without logoUrl) and a record
    whose image_slug is null pass the default filter; both are then turned
    down by [process_organization] and counted as failures. *)
Theorem default_query_selects_null_fields :
  dict [("$exists", OBool true); ("$ne", OValue VNone);
        ("$ne", OValue (VStr ""))]
  = dict [("$exists", OBool true); ("$ne", OValue (VStr ""))]
  ∧ null_url !! "image_url" = Some VNone
  ∧ null_url !! "logoUrl" = None
  ∧ UploadLogos.select None None [null_url] = [null_url]
  ∧ null_slug !! "image_slug" = Some VNone
  ∧ UploadLogos.select None None [null_slug] = [null_slug]
  ∧ (UploadLogos.run (online environment) None None None
       (world_of [null_url; null_slug])).1
    = Ret (Some {| UploadLogos.success_count := 0;
                   UploadLogos.fail_count := 2 |}).
Proof. by_evaluation. Qed.

(** ** Strings without a given character *)

Lemma find_None_rfind (c : ascii) (s : string) :
  PyStr.rfind c s = None ↔ PyStr.find c s = None.
Proof.
  induction s as [|a r IH]; cbn; [done|].
  destruct (Ascii.eqb a c).
  - split; [|done]. by destruct (PyStr.rfind c r).
  - destruct (PyStr.rfind c r), (PyStr.find c r); cbn; split; try done.
    + intros _. destruct IH as [_ IH]. discriminate (IH eq_refl).
    + intros _. destruct IH as [IH _]. discriminate (IH eq_refl).
Qed.

Lemma find_None_take (c : ascii) (n : nat) (s : string) :
  PyStr.find c s = None → PyStr.find c (PyStr.take n s) = None.
Proof.
  revert n. induction s as [|a r IH]; intros [|n]; cbn; try done.
  destruct (Ascii.eqb a c); [done|].
  destruct (PyStr.find c r); [done|]. intros _. by rewrite IH.
Qed.

Lemma find_None_drop (c : ascii) (n : nat) (s : string) :
  PyStr.find c s = None → PyStr.find c (PyStr.drop n s) = None.
Proof.
  revert n. induction s as [|a r IH]; intros [|n]; cbn; try done.
  destruct (Ascii.eqb a c); [done|].
  destruct (PyStr.find c r); [done|]. intros _. by apply IH.
Qed.

Lemma find_None_app (c : ascii) (s t : string) :
  PyStr.find c s = None → PyStr.find c t = None →
  PyStr.find c (s +:+ t) = None.
Proof.
  intros Hs Ht. induction s as [|a r IH]; [done|].
  cbn in Hs. change (String a r +:+ t) with (String a (r +:+ t)).
  cbn [PyStr.find]. destruct (Ascii.eqb a c); [done|].
  destruct (PyStr.find c r); [done|]. by rewrite IH.
Qed.

Lemma find_take_None (c : ascii) (s : string) (i : nat) :
  PyStr.find c s = Some i → PyStr.find c (PyStr.take i s) = None.
Proof.
  revert i. induction s as [|a r IH]; intros i; cbn; [done|].
  destruct (Ascii.eqb a c) eqn:E; [by intros [= <-]|].
  destruct (PyStr.find c r) as [j|]; [|done]. intros [= <-]. cbn.
  by rewrite E, (IH j).
Qed.

Lemma find_None_before (c c' : ascii) (s : string) :
  c = c' ∨ PyStr.find c s = None →
  PyStr.find c (PyStr.before c' s) = None.
Proof.
  unfold PyStr.before. intros H.
  destruct (PyStr.find c' s) as [i|] eqn:E.
  - destruct H as [->|H]; [by apply find_take_None | by apply find_None_take].
  - destruct H as [->|H]; done.
Qed.

Lemma find_None_split (c : ascii) (s w : string) :
  w ∈ PyStr.split c s → PyStr.find c w = None.
Proof.
  revert w. induction s as [|a r IH]; intros w; cbn.
  - by intros ->%list_elem_of_singleton.
  - destruct (Ascii.eqb a c) eqn:E.
    + intros [->|H]%elem_of_cons; [done | by apply IH].
    + destruct (PyStr.split c r) as [|x xs].
      * intros ->%list_elem_of_singleton. cbn. by rewrite E.
      * intros [->|H]%elem_of_cons.
        -- cbn. rewrite E, (IH x); [done | by left].
        -- apply IH. by right.
Qed.

Lemma find_None_split_other (c c' : ascii) (s w : string) :
  PyStr.find c s = None → w ∈ PyStr.split c' s → PyStr.find c w = None.
Proof.
  revert w. induction s as [|a r IH]; intros w; cbn.
  - by intros _ ->%list_elem_of_singleton.
  - destruct (Ascii.eqb a c) eqn:E; [done|].
    destruct (PyStr.find c r) eqn:F; [done|]. intros _.
    destruct (Ascii.eqb a c').
    + intros [->|H]%elem_of_cons; [done | by apply IH].
    + destruct (PyStr.split c' r) as [|x xs].
      * intros ->%list_elem_of_singleton. cbn. by rewrite E.
      * intros [->|H]%elem_of_cons.
        -- cbn. rewrite E, (IH x); [done.. | by left].
        -- apply IH; [done | by right].
Qed.

Lemma name_component (p : string) :
  PathLib.name p = "" ∨ PathLib.name p ∈ PyStr.split "/" p.
Proof.
  unfold PathLib.name, PathLib.parts.
  set (l := base.filter _ _).
  assert (∀ x, x ∈ l → x ∈ PyStr.split "/" p) as Hl
    by (intros x Hx; by apply list_elem_of_filter in Hx as [_ Hx]).
  clearbody l. induction l as [|x l IH]; [by left|].
  destruct l as [|y l].
  - right. apply Hl. by left.
  - apply IH. intros z Hz. apply Hl. by right.
Qed.

Lemma rfind_Some_drop (c : ascii) (s : string) (i : nat) :
  PyStr.rfind c s = Some i →
  ∃ r, PyStr.drop i s = String c r
       ∧ PyStr.find c r = None
       ∧ String.length s = (i + S (String.length r))%nat.
Proof.
  revert i. induction s as [|a r IH]; intros i; cbn; [done|].
  destruct (PyStr.rfind c r) as [j|] eqn:E.
  - intros [= <-]. destruct (IH j eq_refl) as (r' & Hd & Hf & Hl).
    exists r'. cbn. by rewrite Hl.
  - destruct (Ascii.eqb a c) eqn:Ea; [|done]. intros [= <-].
    apply Ascii.eqb_eq in Ea as ->. exists r. split; [done|].
    split; [by apply find_None_rfind | done].
Qed.

Lemma suffix_shape (p : string) :
  PathLib.suffix p = ""
  ∨ ∃ r, PathLib.suffix p = String "." r
         ∧ r ≠ ""
         ∧ PyStr.find "." r = None
         ∧ PyStr.find "/" r = None
         ∧ ∀ c, PyStr.find c p = None → PyStr.find c r = None.
Proof.
  unfold PathLib.suffix. cbv zeta.
  destruct (PyStr.rfind "." (PathLib.name p)) as [[|i]|] eqn:E;
    [by left | | by left].
  destruct (S i <? String.length (PathLib.name p) - 1)%nat eqn:Hlt;
    [|by left].
  right. destruct (rfind_Some_drop _ _ _ E) as (r & Hd & Hf & Hl).
  apply Nat.ltb_lt in Hlt. exists r. split; [done|].
  split; [destruct r; [cbn in Hl; lia | done]|].
  split; [done|].
  assert (∀ c, PyStr.find c (PathLib.name p) = None → PyStr.find c r = None)
    as Hsub.
  { intros c Hc. apply (find_None_drop c (S i)) in Hc. rewrite Hd in Hc.
    cbn [PyStr.find] in Hc. destruct (Ascii.eqb "." c); [done|].
    by destruct (PyStr.find c r). }
  destruct (name_component p) as [Hn|Hn].
  { rewrite Hn in E. done. }
  split.
  - apply Hsub. by apply find_None_split with p.
  - intros c Hc. apply Hsub. by apply find_None_split_other with "/"%char p.
Qed.

Lemma lower_char_not_upper (a : ascii) :
  PyStr.is_upper (PyStr.lower_char a) = false.
Proof. destruct a as [[] [] [] [] [] [] [] []]; reflexivity. Qed.

Lemma lower_char_of_upper (a : ascii) :
  PyStr.is_upper a = true → PyStr.is_lower (PyStr.lower_char a) = true.
Proof. destruct a as [[] [] [] [] [] [] [] []]; done. Qed.

Lemma lower_char_inv (c a : ascii) :
  PyStr.is_lower c = false → PyStr.lower_char a = c → a = c.
Proof.
  intros Hc <-. unfold PyStr.lower_char in *.
  destruct (PyStr.is_upper a) eqn:E; [|done].
  pose proof (lower_char_of_upper a E) as H. unfold PyStr.lower_char in H.
  rewrite E in H. congruence.
Qed.

Lemma find_None_lower (c : ascii) (s : string) :
  PyStr.is_lower c = false →
  PyStr.find c s = None → PyStr.find c (PyStr.lower s) = None.
Proof.
  intros Hc. induction s as [|a r IH]; cbn [PyStr.find PyStr.lower]; [done|].
  destruct (Ascii.eqb a c) eqn:E; [done|].
  destruct (PyStr.find c r); [done|]. intros _.
  destruct (Ascii.eqb (PyStr.lower_char a) c) eqn:E'.
  - apply Ascii.eqb_eq, (lower_char_inv _ _ Hc) in E'.
    apply Ascii.eqb_neq in E. done.
  - by rewrite IH.
Qed.

Lemma lower_no_upper (s : string) :
  PyStr.all (λ c, negb (PyStr.is_upper c)) (PyStr.lower s) = true.
Proof.
  induction s as [|a r IH]; cbn [PyStr.all PyStr.lower]; [done|].
  by rewrite lower_char_not_upper, IH.
Qed.

Lemma urlparse_path_no_query (c : ascii) (u p : string) :
  c = "?"%char ∨ c = "#"%char →
  UrlLib.urlparse_path u = inr p → PyStr.find c p = None.
Proof.
  intros Hc. unfold UrlLib.urlparse_path.
  destruct (UrlLib.split_scheme _) as [scheme r].
  destruct (if String.eqb (PyStr.take 2 r) "//" then _ else _) as [netloc r'].
  destruct (xorb _ _); [done|].
  destruct (_ && negb _); [done|].
  set (q := PyStr.before "?" (PyStr.before "#" r')).
  assert (PyStr.find c q = None) as Hq.
  { destruct Hc as [->| ->].
    - apply find_None_before. by left.
    - apply find_None_before. right. apply find_None_before. by left. }
  destruct (_ && _); intros [= <-]; [|done].
  unfold UrlLib.splitparams. destruct (PyStr.rfind "/" q) as [j|].
  - apply find_None_app; [by apply find_None_take|].
    apply find_None_before. right. by apply find_None_drop.
  - apply find_None_before. by right.
Qed.

Lemma key_shape (image_slug : value) (u key : string) :
  UploadLogos.generate_r2_key image_slug (VStr u) = inr key →
  ∃ r, key = format image_slug +:+ String "." r
       ∧ r ≠ ""
       ∧ PyStr.contains "." r = false
       ∧ PyStr.contains "/" r = false
       ∧ PyStr.contains "?" r = false
       ∧ PyStr.contains "#" r = false
       ∧ PyStr.all (λ c, negb (PyStr.is_upper c)) r = true.
Proof.
  unfold UploadLogos.generate_r2_key, url_suffix.
  destruct (UrlLib.urlparse_path u) as [x|p] eqn:Hp; [done|].
  intros [= <-]. destruct (suffix_shape p) as [->|(r & -> & Hr & Hd & Hs & Hc)].
  { exists "png". by repeat split. }
  cbn [PyStr.lower]. change (PyStr.lower_char ".") with "."%char.
  cbn [String.eqb]. exists (PyStr.lower r). split; [done|].
  split; [by destruct r|]. unfold PyStr.contains.
  rewrite !find_None_lower; try done.
  - split; [done|]. split; [done|]. split; [done|]. split; [done|].
    apply lower_no_upper.
  - apply Hc. apply urlparse_path_no_query with u; auto.
  - apply Hc. apply urlparse_path_no_query with u; auto.
Qed.

Lemma split_no_separator (c : ascii) (s : string) :
  PyStr.find c s = None → PyStr.split c s = [s].
Proof.
  induction s as [|a r IH]; cbn; [done|].
  destruct (Ascii.eqb a c); [done|].
  destruct (PyStr.find c r); [done|]. intros _. by rewrite IH.
Qed.

(** A name without a slash that is neither empty nor a dot is one
    component: its path in the logos directory is the name after
    [logos/]. *)
Lemma join_plain_name (name : string) :
  PyStr.contains "/" name = false → name ≠ "" → name ≠ "." →
  PathLib.join "logos" name = "logos/" +:+ name.
Proof.
  unfold PyStr.contains. intros Hf Hn Hd.
  destruct (PyStr.find "/" name) eqn:E; [done|].
  unfold PathLib.join.
  assert (PathLib.root name = "") as ->.
  { destruct name as [|a r]; [done|]. cbn in E.
    destruct (Ascii.eqb_spec a "/") as [->|Ha]; [done|].
    unfold PathLib.root.
    destruct a as [[] [] [] [] [] [] [] []]; try reflexivity. done. }
  unfold PathLib.parts at 2. rewrite (split_no_separator _ _ E).
  rewrite filter_cons_True by done. rewrite filter_nil.
  by destruct name.
Qed.

(** ** The storage key *)

Lemma lower_eqb_empty (s : string) :
  String.eqb (PyStr.lower s) "" = String.eqb s "".
Proof. by destruct s. Qed.

Lemma get_extension_from_url_key (image_slug url : value) (ext : string) :
  DownloadLogos.get_extension_from_url url = inr ext →
  UploadLogos.generate_r2_key image_slug url = inr (format image_slug +:+ ext).
Proof.
  unfold DownloadLogos.get_extension_from_url, UploadLogos.generate_r2_key.
  destruct (url_suffix url) as [x|s]; [discriminate|]. by intros [= <-].
Qed.

Lemma published_file_and_object (e : env) (org : document)
  (u key body : string) (w : world) :
  or_ (get org "image_url") (get org "logoUrl") = VStr u →
  truthy (VStr u) = true →
  truthy (get org "image_slug") = true →
  UploadLogos.generate_r2_key (get org "image_slug") (VStr u) = inr key →
  fetch e u = Complete body →
  s3_accepts e key = true →
  files (UploadLogos.process_organization e org false w).2
    !! PathLib.join UploadLogos.LOGOS_DIR key = Some body
  ∧ ∃ ct, UploadLogos.get_content_type (VStr u) = inr ct
          ∧ bucket (UploadLogos.process_organization e org false w).2 !! key
            = Some (body, ct).
Proof.
  intros Hurl Hu Hslug Hkey Hf Hs.
  destruct (content_type_of_key _ _ _ Hkey) as [ct Hct].
  destruct (mongo_accepts e (get org "canonical_id")) eqn:Hm.
  - rewrite (publish_complete e org u key body Hurl Hu Hslug Hkey ct w
               Hct Hf Hs Hm).
    split; [apply lookup_insert_eq|]. exists ct. split; [done|].
    apply lookup_insert_eq.
  - rewrite (publish_update_raises e org u key body Hurl Hu Hslug Hkey ct w
               Hct Hf Hs Hm).
    split; [apply lookup_insert_eq|]. exists ct. split; [done|].
    apply lookup_insert_eq.
Qed.

Section DownloadOnly.
Context (e : env) (org : document) (u ext : string).
Hypothesis Hurl : or_ (get org "image_url") (get org "logoUrl") = VStr u.
Hypothesis Hu : truthy (VStr u) = true.
Hypothesis Hslug : truthy (get org "image_slug") = true.
Hypothesis Hext : DownloadLogos.get_extension_from_url (VStr u) = inr ext.

Let local_path : string :=
  PathLib.join DownloadLogos.LOGOS_DIR (format (get org "image_slug") +:+ ext).

Lemma existing_file_kept (old : string) (w : world) :
  files w !! local_path = Some old →
  DownloadLogos.process_organization e org false w = (Ret true, w).
Proof.
  intros Hold. unfold DownloadLogos.process_organization.
  rewrite Hurl, Hu, Hslug, Hext. run_effects.
  fold local_path. rewrite Hold. cbn. by rewrite Hold.
Qed.

Lemma forced_download_trace (w : world) :
  trace (DownloadLogos.process_organization e org true w).2
  = trace w ++ [Get u].
Proof.
  unfold DownloadLogos.process_organization.
  rewrite Hurl, Hu, Hslug, Hext. run_effects. fold local_path.
  rewrite andb_false_r. run_effects.
  destruct (fetch e u); run_effects; try reflexivity.
  by rewrite lookup_insert_eq.
Qed.

Lemma forced_download_complete (body : string) (w : world) :
  fetch e u = Complete body →
  DownloadLogos.process_organization e org true w
  = (Ret true,
     {| organizations := organizations w;
        files := <[local_path := body]> (files w);
        bucket := bucket w;
        trace := trace w ++ [Get u] |}).
Proof.
  intros Hf. unfold DownloadLogos.process_organization.
  rewrite Hurl, Hu, Hslug, Hext. run_effects. fold local_path.
  rewrite andb_false_r. run_effects. rewrite Hf. run_effects.
  by rewrite lookup_insert_eq.
Qed.
End DownloadOnly.

(** C2: for an ASCII URL that [urlparse] accepts, the storage key is the
    image_slug followed by the lowercased extension of the URL's path,
    .png when the path has none; the download-only tool derives the same
    name. In the pipeline this key, without any prefix, names the object
    in the store, and the local file is the entry of that name in the
    logos directory: logos/<key> when the image_slug holds no slash. *)
Theorem storage_key_derivation (image_slug : value) (u p : string) :
  PyStr.is_ascii u = true →
  UrlLib.urlparse_path u = inr p →
  ∃ key ext,
    UploadLogos.generate_r2_key image_slug (VStr u) = inr key
    ∧ key = format image_slug +:+ ext
    ∧ DownloadLogos.get_extension_from_url (VStr u) = inr ext
    ∧ (PathLib.suffix p = "" → ext = ".png")
    ∧ (PathLib.suffix p ≠ "" → ext = PyStr.lower (PathLib.suffix p))
    ∧ (PyStr.contains "/" (format image_slug) = false →
       PathLib.join "logos" key = "logos/" +:+ key)
    ∧ ∀ (e : env) (org : document) (w : world) (body : string),
        get org "image_slug" = image_slug →
        or_ (get org "image_url") (get org "logoUrl") = VStr u →
        truthy (VStr u) = true →
        truthy image_slug = true →
        fetch e u = Complete body →
        s3_accepts e key = true →
        files (UploadLogos.process_organization e org false w).2
          !! PathLib.join "logos" key = Some body
        ∧ (∃ ct, bucket (UploadLogos.process_organization e org false w).2
                   !! key = Some (body, ct))
        ∧ files (DownloadLogos.process_organization e org true w).2
            !! PathLib.join "logos" key = Some body.
Proof.
  intros _ Hp.
  pose proof (generate_r2_key_str image_slug _ _ Hp) as Hk.
  rewrite lower_eqb_empty in Hk.
  assert (DownloadLogos.get_extension_from_url (VStr u)
          = inr (if String.eqb (PathLib.suffix p) "" then ".png"
                 else PyStr.lower (PathLib.suffix p))) as He.
  { unfold DownloadLogos.get_extension_from_url.
    by rewrite (url_suffix_str _ _ Hp), lower_eqb_empty. }
  eexists _, _. split; [exact Hk|]. split; [reflexivity|].
  split; [exact He|]. split; [by intros ->|]. split.
  { intros Hn%String.eqb_neq. by rewrite Hn. }
  split.
  { intros Hslash.
    destruct (key_shape _ _ _ Hk) as (r & Hr & Hne & _ & Hs & _).
    rewrite Hr. apply join_plain_name.
    - unfold PyStr.contains in *.
      destruct (PyStr.find "/" (format image_slug)) eqn:E1; [done|].
      destruct (PyStr.find "/" r) eqn:E2; [done|].
      rewrite (find_None_app _ _ (String "." r) E1); [done|].
      cbn. by rewrite E2.
    - by destruct (format image_slug).
    - destruct (format image_slug) as [|a t].
      + intros [= H]. done.
      + change (String a t +:+ String "." r)
          with (String a (t +:+ String "." r)).
        intros [= _ H]. by destruct t. }
  intros e org w body <- Hurl Hu Hslug Hf Hs.
  destruct (published_file_and_object e org u _ body w Hurl Hu Hslug Hk Hf Hs)
    as (Hfile & ct & _ & Hobj).
  split; [exact Hfile|]. split; [by exists ct|].
  rewrite (forced_download_complete e org u _ Hurl Hu Hslug He body w Hf).
  apply lookup_insert_eq.
Qed.

Lemma storage_key_derivation_witness :
  UploadLogos.generate_r2_key (VStr "unikraft") (VStr "https://x.org/logo.SVG")
  = inr "unikraft.svg"
  ∧ UploadLogos.generate_r2_key (VStr "jitsi") (VStr "https://x.org/logo")
    = inr "jitsi.png"
  ∧ files (UploadLogos.process_organization (online environment) jitsi false
             (world_of [jitsi])).2 !! "logos/jitsi.svg" = Some "PNG"
  ∧ ∃ ct, bucket (UploadLogos.process_organization (online environment) jitsi
                    false (world_of [jitsi])).2 !! "jitsi.svg"
          = Some ("PNG", ct).
Proof.
  destruct (storage_key_derivation (VStr "unikraft") "https://x.org/logo.SVG"
              "/logo.SVG" eq_refl eq_refl)
    as (k1 & x1 & -> & -> & _ & _ & H1 & _).
  destruct (storage_key_derivation (VStr "jitsi") "https://x.org/logo"
              "/logo" eq_refl eq_refl)
    as (k2 & x2 & -> & -> & _ & H2 & _ & _).
  destruct (storage_key_derivation (VStr "jitsi") "https://host/jitsi/logo.SVG"
              "/jitsi/logo.SVG" eq_refl eq_refl)
    as (k3 & x3 & _ & -> & _ & _ & H3 & Hj & H).
  rewrite (H1 ltac:(discriminate)), (H2 eq_refl).
  split; [reflexivity|]. split; [reflexivity|].
  rewrite (H3 ltac:(discriminate)) in H, Hj.
  destruct (H (online environment) jitsi (world_of [jitsi]) "PNG"
              eq_refl eq_refl eq_refl eq_refl eq_refl eq_refl)
    as (Hfile & Hobj & _).
  rewrite (Hj eq_refl) in Hfile.
  split; [exact Hfile | exact Hobj].
Defined.

(** ** The download-only tool and files that already exist *)

(** C8: in the download-only tool, when the file of a record already
    exists and force is not set, nothing is downloaded, the world (the file
    included) is unchanged and the record is reported as handled (True);
    with force set the download is made again and, when it succeeds, the
    file holds the new content. *)
Theorem existing_file_skipped_unless_forced (e : env) (org : document)
  (w : world) (u ext old : string) :
  or_ (get org "image_url") (get org "logoUrl") = VStr u →
  truthy (VStr u) = true →
  truthy (get org "image_slug") = true →
  DownloadLogos.get_extension_from_url (VStr u) = inr ext →
  files w !! PathLib.join DownloadLogos.LOGOS_DIR
               (format (get org "image_slug") +:+ ext) = Some old →
  DownloadLogos.process_organization e org false w = (Ret true, w)
  ∧ trace (DownloadLogos.process_organization e org true w).2
    = trace w ++ [Get u]
  ∧ ∀ body : string,
      fetch e u = Complete body →
      DownloadLogos.process_organization e org true w
      = (Ret true,
         {| organizations := organizations w;
            files := <[PathLib.join DownloadLogos.LOGOS_DIR
                         (format (get org "image_slug") +:+ ext) := body]>
                       (files w);
            bucket := bucket w;
            trace := trace w ++ [Get u] |}).
Proof.
  intros Hurl Hu Hslug Hext Hold. split.
  - by apply existing_file_kept with u ext old.
  - split; [by apply forced_download_trace with ext|].
    intros body Hf. by apply forced_download_complete.
Qed.

Lemma existing_file_skipped_unless_forced_witness :
  DownloadLogos.process_organization (online environment) unikraft false
    downloaded_before
  = (Ret true, downloaded_before)
  ∧ DownloadLogos.process_organization (online environment) unikraft true
      downloaded_before
    = (Ret true,
       {| organizations := [unikraft];
          files := {[ "logos/unikraft.png" := "PNG" ]};
          bucket := ∅; trace := [Get "https://host/logo.png"] |}).
Proof.
  destruct (existing_file_skipped_unless_forced (online environment) unikraft
              downloaded_before "https://host/logo.png" ".png" "OLD"
              eq_refl eq_refl eq_refl eq_refl eq_refl) as (H1 & _ & H2).
  split; [exact H1 | exact (H2 "PNG" eq_refl)].
Defined.

(** * Further properties *)

(** ** Configuration and early exits of [run] *)

Lemma truthy_getenv (e : env) (k : string) :
  truthy (getenv e k) = true ↔ is_set e k.
Proof.
  unfold getenv, is_set. destruct (environ e !! k) as [s|]; cbn.
  - rewrite negb_true_iff, String.eqb_neq. split.
    + intros H. by exists s.
    + by intros (s' & [= <-] & H).
  - split; [discriminate | by intros (s & H & _)].
Qed.

Lemma validate_config_ok (e : env) (w : world) :
  Forall (is_set e) required_variables →
  UploadLogos.validate_config e w = (Ret tt, w).
Proof.
  intros H. unfold required_variables in H.
  repeat (apply Forall_cons in H as [?%truthy_getenv H]).
  unfold UploadLogos.validate_config, UploadLogos.R2_ACCESS_KEY,
    UploadLogos.R2_SECRET_KEY, UploadLogos.R2_ACCOUNT_ID,
    UploadLogos.R2_BUCKET, UploadLogos.MONGO_URI.
  by repeat match goal with H : truthy _ = true |- _ => rewrite H; clear H end.
Qed.

Lemma validate_config_exit (e : env) (w : world) :
  ¬ Forall (is_set e) required_variables →
  UploadLogos.validate_config e w = (Raise (SystemExit 1), w).
Proof.
  intros H. unfold UploadLogos.validate_config, UploadLogos.R2_ACCESS_KEY,
    UploadLogos.R2_SECRET_KEY, UploadLogos.R2_ACCOUNT_ID,
    UploadLogos.R2_BUCKET, UploadLogos.MONGO_URI.
  destruct (truthy (getenv e "R2_ACCESS_KEY_ID")) eqn:H1; [|done].
  destruct (truthy (getenv e "R2_SECRET_ACCESS_KEY")) eqn:H2; [|done].
  destruct (truthy (getenv e "R2_ACCOUNT_ID")) eqn:H3; [|done].
  destruct (truthy (getenv e "R2_BUCKET_NAME")) eqn:H4; [|done].
  destruct (truthy (getenv e "MONGO_URI")) eqn:H5; [|done].
  exfalso. apply H. unfold required_variables.
  repeat (apply Forall_cons; split; [by apply truthy_getenv|]).
  constructor.
Qed.

Lemma on_import_world (e : env) (w : world) : (UploadLogos.on_import e w).2 = w.
Proof.
  unfold UploadLogos.on_import, mkdir_exist_ok, mbind, M_bind, bind, lift,
    read_file, ret, raise.
  destruct (UploadLogos.SLEEP_SECONDS e); [done|].
  by destruct (files w !! UploadLogos.LOGOS_DIR).
Qed.

(** X1: [run] of the download-and-upload tool goes past [validate_config]
    exactly when the five required variables are set to non-empty strings;
    when one is absent or empty, [run] exits with status 1 before any
    request, upload or update, and leaves the world as it was. So does the
    script run from the command line, once the module is loaded (the
    conversion of SLEEP_SECONDS and the creation of the logos directory
    raise nothing) and for every command line that [parse_args]
    accepts. *)
Theorem run_requires_config (e : env) (w : world) :
  (Forall (is_set e) required_variables →
   UploadLogos.validate_config e w = (Ret tt, w))
  ∧ (¬ Forall (is_set e) required_variables →
     (∀ test_org org_slugs dry_run,
        UploadLogos.run e test_org org_slugs dry_run w
        = (Raise (SystemExit 1), w))
     ∧ ∀ argv a,
         (UploadLogos.on_import e w).1 = Ret tt →
         UploadLogos.parse_args argv = inr a →
         UploadLogos.main e argv w = (Raise (SystemExit 1), w)).
Proof.
  split; [apply validate_config_ok|]. intros H.
  assert (∀ t o d, UploadLogos.run e t o d w = (Raise (SystemExit 1), w))
    as Hrun.
  { intros t o d. unfold UploadLogos.run. cbv zeta.
    unfold mbind at 1, M_bind, bind.
    by rewrite (validate_config_exit e w H). }
  split; [exact Hrun|]. intros argv a Hl Ha.
  unfold UploadLogos.main. unfold mbind at 1, M_bind, bind.
  pose proof (on_import_world e w) as Hw.
  destruct (UploadLogos.on_import e w) as [r w']. cbn in Hl, Hw. subst r w'.
  rewrite Ha. apply Hrun.
Qed.

Lemma environment_complete : Forall (is_set (online environment)) required_variables.
Proof.
  unfold required_variables.
  repeat (apply Forall_cons; split;
          [eexists; split; [vm_compute; reflexivity | discriminate]|]).
  constructor.
Qed.

Lemma no_mongo_uri_incomplete : ¬ Forall (is_set no_mongo_uri) required_variables.
Proof.
  intros H. apply Forall_forall with (x := "MONGO_URI") in H.
  - destruct H as (s & Hs & _). vm_compute in Hs. discriminate.
  - unfold required_variables. repeat constructor.
Qed.

Lemma run_requires_config_witness :
  UploadLogos.validate_config (online environment) (world_of [unikraft])
  = (Ret tt, world_of [unikraft])
  ∧ UploadLogos.run no_mongo_uri None None None (world_of [unikraft])
    = (Raise (SystemExit 1), world_of [unikraft])
  ∧ UploadLogos.main no_mongo_uri ["--dry"; "--o=unikraft"]
      (world_of [unikraft])
    = (Raise (SystemExit 1), world_of [unikraft]).
Proof.
  split; [|split].
  - apply (run_requires_config (online environment) (world_of [unikraft])).
    exact environment_complete.
  - apply (run_requires_config no_mongo_uri (world_of [unikraft])).
    exact no_mongo_uri_incomplete.
  - destruct (run_requires_config no_mongo_uri (world_of [unikraft]))
      as [_ H].
    destruct (H no_mongo_uri_incomplete) as [_ Hmain].
    exact (Hmain ["--dry"; "--o=unikraft"] _ eq_refl eq_refl).
Defined.

Lemma find_none (q : filter) (coll : list document) :
  Forall (λ d, matches q d = false) coll → find q coll = [].
Proof.
  induction 1 as [|d coll Hd _ IH]; [done|].
  unfold find in *. cbn. by rewrite Hd.
Qed.

(** X2: when every record of the collection already carries a non-empty
    logo_r2_url, a run in default mode selects nothing: it returns at once,
    without a request, an upload or an update, and the world is as it
    was. *)
Theorem run_nothing_left (e : env) (dry_run : option bool) (w : world) :
  Forall (is_set e) required_variables →
  Forall (λ d, ∃ s, d !! "logo_r2_url" = Some (VStr s) ∧ s ≠ "")
    (organizations w) →
  UploadLogos.run e None None dry_run w = (Ret None, w).
Proof.
  intros He Hall. unfold UploadLogos.run. cbv zeta.
  unfold mbind at 1, M_bind, bind. rewrite (validate_config_ok e w He).
  run_effects. unfold UploadLogos.select.
  rewrite find_none; [done|].
  eapply Forall_impl; [exact Hall|]. intros d (s & Hs & Hne).
  apply not_true_is_false. rewrite default_query_matches.
  intros ([H|[H|H]] & _); rewrite Hs in H; try discriminate.
  by injection H as ->.
Qed.

Lemma run_nothing_left_witness :
  UploadLogos.run (online environment) None None None
    (world_of [unikraft_published])
  = (Ret None, world_of [unikraft_published]).
Proof.
  apply (run_nothing_left (online environment) None
           (world_of [unikraft_published])).
  - exact environment_complete.
  - repeat constructor. eexists. split; [vm_compute; reflexivity | discriminate].
Defined.

(** ** The write-back to the collection *)

Lemma update_one_first (q : filter) (s : list (string * value))
  (pre post : list document) (d : document) :
  Forall (λ x, matches q x = false) pre →
  matches q d = true →
  update_one q s (pre ++ d :: post) = pre ++ after_set s d :: post.
Proof.
  intros Hpre Hd. induction Hpre as [|x pre Hx _ IH]; cbn.
  - by rewrite Hd.
  - by rewrite Hx, IH.
Qed.

Lemma update_one_none (q : filter) (s : list (string * value))
  (coll : list document) :
  Forall (λ x, matches q x = false) coll → update_one q s coll = coll.
Proof.
  induction 1 as [|x coll Hx _ IH]; cbn; [done|]. by rewrite Hx, IH.
Qed.

Lemma public_url_nonempty (e : env) (key : string) :
  UploadLogos.public_url_of e key ≠ "".
Proof.
  unfold UploadLogos.public_url_of.
  destruct (String.eqb (UploadLogos.R2_PUBLIC_URL e) "") eqn:E; cbn.
  - discriminate.
  - apply String.eqb_neq in E.
    destruct (UploadLogos.R2_PUBLIC_URL e); [done | discriminate].
Qed.

Lemma after_set_output_fields (e : env) (key : string) (d : document) :
  after_set (output_fields e key) d !! "logo_local_filename" = Some (VStr key)
  ∧ after_set (output_fields e key) d !! "logo_r2_url"
    = Some (VStr (UploadLogos.public_url_of e key))
  ∧ after_set (output_fields e key) d !! "logo_uploaded_at"
    = Some (VInt (utcnow e))
  ∧ ∀ k, k ∉ ["logo_local_filename"; "logo_r2_url"; "logo_uploaded_at"] →
         after_set (output_fields e key) d !! k = d !! k.
Proof.
  unfold after_set, output_fields. cbn [foldl fst snd].
  split; [by rewrite !lookup_insert_ne, lookup_insert_eq by done|].
  split; [by rewrite lookup_insert_ne, lookup_insert_eq by done|].
  split; [by rewrite lookup_insert_eq|].
  intros k Hk. rewrite !lookup_insert_ne; [done|..];
    intros <-; apply Hk; repeat constructor.
Qed.

(** X3: when the download, the upload and the update of a record all go
    through, [process_organization] returns True; the file is in the logos
    directory, the object is in the store under the key with the content
    type of the URL, and the first record of the collection with the
    canonical_id of the processed record carries the key, the public URL
    and the time of the update. Its other fields and all other records are
    as before. *)
Theorem publish_writes_back (e : env) (org d : document)
  (pre post : list document) (u key body : string) (w : world) :
  or_ (get org "image_url") (get org "logoUrl") = VStr u →
  truthy (VStr u) = true →
  truthy (get org "image_slug") = true →
  UploadLogos.generate_r2_key (get org "image_slug") (VStr u) = inr key →
  fetch e u = Complete body →
  s3_accepts e key = true →
  mongo_accepts e (get org "canonical_id") = true →
  organizations w = pre ++ d :: post →
  Forall (λ x, eq_match (get org "canonical_id") (x !! "canonical_id") = false)
    pre →
  eq_match (get org "canonical_id") (d !! "canonical_id") = true →
  ∃ ct w',
    UploadLogos.process_organization e org false w = (Ret true, w')
    ∧ files w' !! PathLib.join UploadLogos.LOGOS_DIR key = Some body
    ∧ UploadLogos.get_content_type (VStr u) = inr ct
    ∧ bucket w' !! key = Some (body, ct)
    ∧ organizations w' = pre ++ after_set (output_fields e key) d :: post
    ∧ after_set (output_fields e key) d !! "logo_local_filename"
      = Some (VStr key)
    ∧ after_set (output_fields e key) d !! "logo_r2_url"
      = Some (VStr (UploadLogos.public_url_of e key))
    ∧ after_set (output_fields e key) d !! "logo_uploaded_at"
      = Some (VInt (utcnow e))
    ∧ ∀ k, k ∉ ["logo_local_filename"; "logo_r2_url"; "logo_uploaded_at"] →
           after_set (output_fields e key) d !! k = d !! k.
Proof.
  intros Hurl Hu Hslug Hkey Hf Hs Hm Hw Hpre Hd.
  destruct (content_type_of_key _ _ _ Hkey) as [ct Hct].
  eexists ct, _. split.
  { exact (publish_complete e org u key body Hurl Hu Hslug Hkey ct w
             Hct Hf Hs Hm). }
  split; [apply lookup_insert_eq|]. split; [exact Hct|].
  split; [apply lookup_insert_eq|]. split.
  { cbn [organizations]. rewrite Hw. by apply update_one_first. }
  apply after_set_output_fields.
Qed.

Lemma publish_writes_back_witness :
  ∃ w',
    UploadLogos.process_organization (online environment) unikraft false
      (world_of [jitsi; unikraft]) = (Ret true, w')
    ∧ organizations w' = [jitsi; unikraft_published]
    ∧ unikraft_published !! "logo_r2_url"
      = Some (VStr "https://cdn.example.org/unikraft.png")
    ∧ bucket w' !! "unikraft.png" = Some ("PNG", "image/png").
Proof.
  destruct (publish_writes_back (online environment) unikraft unikraft
              [jitsi] [] "https://host/logo.png" "unikraft.png" "PNG"
              (world_of [jitsi; unikraft])
              eq_refl eq_refl eq_refl eq_refl eq_refl eq_refl eq_refl eq_refl)
    as (ct & w' & Hp & _ & Hct & Hb & Ho & _ & Hu & _).
  - repeat constructor.
  - reflexivity.
  - exists w'. split; [exact Hp|]. split; [exact Ho|]. split; [exact Hu|].
    injection Hct as <-. exact Hb.
Defined.

Lemma find_app (q : filter) (l1 l2 : list document) :
  find q (l1 ++ l2) = find q l1 ++ find q l2.
Proof. apply List.filter_app. Qed.

Lemma published_not_selected (e : env) (key : string) (d : document) :
  matches UploadLogos.default_query (after_set (output_fields e key) d) = false.
Proof.
  apply not_true_is_false. rewrite default_query_matches.
  destruct (after_set_output_fields e key d) as (_ & Hu & _).
  intros ([H|[H|H]] & _); rewrite Hu in H; try discriminate.
  injection H as H. by apply public_url_nonempty in H.
Qed.

Lemma eq_match_self (d : document) (k : string) :
  eq_match (get d k) (d !! k) = true.
Proof.
  unfold get, eq_match. destruct (d !! k) as [[|n|s]|]; cbn;
    [done | apply Z.eqb_refl | apply String.eqb_refl | done].
Qed.

(** X4: a record that was published drops out of the default selection.
    When the record processed is a document of the collection, the first
    one with its canonical_id, the successful pipeline of X3 writes the
    three fields into that document, and the records a default-mode run
    selects from the new collection are those it selects among the other
    documents. *)
Theorem published_record_not_selected_again (e : env) (org : document)
  (pre post : list document) (u key body : string) (w : world) :
  or_ (get org "image_url") (get org "logoUrl") = VStr u →
  truthy (VStr u) = true →
  truthy (get org "image_slug") = true →
  UploadLogos.generate_r2_key (get org "image_slug") (VStr u) = inr key →
  fetch e u = Complete body →
  s3_accepts e key = true →
  mongo_accepts e (get org "canonical_id") = true →
  organizations w = pre ++ org :: post →
  Forall (λ x, eq_match (get org "canonical_id") (x !! "canonical_id") = false)
    pre →
  organizations (UploadLogos.process_organization e org false w).2
  = pre ++ after_set (output_fields e key) org :: post
  ∧ UploadLogos.select None None
      (organizations (UploadLogos.process_organization e org false w).2)
    = UploadLogos.select None None (pre ++ post).
Proof.
  intros Hurl Hu Hslug Hkey Hf Hs Hm Hw Hpre.
  destruct (content_type_of_key _ _ _ Hkey) as [ct Hct].
  rewrite (publish_complete e org u key body Hurl Hu Hslug Hkey ct w
             Hct Hf Hs Hm).
  cbn [snd organizations].
  rewrite Hw, update_one_first by (done || apply eq_match_self).
  split; [done|].
  unfold UploadLogos.select. rewrite !find_app. f_equal.
  unfold find. cbn [List.filter].
  pose proof (published_not_selected e key org) as Hn.
  unfold output_fields in Hn. by rewrite Hn.
Qed.

Lemma published_record_not_selected_again_witness :
  organizations
    (UploadLogos.process_organization (online environment) unikraft false
       (world_of [jitsi; unikraft])).2
  = [jitsi; unikraft_published]
  ∧ UploadLogos.select None None
      (organizations
         (UploadLogos.process_organization (online environment) unikraft false
            (world_of [jitsi; unikraft])).2)
    = UploadLogos.select None None [jitsi].
Proof.
  apply (published_record_not_selected_again (online environment) unikraft
           [jitsi] [] "https://host/logo.png" "unikraft.png" "PNG"
           (world_of [jitsi; unikraft])
           eq_refl eq_refl eq_refl eq_refl eq_refl eq_refl eq_refl eq_refl).
  repeat constructor.
Defined.

(** ** Where the pipeline of one record stops *)

Lemma key_of_string (image_slug url : value) (key : string) :
  UploadLogos.generate_r2_key image_slug url = inr key → ∃ u, url = VStr u.
Proof.
  unfold UploadLogos.generate_r2_key.
  destruct url as [|n|u]; cbn; [discriminate | discriminate | by exists u].
Qed.

Lemma untouched_or_eligible (e : env) (org : document) (dry_run : bool)
  (w : world) :
  (UploadLogos.process_organization e org dry_run w).2 = w
  ∨ ∃ u key,
      or_ (get org "image_url") (get org "logoUrl") = VStr u
      ∧ truthy (VStr u) = true
      ∧ truthy (get org "image_slug") = true
      ∧ UploadLogos.generate_r2_key (get org "image_slug") (VStr u) = inr key.
Proof.
  unfold UploadLogos.process_organization. cbv zeta.
  destruct (truthy (or_ _ _)) eqn:Hu; [|by left].
  destruct (truthy (get org "image_slug")) eqn:Hslug; [|by left].
  destruct (UploadLogos.generate_r2_key _ _) as [x|key] eqn:Hkey; [by left|].
  destruct (key_of_string _ _ _ Hkey) as [u Hurl].
  right. exists u, key. rewrite Hurl in *. done.
Qed.

Section Stops.
Context (e : env) (org : document) (u key : string).
Hypothesis Hurl : or_ (get org "image_url") (get org "logoUrl") = VStr u.
Hypothesis Hu : truthy (VStr u) = true.
Hypothesis Hslug : truthy (get org "image_slug") = true.
Hypothesis Hkey :
  UploadLogos.generate_r2_key (get org "image_slug") (VStr u) = inr key.

Lemma download_refused (dry_run : bool) (w : world) :
  fetch e u = Refused →
  UploadLogos.process_organization e org dry_run w
  = (Ret false, with_event (Get u) w).
Proof.
  intros Hf. unfold UploadLogos.process_organization.
  rewrite Hurl, Hu, Hslug, Hkey. cbn -[PathLib.join]. rewrite Hf.
  by run_effects.
Qed.

Lemma download_broken (dry_run : bool) (part : string) (w : world) :
  fetch e u = Broken part →
  UploadLogos.process_organization e org dry_run w
  = (Ret false,
     {| organizations := organizations w;
        files := <[PathLib.join UploadLogos.LOGOS_DIR key := part]> (files w);
        bucket := bucket w;
        trace := trace w ++ [Get u] |}).
Proof.
  intros Hf. unfold UploadLogos.process_organization.
  rewrite Hurl, Hu, Hslug, Hkey. cbn -[PathLib.join]. rewrite Hf.
  by run_effects.
Qed.

Lemma upload_refused (ct body : string) (w : world) :
  UploadLogos.get_content_type (VStr u) = inr ct →
  fetch e u = Complete body →
  s3_accepts e key = false →
  UploadLogos.process_organization e org false w
  = (Ret false,
     {| organizations := organizations w;
        files := <[PathLib.join UploadLogos.LOGOS_DIR key := body]> (files w);
        bucket := bucket w;
        trace := trace w ++ [Get u; PutObject key ct] |}).
Proof.
  intros Hct Hf Hs. unfold UploadLogos.process_organization.
  rewrite Hurl, Hu, Hslug, Hkey, Hct. cbn -[PathLib.join]. rewrite Hf.
  run_effects. rewrite lookup_insert_eq. run_effects.
  rewrite lookup_insert_eq, Hs. run_effects. by rewrite <- !app_assoc.
Qed.
End Stops.

(** X5: a download that does not complete ends the record with False
    after the one request: nothing is uploaded or written back, and a
    download that broke off leaves the part it wrote in the logos
    directory. An upload the store refuses ends the record with False
    after the [put_object] call: no update is made, the collection and the
    store are as before and the downloaded file stays. *)
Theorem failed_step_stops_the_record (e : env) (org : document)
  (u key : string) (w : world) :
  or_ (get org "image_url") (get org "logoUrl") = VStr u →
  truthy (VStr u) = true →
  truthy (get org "image_slug") = true →
  UploadLogos.generate_r2_key (get org "image_slug") (VStr u) = inr key →
  (fetch e u = Refused →
   ∀ dry_run,
     UploadLogos.process_organization e org dry_run w
     = (Ret false, with_event (Get u) w))
  ∧ (∀ part, fetch e u = Broken part →
     ∀ dry_run,
       UploadLogos.process_organization e org dry_run w
       = (Ret false,
          {| organizations := organizations w;
             files := <[PathLib.join UploadLogos.LOGOS_DIR key := part]>
                        (files w);
             bucket := bucket w;
             trace := trace w ++ [Get u] |}))
  ∧ (∀ body, fetch e u = Complete body → s3_accepts e key = false →
     ∃ ct,
       UploadLogos.get_content_type (VStr u) = inr ct
       ∧ UploadLogos.process_organization e org false w
         = (Ret false,
            {| organizations := organizations w;
               files := <[PathLib.join UploadLogos.LOGOS_DIR key := body]>
                          (files w);
               bucket := bucket w;
               trace := trace w ++ [Get u; PutObject key ct] |})).
Proof.
  intros Hurl Hu Hslug Hkey. split; [|split].
  - intros Hf dry. by apply download_refused with key.
  - intros part Hf dry. by apply download_broken.
  - intros body Hf Hs. destruct (content_type_of_key _ _ _ Hkey) as [ct Hct].
    exists ct. split; [done|]. by apply upload_refused.
Qed.

Lemma failed_step_stops_the_record_witness :
  UploadLogos.process_organization flaky_source unikraft false
    (world_of [unikraft])
  = (Ret false,
     {| organizations := [unikraft];
        files := {[ "logos/unikraft.png" := "PN" ]};
        bucket := ∅;
        trace := [Get "https://host/logo.png"] |})
  ∧ UploadLogos.process_organization store_down unikraft false
      (world_of [unikraft])
    = (Ret false,
       {| organizations := [unikraft];
          files := {[ "logos/unikraft.png" := "PNG" ]};
          bucket := ∅;
          trace := [Get "https://host/logo.png";
                    PutObject "unikraft.png" "image/png"] |}).
Proof.
  split.
  - destruct (failed_step_stops_the_record flaky_source unikraft
                "https://host/logo.png" "unikraft.png" (world_of [unikraft])
                eq_refl eq_refl eq_refl eq_refl) as (_ & H & _).
    exact (H "PN" eq_refl false).
  - destruct (failed_step_stops_the_record store_down unikraft
                "https://host/logo.png" "unikraft.png" (world_of [unikraft])
                eq_refl eq_refl eq_refl eq_refl) as (_ & _ & H).
    destruct (H "PNG" eq_refl eq_refl) as (ct & Hct & Hp).
    injection Hct as <-. exact Hp.
Defined.

(** X6: the collection is written only at the end of a successful record.
    Whenever [process_organization] leaves the collection different from
    what it was, the run was not a dry run, the result is True, the
    record's file is in the logos directory and its object is in the
    store, and the calls made were one request, one upload and one update,
    in that order. *)
Theorem collection_written_only_on_success (e : env) (org : document)
  (dry_run : bool) (w : world) :
  organizations (UploadLogos.process_organization e org dry_run w).2
  ≠ organizations w →
  dry_run = false
  ∧ (UploadLogos.process_organization e org dry_run w).1 = Ret true
  ∧ ∃ u key body ct,
      fetch e u = Complete body
      ∧ files (UploadLogos.process_organization e org dry_run w).2
          !! PathLib.join UploadLogos.LOGOS_DIR key = Some body
      ∧ bucket (UploadLogos.process_organization e org dry_run w).2 !! key
        = Some (body, ct)
      ∧ trace (UploadLogos.process_organization e org dry_run w).2
        = trace w ++ [Get u; PutObject key ct;
                      UpdateOne (get org "canonical_id")].
Proof.
  intros Hne.
  destruct (untouched_or_eligible e org dry_run w)
    as [Hw | (u & key & Hurl & Hu & Hslug & Hkey)];
    [by rewrite Hw in Hne|].
  destruct dry_run.
  { by destruct (process_organization_dry_run_local e org w) as [Ho _]. }
  destruct (content_type_of_key _ _ _ Hkey) as [ct Hct].
  destruct (fetch e u) as [|part|body] eqn:Hf.
  - by rewrite (download_refused e org u key Hurl Hu Hslug Hkey false w Hf)
      in Hne.
  - by rewrite (download_broken e org u key Hurl Hu Hslug Hkey false part w Hf)
      in Hne.
  - destruct (s3_accepts e key) eqn:Hs.
    + destruct (mongo_accepts e (get org "canonical_id")) eqn:Hm.
      * rewrite (publish_complete e org u key body Hurl Hu Hslug Hkey ct w
                   Hct Hf Hs Hm).
        split; [done|]. split; [done|]. exists u, key, body, ct.
        split; [done|]. split; [apply lookup_insert_eq|].
        split; [apply lookup_insert_eq | done].
      * by rewrite (publish_update_raises e org u key body Hurl Hu Hslug Hkey
                      ct w Hct Hf Hs Hm) in Hne.
    + by rewrite (upload_refused e org u key Hurl Hu Hslug Hkey ct body w
                    Hct Hf Hs) in Hne.
Qed.

Lemma collection_written_only_on_success_witness :
  (UploadLogos.process_organization (online environment) unikraft false
     (world_of [unikraft])).1 = Ret true
  ∧ ∃ u key body ct,
      fetch (online environment) u = Complete body
      ∧ bucket (UploadLogos.process_organization (online environment)
                  unikraft false (world_of [unikraft])).2 !! key
        = Some (body, ct).
Proof.
  destruct (collection_written_only_on_success (online environment) unikraft
              false (world_of [unikraft]))
    as (_ & Hr & u & key & body & ct & Hf & _ & Hb & _).
  - intros H.
    apply (f_equal (fmap (M := list) (λ d : document, d !! "logo_local_filename")))
      in H.
    vm_compute in H. discriminate H.
  - split; [exact Hr|]. by exists u, key, body, ct.
Defined.


(** ** The selection by slug *)

Lemma string_ltb_leb (s t : string) : String.ltb s t = negb (String.leb t s).
Proof.
  unfold String.ltb, String.leb. rewrite (String.compare_antisym t s).
  by destruct (String.compare s t).
Qed.

Lemma value_ltb_asym (a b : value) :
  value_ltb a b = true → value_ltb b a = false.
Proof.
  destruct a as [|n|s], b as [|m|t]; cbn; try done.
  - rewrite !Z.ltb_lt, Z.ltb_ge. lia.
  - rewrite !string_ltb_leb, negb_true_iff, negb_false_iff. intros H.
    destruct (String.leb_total s t) as [H'|H']; congruence.
Qed.

Lemma value_ltb_irrefl (a : value) : value_ltb a a = false.
Proof.
  destruct (value_ltb a a) eqn:E; [|done].
  by rewrite (value_ltb_asym _ _ E) in E.
Qed.

Lemma value_ltb_chain (a b c : value) :
  value_ltb a b = false → value_ltb b c = false → value_ltb a c = false.
Proof.
  destruct a as [|n|s], b as [|m|t], c as [|k|r]; cbn; try done.
  - rewrite !Z.ltb_ge. lia.
  - rewrite !string_ltb_leb, !negb_false_iff. intros H1 H2.
    apply Is_true_true. apply Is_true_true in H1, H2.
    change (String.le r s). change (String.le t s) in H1.
    change (String.le r t) in H2. by etrans.
Qed.

Lemma sort_desc_limit1_spec (k : string) (ds : list document) :
  match sort_desc_limit1 k ds with
  | [] => ds = []
  | [m] => m ∈ ds ∧ ∀ d, d ∈ ds → value_ltb (get m k) (get d k) = false
  | _ => False
  end.
Proof.
  induction ds as [|d r IH]; [done|]. cbn.
  destruct (sort_desc_limit1 k r) as [|m [|]]; [| |done].
  - subst r. split; [by left|]. intros x ->%list_elem_of_singleton.
    apply value_ltb_irrefl.
  - destruct IH as [Hm Hmax].
    destruct (value_ltb (get d k) (get m k)) eqn:Hlt.
    + split; [by right|]. intros x [->|Hx]%elem_of_cons; [|by apply Hmax].
      by apply value_ltb_asym.
    + split; [by left|]. intros x [->|Hx]%elem_of_cons.
      * apply value_ltb_irrefl.
      * apply value_ltb_chain with (get m k); [done | by apply Hmax].
Qed.

Lemma find_elem_of (q : filter) (coll : list document) (d : document) :
  d ∈ find q coll ↔ d ∈ coll ∧ matches q d = true.
Proof. unfold find. rewrite !list_elem_of_In. apply List.filter_In. Qed.

Lemma slug_eq_matches (t : string) (d : document) :
  matches (Field "slug" (Eq (VStr t))) d = true ↔ d !! "slug" = Some (VStr t).
Proof.
  cbn. destruct (d !! "slug") as [[|n|s]|]; cbn; split; try done.
  - by intros ->%String.eqb_eq.
  - intros [= ->]. apply String.eqb_refl.
Qed.

(** X8: with a non-empty [test_org] the selection holds at most one
    record, whatever [org_slugs] is: a record of the collection whose slug
    is [test_org], with the greatest canonical_id among those; it is empty
    only when no record has that slug. Whether the record was already
    published plays no part. *)
Theorem test_mode_selection (t : string) (org_slugs : option (list string))
  (coll : list document) :
  t ≠ "" →
  match UploadLogos.select (Some t) org_slugs coll with
  | [] => ∀ d, d ∈ coll → d !! "slug" ≠ Some (VStr t)
  | [m] =>
      m ∈ coll
      ∧ m !! "slug" = Some (VStr t)
      ∧ ∀ d, d ∈ coll → d !! "slug" = Some (VStr t) →
             value_ltb (get m "canonical_id") (get d "canonical_id") = false
  | _ => False
  end.
Proof.
  intros Ht. destruct t as [|a t]; [done|]. cbn [UploadLogos.select].
  pose proof (sort_desc_limit1_spec "canonical_id"
                (find (Field "slug" (Eq (VStr (String a t)))) coll)) as H.
  destruct (sort_desc_limit1 _ _) as [|m [|]]; [| |done].
  - intros d Hd Hs.
    assert (d ∈ find (Field "slug" (Eq (VStr (String a t)))) coll) as Hin
      by (apply find_elem_of; split; [done | by apply slug_eq_matches]).
    rewrite H in Hin. by apply elem_of_nil in Hin.
  - destruct H as [[Hm Hq]%find_elem_of Hmax].
    split; [done|]. split; [by apply slug_eq_matches|].
    intros d Hd Hs. apply Hmax, find_elem_of.
    split; [done | by apply slug_eq_matches].
Qed.

Lemma test_mode_selection_witness :
  match UploadLogos.select (Some "unikraft") (Some ["jitsi"])
          [jitsi; unikraft; unikraft_published] with
  | [m] => m !! "slug" = Some (VStr "unikraft")
  | _ => False
  end.
Proof.
  pose proof (test_mode_selection "unikraft" (Some ["jitsi"])
                [jitsi; unikraft; unikraft_published]
                ltac:(discriminate)) as H.
  destruct (UploadLogos.select _ _ _) as [|m [|]];
    [|exact (proj1 (proj2 H)) | destruct H].
  exfalso. apply (H unikraft); [repeat constructor | reflexivity].
Defined.

Lemma in_ops_holds (vs : list value) (fv : option value) :
  cond_holds (Ops (dict [("$in", OList vs)])) fv
  = existsb (λ v, eq_match v fv) vs.
Proof.
  unfold cond_holds, dict. cbn [foldl fst snd].
  rewrite insert_empty, map_to_list_singleton. cbn. apply andb_true_r.
Qed.

Lemma slug_in_matches (slugs : list string) (d : document) :
  matches (Field "slug" (Ops (dict [("$in", OList (VStr <$> slugs))]))) d = true
  ↔ ∃ s, s ∈ slugs ∧ d !! "slug" = Some (VStr s).
Proof.
  cbn [matches]. rewrite in_ops_holds, existsb_exists. split.
  - intros (v & Hv & Hm). apply list_elem_of_In, list_elem_of_fmap in Hv.
    destruct Hv as (s & -> & Hs). exists s. split; [done|].
    destruct (d !! "slug") as [[|n|s']|]; cbn in Hm; try done.
    by apply String.eqb_eq in Hm as ->.
  - intros (s & Hs & Hd). exists (VStr s). split.
    + apply list_elem_of_In, list_elem_of_fmap. by exists s.
    + rewrite Hd. cbn. apply String.eqb_refl.
Qed.

(** X9: with no (or an empty) [test_org] and a non-empty list of slugs,
    the selection holds exactly the records of the collection whose slug is
    one of the list, published or not; an empty [test_org] or an empty list
    counts as absent. *)
Theorem list_mode_selection (slugs : list string) (coll : list document)
  (d : document) :
  slugs ≠ [] →
  (d ∈ UploadLogos.select None (Some slugs) coll
   ↔ d ∈ coll ∧ ∃ s, s ∈ slugs ∧ d !! "slug" = Some (VStr s))
  ∧ UploadLogos.select (Some "") (Some slugs) coll
    = UploadLogos.select None (Some slugs) coll
  ∧ UploadLogos.select None (Some []) coll = UploadLogos.select None None coll
  ∧ UploadLogos.select (Some "") None coll = UploadLogos.select None None coll.
Proof.
  intros Hs. destruct slugs as [|s slugs]; [done|].
  split; [|done]. cbn [UploadLogos.select].
  by rewrite find_elem_of, slug_in_matches.
Qed.

Lemma list_mode_selection_witness :
  unikraft_published
  ∈ UploadLogos.select None (Some ["jitsi"; "unikraft"])
      [unikraft_published; no_url].
Proof.
  apply (list_mode_selection ["jitsi"; "unikraft"]
           [unikraft_published; no_url] unikraft_published
           ltac:(discriminate)).
  split; [repeat constructor|].
  exists "unikraft". split; [repeat constructor | reflexivity].
Defined.

(** ** Which URL is fetched *)

(** X10: the URL that is requested is image_url whenever that field is a
    non-empty string, whatever logoUrl holds; logoUrl is requested only
    when image_url is absent, null or empty. *)
Theorem image_url_preferred (e : env) (org : document) (dry_run : bool)
  (w : world) (u key : string) :
  truthy (VStr u) = true →
  truthy (get org "image_slug") = true →
  UploadLogos.generate_r2_key (get org "image_slug") (VStr u) = inr key →
  get org "image_url" = VStr u
  ∨ (truthy (get org "image_url") = false ∧ get org "logoUrl" = VStr u) →
  ∃ evs, trace (UploadLogos.process_organization e org dry_run w).2
         = trace w ++ Get u :: evs.
Proof.
  intros Hu Hslug Hkey H.
  apply download_attempted with key; try done.
  unfold or_. destruct H as [H | [Hf H]].
  - by rewrite H, Hu.
  - by rewrite Hf.
Qed.

Lemma image_url_preferred_witness :
  (∃ evs, trace (UploadLogos.process_organization (online environment)
                   both_urls false (world_of [both_urls])).2
          = [] ++ Get "https://host/new.png" :: evs)
  ∧ ∃ evs, trace (UploadLogos.process_organization (online environment)
                    empty_image_url false (world_of [empty_image_url])).2
           = [] ++ Get "https://host/old.gif" :: evs.
Proof.
  split.
  - apply (image_url_preferred (online environment) both_urls false
             (world_of [both_urls]) "https://host/new.png" "gnome.png"
             eq_refl eq_refl eq_refl).
    left. reflexivity.
  - apply (image_url_preferred (online environment) empty_image_url false
             (world_of [empty_image_url]) "https://host/old.gif" "gnome.gif"
             eq_refl eq_refl eq_refl).
    right. split; reflexivity.
Defined.

(** ** The shape of the extension in the key *)

(** X11: the extension in a derived key always has the form of a dot
    followed by at least one character, none of which is a dot, a slash,
    a question mark, a hash sign or an uppercase ASCII letter: the query
    and the fragment of the URL and the directories of its path never reach
    the key. *)
Theorem key_extension_shape (image_slug : value) (u key : string) :
  UploadLogos.generate_r2_key image_slug (VStr u) = inr key →
  ∃ r, key = format image_slug +:+ String "." r
       ∧ r ≠ ""
       ∧ PyStr.contains "." r = false
       ∧ PyStr.contains "/" r = false
       ∧ PyStr.contains "?" r = false
       ∧ PyStr.contains "#" r = false
       ∧ PyStr.all (λ c, negb (PyStr.is_upper c)) r = true.
Proof. apply key_shape. Qed.

Lemma key_extension_shape_witness :
  ∃ r, "gnome.jpeg" = "gnome" +:+ String "." r
       ∧ PyStr.contains "?" r = false
       ∧ PyStr.all (λ c, negb (PyStr.is_upper c)) r = true.
Proof.
  destruct (key_extension_shape (VStr "gnome")
              "https://host/a.b/Logo.v2.JPEG?size=2.5#top.png" "gnome.jpeg"
              eq_refl) as (r & Hk & _ & _ & _ & Hq & _ & Hu).
  by exists r.
Defined.

(** ** The pauses of the loop *)

Lemma sleeps_app (t1 t2 : list event) : sleeps (t1 ++ t2) = sleeps t1 + sleeps t2.
Proof. unfold sleeps. by rewrite List.filter_app, length_app. Qed.

Lemma sleeps_calls (evs : list event) : Forall is_call evs → sleeps evs = 0.
Proof.
  induction 1 as [|ev evs Hev _ IH]; [done|].
  unfold sleeps in *. cbn [List.filter]. by destruct ev.
Qed.

Lemma sleeps_after_record (e : env) (org : document) (dry_run : bool)
  (idx total : nat) (w : world) :
  sleeps (trace (UploadLogos.process_organization e org dry_run
                   (with_event (Banner idx total) w)).2)
  = sleeps (trace w).
Proof.
  destruct (process_organization_calls e org dry_run
              (with_event (Banner idx total) w)) as (evs & -> & Hev).
  cbn [trace with_event]. rewrite !sleeps_app, (sleeps_calls _ Hev).
  cbn. lia.
Qed.

(** X12: the loop pauses between two records and not after the last one.
    When the pause goes through, a batch of n records, n at least 1,
    numbered from 1 as [run] does, sleeps n - 1 times, whatever the outcome
    of each record; a batch of one record never sleeps. When [time.sleep]
    raises on the value of SLEEP_SECONDS (a negative number, a NaN, one
    that is too large, or the system refuses), a batch of two records or
    more ends after its first record with that exception: nothing was
    slept and the second record is not reached. *)
Theorem one_pause_between_records (e : env) (dry_run : bool)
  (orgs : list document) (c : UploadLogos.counters) (w : world) :
  orgs ≠ [] →
  (can_sleep e (UploadLogos.SLEEP_SECONDS e) = true ∨ (length orgs ≤ 1)%nat →
   sleeps (trace (UploadLogos.run_loop e dry_run (length orgs) 1 orgs c w).2)
   = sleeps (trace w) + (length orgs - 1))
  ∧ (∀ secs org org' rest,
       UploadLogos.SLEEP_SECONDS e = inr secs →
       can_sleep e (inr secs) = false →
       orgs = org :: org' :: rest →
       ∃ x, (∀ w', time_sleep e secs w' = (Raise x, w'))
            ∧ UploadLogos.run_loop e dry_run (length orgs) 1 orgs c w
              = (Raise x,
                 (UploadLogos.process_organization e org dry_run
                    (with_event (Banner 1 (length orgs)) w)).2)).
Proof.
  intros Hne. split.
  - assert (∀ total idx rest c w,
              rest ≠ [] → idx + length rest = S total →
              can_sleep e (UploadLogos.SLEEP_SECONDS e) = true
              ∨ (total ≤ idx)%nat →
              sleeps (trace (UploadLogos.run_loop e dry_run total idx rest
                               c w).2)
              = sleeps (trace w) + (length rest - 1)) as H.
    { clear. intros total idx rest. revert idx.
      induction rest as [|org rest IH]; intros idx c w Hne Hlen Hs; [done|].
      rewrite (run_loop_next _ _ _ _ _ _ _ _ Hs).
      set (r := UploadLogos.process_organization e org dry_run _).
      pose proof (sleeps_after_record e org dry_run idx total w) as Hr.
      fold r in Hr.
      destruct rest as [|org' rest]; cbn [length] in *.
      - cbn [UploadLogos.run_loop]. unfold ret, after_sleep. cbn [snd].
        assert ((idx <? total)%nat = false) as -> by (apply Nat.ltb_ge; lia).
        rewrite Hr. lia.
      - rewrite IH; [|done | cbn [length] in *; lia
                     |destruct Hs as [Hs|Hs]; [by left | exfalso; lia]].
        unfold after_sleep.
        assert ((idx <? total)%nat = true) as ->
            by (apply Nat.ltb_lt; cbn [length] in *; lia).
        cbn [trace with_event]. rewrite sleeps_app, Hr. cbn. lia. }
    intros Hs. apply H; [done | lia | destruct Hs; [by left | right; lia]].
  - intros secs org org' rest Hsecs Hs ->.
    destruct (time_sleep_fails e secs Hs) as [x Hx]. exists x.
    split; [exact Hx|]. rewrite run_loop_step.
    unfold pause, mbind, M_bind, bind. cbn [length Nat.ltb Nat.leb].
    rewrite Hsecs. cbn [lift ret]. by rewrite Hx.
Qed.

Lemma one_pause_between_records_witness :
  sleeps (trace (UploadLogos.run_loop (online environment) false 3 1
                   [unikraft; bad_url; jitsi]
                   {| UploadLogos.success_count := 0;
                      UploadLogos.fail_count := 0 |}
                   (world_of [unikraft; bad_url; jitsi])).2)
  = 2
  ∧ ∃ x, UploadLogos.run_loop negative_pause false 2 1 [unikraft; jitsi]
           {| UploadLogos.success_count := 0; UploadLogos.fail_count := 0 |}
           (world_of [unikraft; jitsi])
         = (Raise x,
            (UploadLogos.process_organization negative_pause unikraft false
               (with_event (Banner 1 2) (world_of [unikraft; jitsi]))).2).
Proof.
  split.
  - apply (one_pause_between_records (online environment) false
             [unikraft; bad_url; jitsi]
             {| UploadLogos.success_count := 0; UploadLogos.fail_count := 0 |}
             (world_of [unikraft; bad_url; jitsi])); [discriminate|].
    left. vm_compute. reflexivity.
  - destruct (one_pause_between_records negative_pause false
                [unikraft; jitsi]
                {| UploadLogos.success_count := 0;
                   UploadLogos.fail_count := 0 |}
                (world_of [unikraft; jitsi])) as [_ H]; [discriminate|].
    destruct (H (S754_finite true 4503599627370496 (-52)) unikraft jitsi []
                ltac:(vm_compute; reflexivity) ltac:(vm_compute; reflexivity)
                eq_refl) as (x & _ & Hx).
    by exists x.
Defined.

(** A negative SLEEP_SECONDS on a batch of two: the first record is
    published, then [time.sleep] raises ValueError and the run ends
    without reaching the second record. *)
Example negative_pause_ends_the_run :
  UploadLogos.SLEEP_SECONDS negative_pause
  = inr (S754_finite true 4503599627370496 (-52))
  ∧ (UploadLogos.run negative_pause None None None
       (world_of [unikraft; jitsi])).1 = Raise ValueError
  ∧ trace (UploadLogos.run negative_pause None None None
             (world_of [unikraft; jitsi])).2
    = [Banner 1 2; Get "https://host/logo.png";
       PutObject "unikraft.png" "image/png";
       UpdateOne (VStr "gsoc-unikraft-2024")].
Proof. by_evaluation. Qed.

(** ** The download-only tool *)

Lemma download_only_download_local (e : env) (url : value) (path : string) :
  steps local_only (DownloadLogos.download_logo e url path).
Proof. apply (download_logo_local e url path). Qed.

Lemma download_only_record_local (e : env) (org : document) (force : bool) :
  steps local_only (DownloadLogos.process_organization e org force).
Proof.
  unfold DownloadLogos.process_organization. cbv zeta. steps_structure.
  all: apply download_only_download_local.
Qed.

Lemma get_extension_from_url_raises (url : value) (x : exn) :
  DownloadLogos.get_extension_from_url url = inl x → is_Exception x = true.
Proof.
  unfold DownloadLogos.get_extension_from_url.
  destruct (url_suffix url) as [y|ext] eqn:E; [|done].
  intros [= <-]. by apply (url_suffix_raises _ _ E).
Qed.

Lemma download_only_record_raises (e : env) (org : document) (force : bool) :
  raises_only (λ x, is_Exception x = true)
    (DownloadLogos.process_organization e org force).
Proof.
  unfold DownloadLogos.process_organization. cbv zeta.
  repeat first
    [ apply raises_only_ret | apply stat_size_raises
    | apply raises_only_total; first
        [ apply (download_logo_total e) | intros ?; by eexists ]
    | apply raises_only_bind
    | progress intros
    | match goal with
      | |- raises_only _ (if ?b then _ else _) => destruct b
      end ].
  apply raises_only_lift. apply get_extension_from_url_raises.
Qed.

Lemma download_only_true_extension (e : env) (org : document) (force : bool)
  (w : world) :
  (DownloadLogos.process_organization e org force w).1 = Ret true →
  ∃ ext, DownloadLogos.get_extension_from_url
           (or_ (get org "image_url") (get org "logoUrl")) = inr ext.
Proof.
  unfold DownloadLogos.process_organization. cbv zeta.
  destruct (truthy (or_ _ _)); [|done].
  destruct (truthy (get org "image_slug")); [|done].
  destruct (DownloadLogos.get_extension_from_url _) as [x|ext]; [done|].
  by exists ext.
Qed.

Lemma download_only_loop_step (e : env) (force : bool) (total idx : nat)
  (org : document) (rest : list document) (c : DownloadLogos.counters)
  (w : world) :
  DownloadLogos.run_loop e force total idx (org :: rest) c w
  = (pause e (DownloadLogos.SLEEP_SECONDS e) idx total ≫= λ _,
     DownloadLogos.run_loop e force total (S idx) rest
       (download_tally c (DownloadLogos.process_organization e org force
                            (with_event (Banner idx total) w)).1))
      (DownloadLogos.process_organization e org force
         (with_event (Banner idx total) w)).2.
Proof.
  pose proof (download_only_record_raises e org force
                (with_event (Banner idx total) w)) as Hx.
  pose proof (download_only_true_extension e org force
                (with_event (Banner idx total) w)) as Ht.
  cbn [DownloadLogos.run_loop].
  unfold pause, mbind, M_bind, bind, try_except, emit, ret.
  fold (with_event (Banner idx total) w).
  destruct (DownloadLogos.process_organization e org force _)
    as [[[]|x] w1]; cbn [fst snd] in *.
  - destruct (Ht eq_refl) as [ext ->]. reflexivity.
  - reflexivity.
  - by rewrite (Hx x eq_refl).
Qed.

Lemma download_only_loop_next (e : env) (force : bool) (total idx : nat)
  (org : document) (rest : list document) (c : DownloadLogos.counters)
  (w : world) :
  can_sleep e (DownloadLogos.SLEEP_SECONDS e) = true ∨ (total ≤ idx)%nat →
  DownloadLogos.run_loop e force total idx (org :: rest) c w
  = DownloadLogos.run_loop e force total (S idx) rest
      (download_tally c (DownloadLogos.process_organization e org force
                           (with_event (Banner idx total) w)).1)
      (after_sleep idx total
         (DownloadLogos.process_organization e org force
            (with_event (Banner idx total) w)).2).
Proof.
  intros H. rewrite download_only_loop_step. unfold mbind at 1, M_bind, bind.
  by rewrite (pause_completes _ _ _ _ _ H).
Qed.

Lemma download_tally_total (c : DownloadLogos.counters) (r : result bool) :
  DownloadLogos.skip_count (download_tally c r) = DownloadLogos.skip_count c
  ∧ DownloadLogos.success_count (download_tally c r)
    + DownloadLogos.fail_count (download_tally c r)
    = S (DownloadLogos.success_count c + DownloadLogos.fail_count c).
Proof. destruct r as [[]|x]; cbn; split; lia. Qed.

Lemma download_only_loop_skips (e : env) (force : bool) (total idx : nat)
  (orgs : list document) (c c' : DownloadLogos.counters) (w : world) :
  (DownloadLogos.run_loop e force total idx orgs c w).1 = Ret c' →
  DownloadLogos.skip_count c' = DownloadLogos.skip_count c.
Proof.
  revert idx c w. induction orgs as [|org rest IH]; intros idx c w.
  { cbn. by intros [= <-]. }
  rewrite download_only_loop_step. unfold mbind at 1, M_bind, bind.
  set (r := DownloadLogos.process_organization e org force _).
  destruct (pause e _ idx total r.2) as [[[]|x] w1]; [|done].
  intros H%IH. rewrite H. apply download_tally_total.
Qed.

(** X13: the loop of the download-only tool never adds to its skip
    counter: the test ["[skip]" in str(result)] is made on the string of a
    bool. A record whose result is True adds one to the downloaded counter,
    also when its file was already there and nothing was fetched; any
    other outcome, an Exception included, adds one to the failed counter,
    and the loop is at the pause before the next record (third part).
    Whenever the loop returns, the skip counter is what it was (first
    part); when the pause goes through, or no pause is due, the loop does
    return and has gone through the whole batch (second part). *)
Theorem download_only_never_counts_skips (e : env) (force : bool)
  (total idx : nat) (orgs : list document) (c : DownloadLogos.counters)
  (w : world) :
  (∀ c', (DownloadLogos.run_loop e force total idx orgs c w).1 = Ret c' →
         DownloadLogos.skip_count c' = DownloadLogos.skip_count c)
  ∧ (can_sleep e (DownloadLogos.SLEEP_SECONDS e) = true ∨ (total ≤ idx)%nat →
     ∃ c' w',
       DownloadLogos.run_loop e force total idx orgs c w = (Ret c', w')
       ∧ DownloadLogos.success_count c' + DownloadLogos.fail_count c'
         = DownloadLogos.success_count c + DownloadLogos.fail_count c
           + length orgs)
  ∧ match orgs with
    | [] => True
    | org :: rest =>
        DownloadLogos.run_loop e force total idx orgs c w
        = (pause e (DownloadLogos.SLEEP_SECONDS e) idx total ≫= λ _,
           DownloadLogos.run_loop e force total (S idx) rest
             (download_tally c
                (DownloadLogos.process_organization e org force
                   (with_event (Banner idx total) w)).1))
            (DownloadLogos.process_organization e org force
               (with_event (Banner idx total) w)).2
    end.
Proof.
  split; [intros c'; apply download_only_loop_skips|].
  split; [|destruct orgs; [done | apply download_only_loop_step]].
  revert idx c w. induction orgs as [|org rest IH]; intros idx c w Hs.
  { exists c, w. cbn. split; [done | lia]. }
  rewrite (download_only_loop_next _ _ _ _ _ _ _ _ Hs).
  set (r := DownloadLogos.process_organization e org force _).
  destruct (IH (S idx) (download_tally c r.1) (after_sleep idx total r.2))
    as (c' & w' & -> & Hc).
  { destruct Hs as [Hs|Hs]; [by left | right; lia]. }
  destruct (download_tally_total c r.1) as [Hs1 Hc1].
  exists c', w'. split; [done | cbn [length]; lia].
Qed.

Lemma download_only_never_counts_skips_witness :
  ∃ c' w',
    DownloadLogos.run_loop (online environment) false 2 1 [unikraft; jitsi]
      {| DownloadLogos.success_count := 0; DownloadLogos.skip_count := 0;
         DownloadLogos.fail_count := 0 |} downloaded_before = (Ret c', w')
    ∧ DownloadLogos.success_count c' + DownloadLogos.fail_count c'
      = 0 + 0 + 2
    ∧ DownloadLogos.skip_count c' = 0.
Proof.
  destruct (download_only_never_counts_skips (online environment) false 2 1
              [unikraft; jitsi]
              {| DownloadLogos.success_count := 0;
                 DownloadLogos.skip_count := 0;
                 DownloadLogos.fail_count := 0 |} downloaded_before)
    as (Hk & Hr & _).
  destruct Hr as (c' & w' & Hrun & Hc); [left; vm_compute; reflexivity|].
  exists c', w'. split; [exact Hrun|]. split; [exact Hc|].
  apply Hk. by rewrite Hrun.
Defined.

(** X14: the download-only tool stays local: neither a record nor a whole
    run calls [put_object] or [update_one], and the store and the
    collection are after the run what they were before. *)
Theorem download_only_never_publishes (e : env) (test_org : option string)
  (org_slugs : option (list string)) (force : bool) (w : world) :
  local_only w (DownloadLogos.run e test_org org_slugs force w).2
  ∧ ∀ org, local_only w (DownloadLogos.process_organization e org force w).2.
Proof.
  split; [|intros org; apply download_only_record_local].
  assert (∀ total idx orgs c,
            steps local_only (DownloadLogos.run_loop e force total idx orgs c))
    as Hloop.
  { intros total idx orgs. revert idx.
    induction orgs as [|org rest IH]; intros idx c; [steps_structure|].
    cbn [DownloadLogos.run_loop]. steps_structure.
    all: first [ apply IH | apply download_only_record_local
               | apply steps_emit; intros w'; apply local_only_event;
                 cbn; tauto ]. }
  unfold DownloadLogos.run, DownloadLogos.validate_config.
  apply steps_bind; [apply _ | steps_structure | intros _].
  apply steps_bind; [apply _ | apply steps_get_organizations, _ | intros coll].
  destruct (DownloadLogos.select _ _ _) as [|org orgs]; [apply steps_ret, _|].
  apply steps_bind; [apply _ | apply Hloop | intros c; apply steps_ret, _].
Qed.



(** ** The default selections of the two tools *)

Lemma download_default_query_matches (d : document) :
  matches DownloadLogos.default_query d = true
  ↔ ((∃ v, d !! "image_url" = Some v ∧ v ≠ VStr "")
     ∨ (∃ v, d !! "logoUrl" = Some v ∧ v ≠ VStr ""))
    ∧ (∃ v, d !! "image_slug" = Some v ∧ v ≠ VStr "").
Proof.
  unfold DownloadLogos.default_query. cbn [matches forallb existsb].
  rewrite andb_true_r, !orb_false_r, !andb_true_iff, !orb_true_iff.
  rewrite !present_ops_holds. tauto.
Qed.

(** X16: in default mode the download-only tool selects the records of
    the collection in which image_url or logoUrl is present and not the
    empty string and image_slug is present and not the empty string, null
    passing both tests; the download-and-upload tool selects, of these,
    the records whose logo_r2_url is absent, null or the empty string. *)
Theorem default_selections_compared (coll : list document) (d : document) :
  (d ∈ DownloadLogos.select None None coll
   ↔ d ∈ coll
     ∧ ((∃ v, d !! "image_url" = Some v ∧ v ≠ VStr "")
        ∨ (∃ v, d !! "logoUrl" = Some v ∧ v ≠ VStr ""))
     ∧ (∃ v, d !! "image_slug" = Some v ∧ v ≠ VStr ""))
  ∧ (d ∈ UploadLogos.select None None coll
     ↔ d ∈ DownloadLogos.select None None coll
       ∧ (d !! "logo_r2_url" = None ∨ d !! "logo_r2_url" = Some VNone
          ∨ d !! "logo_r2_url" = Some (VStr ""))).
Proof.
  cbn [DownloadLogos.select UploadLogos.select].
  rewrite !find_elem_of, default_query_matches, download_default_query_matches.
  tauto.
Qed.

(** ** The public URL *)

Lemma rstrip_last (p : ascii → bool) (s t : string) (c : ascii) :
  PyStr.rstrip p s = t +:+ String c "" → p c = false.
Proof.
  revert t. induction s as [|a r IH]; intros t; cbn [PyStr.rstrip].
  - by destruct t.
  - destruct (PyStr.rstrip p r) as [|b r'] eqn:E.
    + destruct (p a) eqn:Ha; [by destruct t|].
      destruct t as [|x [|y t]]; [by intros [= <-] | done | done].
    + destruct t as [|x t]; [done|].
      change (String x t +:+ String c "") with (String x (t +:+ String c "")).
      intros [= _ H]. by apply (IH t).
Qed.

(** X17: the public URL written to the record is the configured base
    without its trailing slashes, a slash, and the key, so the base never
    contributes a slash of its own before the key; a base that is unset,
    empty or made of slashes only counts as not configured, and the URL is
    then the one of the store endpoint, with account, bucket and key. *)
Theorem public_url_shape (e : env) (key : string) :
  (UploadLogos.R2_PUBLIC_URL e = "" →
   UploadLogos.public_url_of e key
   = "https://" +:+ format (getenv e "R2_ACCOUNT_ID")
     +:+ ".r2.cloudflarestorage.com/" +:+ format (getenv e "R2_BUCKET_NAME")
     +:+ "/" +:+ key)
  ∧ (UploadLogos.R2_PUBLIC_URL e ≠ "" →
     UploadLogos.public_url_of e key
     = UploadLogos.R2_PUBLIC_URL e +:+ "/" +:+ key
     ∧ ∀ t, UploadLogos.R2_PUBLIC_URL e ≠ t +:+ "/")
  ∧ (environ e !! "R2_PUBLIC_URL" = None → UploadLogos.R2_PUBLIC_URL e = "")
  ∧ ∀ base,
      environ e !! "R2_PUBLIC_URL" = Some base →
      PyStr.all (Ascii.eqb "/") base = true →
      UploadLogos.R2_PUBLIC_URL e = "".
Proof.
  split; [|split; [|split]].
  - intros H. unfold UploadLogos.public_url_of. by rewrite H.
  - intros H. unfold UploadLogos.public_url_of.
    apply String.eqb_neq in H as H'. rewrite H'. split; [done|].
    intros t Ht. unfold UploadLogos.R2_PUBLIC_URL in Ht.
    by apply rstrip_last in Ht.
  - intros H. unfold UploadLogos.R2_PUBLIC_URL, getenv_default. by rewrite H.
  - intros base H Hall. unfold UploadLogos.R2_PUBLIC_URL, getenv_default.
    rewrite H. change (default "" (Some base)) with base. clear H.
    induction base as [|a r IH]; [done|]. cbn [PyStr.all] in Hall.
    apply andb_true_iff in Hall as [Ha Hr]. cbn [PyStr.rstrip].
    by rewrite (IH Hr), Ha.
Qed.

Lemma public_url_shape_witness :
  UploadLogos.public_url_of (online environment) "unikraft.png"
  = "https://cdn.example.org/unikraft.png"
  ∧ UploadLogos.public_url_of slashes_only "unikraft.png"
    = "https://account.r2.cloudflarestorage.com/logos/unikraft.png".
Proof.
  split.
  - destruct (public_url_shape (online environment) "unikraft.png")
      as (_ & H & _).
    destruct H as [H _]; [discriminate | exact H].
  - destruct (public_url_shape slashes_only "unikraft.png") as (H & _ & _ & Hs).
    apply H. apply (Hs "//"); reflexivity.
Defined.

(** ** The test upload *)

Lemma store_variables_set (e : env) :
  Forall (is_set e) store_variables
  ↔ truthy (R2TestUpload.R2_ACCESS_KEY e)
    && truthy (R2TestUpload.R2_SECRET_KEY e)
    && truthy (R2TestUpload.R2_ACCOUNT_ID e)
    && truthy (R2TestUpload.R2_BUCKET e) = true.
Proof.
  unfold store_variables, R2TestUpload.R2_ACCESS_KEY,
    R2TestUpload.R2_SECRET_KEY, R2TestUpload.R2_ACCOUNT_ID,
    R2TestUpload.R2_BUCKET.
  rewrite !Forall_cons, !andb_true_iff, !truthy_getenv.
  split; [tauto|]. intros H. repeat split; try tauto. constructor.
Qed.

Lemma first_existing_found (pre post : list string) (path data : string)
  (w : world) :
  Forall (λ p, files w !! p = None) pre →
  files w !! path = Some data →
  R2TestUpload.first_existing (pre ++ path :: post) w = (Ret (Some path), w).
Proof.
  intros Hpre Hp. induction Hpre as [|x pre Hx _ IH];
    cbn [R2TestUpload.first_existing app]; run_effects.
  - by rewrite Hp.
  - by rewrite Hx.
Qed.

Lemma first_existing_none (paths : list string) (w : world) :
  Forall (λ p, files w !! p = None) paths →
  R2TestUpload.first_existing paths w = (Ret None, w).
Proof.
  induction 1 as [|x paths Hx _ IH];
    cbn [R2TestUpload.first_existing]; run_effects; [done|].
  by rewrite Hx.
Qed.

(** X18: the test upload exits with status 1, without a call, when one of
    the four store variables is absent or empty or when none of the three
    test images exists. Otherwise it takes the first test image that
    exists, in the order of the list: a dry run changes nothing; a real run
    puts the content of that image under the key
    test-sample-gsoc-logo.png with content type image/png, and exits with
    status 1 when the store refuses. *)
Theorem test_upload_outcome (e : env) (w : world) :
  (¬ Forall (is_set e) store_variables →
   R2TestUpload.script e w = (Raise (SystemExit 1), w))
  ∧ (Forall (is_set e) store_variables →
     (Forall (λ p, files w !! p = None) R2TestUpload.test_images →
      R2TestUpload.script e w = (Raise (SystemExit 1), w))
     ∧ ∀ pre post path data,
         R2TestUpload.test_images = pre ++ path :: post →
         Forall (λ p, files w !! p = None) pre →
         files w !! path = Some data →
         (R2TestUpload.DRY_RUN e = true →
          R2TestUpload.script e w = (Ret tt, w))
         ∧ (R2TestUpload.DRY_RUN e = false →
            s3_accepts e R2TestUpload.key = true →
            R2TestUpload.script e w
            = (Ret tt,
               {| organizations := organizations w;
                  files := files w;
                  bucket := <[R2TestUpload.key := (data, "image/png")]>
                              (bucket w);
                  trace := trace w
                           ++ [PutObject R2TestUpload.key "image/png"] |}))
         ∧ (R2TestUpload.DRY_RUN e = false →
            s3_accepts e R2TestUpload.key = false →
            R2TestUpload.script e w
            = (Raise (SystemExit 1),
               with_event (PutObject R2TestUpload.key "image/png") w))).
Proof.
  split.
  - intros H. unfold R2TestUpload.script.
    rewrite store_variables_set in H. apply not_true_is_false in H.
    by rewrite H.
  - intros H. apply store_variables_set in H. split.
    + intros Hnone. unfold R2TestUpload.script. rewrite H. cbn [negb].
      unfold mbind at 1, M_bind, bind.
      by rewrite (first_existing_none _ w Hnone).
    + intros pre post path data Himg Hpre Hp.
      assert (R2TestUpload.script e w
              = if R2TestUpload.DRY_RUN e then (Ret tt, w)
                else if s3_accepts e R2TestUpload.key
                     then (Ret tt,
                           {| organizations := organizations w;
                              files := files w;
                              bucket := <[R2TestUpload.key :=
                                            (data, "image/png")]> (bucket w);
                              trace := trace w
                                       ++ [PutObject R2TestUpload.key
                                             "image/png"] |})
                     else (Raise (SystemExit 1),
                           with_event
                             (PutObject R2TestUpload.key "image/png") w))
        as ->.
      { unfold R2TestUpload.script. rewrite H, Himg. cbn [negb].
        unfold mbind at 1, M_bind, bind.
        rewrite (first_existing_found pre post path data w Hpre Hp).
        run_effects. rewrite Hp.
        destruct (R2TestUpload.DRY_RUN e); [done|]. run_effects.
        by destruct (s3_accepts e R2TestUpload.key). }
      split; [by intros ->|]. split; by intros -> ->.
Qed.

Lemma test_upload_outcome_witness :
  R2TestUpload.script (online environment) with_test_image
  = (Ret tt, with_test_image)
  ∧ R2TestUpload.script really_upload with_test_image
    = (Ret tt,
       {| organizations := [unikraft];
          files := files with_test_image;
          bucket := <["test-sample-gsoc-logo.png" := ("JPEG", "image/png")]> ∅;
          trace := [PutObject "test-sample-gsoc-logo.png" "image/png"] |}).
Proof.
  assert (∀ vars, Forall (is_set (online (<["DRY_RUN" := vars]> environment)))
                    store_variables) as Hset.
  { intros vars. unfold store_variables.
    repeat (apply Forall_cons; split;
            [eexists; split; [vm_compute; reflexivity | discriminate]|]).
    constructor. }
  assert (Forall (is_set (online environment)) store_variables) as Hset0.
  { unfold store_variables.
    repeat (apply Forall_cons; split;
            [eexists; split; [vm_compute; reflexivity | discriminate]|]).
    constructor. }
  split.
  - destruct (test_upload_outcome (online environment) with_test_image)
      as [_ H].
    destruct (H Hset0) as [_ H'].
    destruct (H' ["../test-image.jpg"] ["../api-data-scrapper/test-image.jpg"]
                "test-image.jpg" "JPEG" eq_refl) as (Hd & _).
    + repeat constructor.
    + reflexivity.
    + exact (Hd eq_refl).
  - destruct (test_upload_outcome really_upload with_test_image) as [_ H].
    destruct (H (Hset "false")) as [_ H'].
    destruct (H' ["../test-image.jpg"] ["../api-data-scrapper/test-image.jpg"]
                "test-image.jpg" "JPEG" eq_refl) as (_ & Hu & _).
    + repeat constructor.
    + reflexivity.
    + exact (Hu eq_refl eq_refl).
Defined.

Lemma test_upload_cases (e : env) (w : world) :
  ∃ r w',
    R2TestUpload.script e w = (r, w')
    ∧ (w' = w
       ∨ (R2TestUpload.DRY_RUN e = false
          ∧ ∃ b t, w' = {| organizations := organizations w;
                           files := files w; bucket := b; trace := t |})).
Proof.
  assert (∀ paths, ∃ r, R2TestUpload.first_existing paths w = (Ret r, w))
    as Hfirst.
  { induction paths as [|p paths [r IH]];
      cbn [R2TestUpload.first_existing]; run_effects; [by eexists|].
    destruct (files w !! p); cbn; [by eexists | by exists r]. }
  unfold R2TestUpload.script.
  destruct (negb _); [eexists _, _; split; [done | by left]|].
  unfold mbind at 1, M_bind, bind.
  destruct (Hfirst R2TestUpload.test_images) as [[path|] ->];
    [|eexists _, _; split; [done | by left]].
  run_effects.
  destruct (files w !! path); [|eexists _, _; split; [done | by left]].
  destruct (R2TestUpload.DRY_RUN e) eqn:Hd;
    [eexists _, _; split; [done | by left]|].
  run_effects.
  destruct (s3_accepts e R2TestUpload.key); cbn;
    (eexists _, _; split; [done|]; right; split; [done | by eexists _, _]).
Qed.

(** X19: the test upload is a dry run unless DRY_RUN is set to something
    other than 1, true or yes: with the variable unset the world is after
    the script what it was before. In no case does the script write a file
    or the collection. *)
Theorem test_upload_dry_by_default (e : env) (w : world) :
  organizations (R2TestUpload.script e w).2 = organizations w
  ∧ files (R2TestUpload.script e w).2 = files w
  ∧ (environ e !! "DRY_RUN" = None → (R2TestUpload.script e w).2 = w)
  ∧ (R2TestUpload.DRY_RUN e = true → (R2TestUpload.script e w).2 = w).
Proof.
  assert (environ e !! "DRY_RUN" = None → R2TestUpload.DRY_RUN e = true)
    as Hdefault.
  { intros H. unfold R2TestUpload.DRY_RUN, getenv_default. by rewrite H. }
  destruct (test_upload_cases e w)
    as (r & w' & -> & [-> | (Hd & b & t & ->)]).
  - by repeat split.
  - split; [done|]. split; [done|]. split.
    + intros H. by rewrite (Hdefault H) in Hd.
    + intros H. by rewrite H in Hd.
Qed.

Lemma test_upload_dry_by_default_witness :
  (R2TestUpload.script (online environment) with_test_image).2
  = with_test_image.
Proof.
  destruct (test_upload_dry_by_default (online environment) with_test_image)
    as (_ & _ & H & _).
  apply H. reflexivity.
Defined.

(** ** Configuration of the download-only tool *)

(** X20: the download-only tool asks for the database URI only: [run]
    goes past [validate_config] when MONGO_URI is set to a non-empty
    string, whatever the store variables are, and exits with status 1
    before any request, leaving the world as it was, when it is absent or
    empty. *)
Theorem download_only_requires_mongo_uri (e : env) (w : world) :
  (is_set e "MONGO_URI" → DownloadLogos.validate_config e w = (Ret tt, w))
  ∧ (¬ is_set e "MONGO_URI" →
     ∀ test_org org_slugs force,
       DownloadLogos.run e test_org org_slugs force w
       = (Raise (SystemExit 1), w)).
Proof.
  unfold DownloadLogos.run, DownloadLogos.validate_config,
    DownloadLogos.MONGO_URI.
  split.
  - intros H%truthy_getenv. by rewrite H.
  - intros H t o f. rewrite <- truthy_getenv in H.
    apply not_true_is_false in H. by rewrite H.
Qed.

Lemma download_only_requires_mongo_uri_witness :
  DownloadLogos.validate_config mongo_only (world_of [unikraft])
  = (Ret tt, world_of [unikraft])
  ∧ DownloadLogos.run no_mongo_uri None None false (world_of [unikraft])
    = (Raise (SystemExit 1), world_of [unikraft]).
Proof.
  split.
  - apply (download_only_requires_mongo_uri mongo_only (world_of [unikraft])).
    eexists. split; [vm_compute; reflexivity | discriminate].
  - apply (download_only_requires_mongo_uri no_mongo_uri
             (world_of [unikraft])).
    intros (s & Hs & _). vm_compute in Hs. discriminate.
Defined.
